(** * Market-analysis agent (A2A advisory trading): a shallow embedding

    The development follows the two Python sources of the agent:

    - [agents/market_analysis/main/main.py]: [extract_user_input_from_task],
      [MarketAnalysisAgent.build_prompt], [MarketAnalysisAgent.analyze] and
      [MarketAnalysisAgent.extract_tags];
    - [agents/market_analysis/agent_card.py]: [lambda_handler].

    Python values are modelled by the inductive type [pyval]; a Python [str]
    is a Rocq [string] holding its UTF-8 encoding (all characters the code
    inspects are ASCII); a [dict] is an association list in insertion order,
    because [str] of a dict prints it in that order.  Code that can raise
    returns a [result]; code that talks to the model, draws a UUID or reads
    the clock runs in the state-and-exception monad [M] over the world of a
    [Runtime]. *)

From Stdlib Require Import String Ascii List ZArith Bool Lia DecimalString.
Import ListNotations.
Open Scope string_scope.
Set Warnings "-register-all".

(* ===================================================================== *)
(** * Text *)
(* ===================================================================== *)

(** The double-quote character. *)
Definition dq : ascii := "034"%char.

(** [qq s] is [s] with every backquote replaced by a double quote; it is used
    to write down texts that contain double quotes. *)
Fixpoint qq (s : string) : string :=
  match s with
  | EmptyString => EmptyString
  | String c r => String (if Ascii.eqb c "`"%char then dq else c) (qq r)
  end.

(** Python's [needle in hay] on strings. *)
Definition contains (hay needle : string) : Prop :=
  exists pre post, hay = pre ++ needle ++ post.

(** Python's [s.endswith(suffix)]. *)
Definition ends_with (s suffix : string) : Prop :=
  exists pre, s = pre ++ suffix.

Fixpoint prefixb (p s : string) : bool :=
  match p, s with
  | EmptyString, _ => true
  | String a p', String b s' => Ascii.eqb a b && prefixb p' s'
  | String _ _, EmptyString => false
  end.

(** Executable version of [contains]. *)
Fixpoint containsb (hay needle : string) : bool :=
  prefixb needle hay ||
  match hay with
  | EmptyString => false
  | String _ r => containsb r needle
  end.

(** [drop_prefix p s] is the rest of [s] after the prefix [p], when [s]
    starts with [p] (Python's [s[i:i+len(p)] == p] tests of the scanner). *)
Fixpoint drop_prefix (p s : string) : option string :=
  match p, s with
  | EmptyString, _ => Some s
  | String a p', String b s' => if Ascii.eqb a b then drop_prefix p' s' else None
  | String _ _, EmptyString => None
  end.

(** Decimal text of an integer: Python's [str] on [int]. *)
Definition str_of_Z (z : Z) : string := NilZero.string_of_int (Z.to_int z).

(** A byte of the form 10xxxxxx continues a UTF-8 sequence. *)
Definition is_continuation (c : ascii) : bool :=
  let n := N_of_ascii c in ((128 <=? n) && (n <? 192))%N.

(** The characters of a text: every byte that is not a continuation byte
    starts a new character (this is what iterating over a [str] yields). *)
Fixpoint chars_from (cur : string) (s : string) : list string :=
  match s with
  | EmptyString => [cur]
  | String c r =>
      if is_continuation c then chars_from (cur ++ String c EmptyString) r
      else cur :: chars_from (String c EmptyString) r
  end.

Definition chars (s : string) : list string :=
  match s with
  | EmptyString => []
  | String c r => chars_from (String c EmptyString) r
  end.

(* ===================================================================== *)
(** * Exceptions and results *)
(* ===================================================================== *)

(** An instance of (a subclass of) Python's [Exception]: its class name and
    its [str].  Every handler of the sources is [except Exception], which
    catches all of them. *)
Record exn := Exception { exn_class : string; exn_str : string }.

Inductive result (A : Type) :=
| Ok (a : A)
| Raise (e : exn).
Arguments Ok {A} a.
Arguments Raise {A} e.

Definition TypeError (msg : string) : exn := Exception "TypeError" msg.
Definition KeyError (msg : string) : exn := Exception "KeyError" msg.
Definition AttributeError (msg : string) : exn := Exception "AttributeError" msg.
(** [json.loads] failed; the position-dependent message is not modelled, the
    sources never look at it. *)
Definition JSONDecodeError : exn := Exception "JSONDecodeError" "Expecting value".

Definition rbind {A B} (r : result A) (k : A -> result B) : result B :=
  match r with
  | Ok a => k a
  | Raise e => Raise e
  end.

(* ===================================================================== *)
(** * Python values *)
(* ===================================================================== *)

(** The values that JSON and the task protocol carry.  A [float] is kept as
    the decimal literal it was read from. *)
Inductive pyval :=
| PNone
| PBool (b : bool)
| PInt (z : Z)
| PFloat (literal : string)
| PStr (s : string)
| PList (l : list pyval)
| PDict (d : list (string * pyval)).

Definition pydict := list (string * pyval).

(** [k in d] *)
Fixpoint dict_mem (d : pydict) (k : string) : bool :=
  match d with
  | [] => false
  | (k', _) :: r => String.eqb k' k || dict_mem r k
  end.

(** [d.get(k)] as an option *)
Fixpoint dict_lookup (d : pydict) (k : string) : option pyval :=
  match d with
  | [] => None
  | (k', v) :: r => if String.eqb k' k then Some v else dict_lookup r k
  end.

(** [d.get(k, default)] *)
Definition dict_get (d : pydict) (k : string) (default : pyval) : pyval :=
  match dict_lookup d k with
  | Some v => v
  | None => default
  end.

(** [d[k] = v]: an existing key keeps its place, a new key goes last. *)
Fixpoint dict_set (d : pydict) (k : string) (v : pyval) : pydict :=
  match d with
  | [] => [(k, v)]
  | (k', v') :: r =>
      if String.eqb k' k then (k', v) :: r else (k', v') :: dict_set r k v
  end.

(** [dict(pairs)] *)
Definition dict_of_pairs (pairs : list (string * pyval)) : pydict :=
  fold_left (fun d kv => dict_set d (fst kv) (snd kv)) pairs [].

(** [type(v).__name__] *)
Definition type_name (v : pyval) : string :=
  match v with
  | PNone => "NoneType"
  | PBool _ => "bool"
  | PInt _ => "int"
  | PFloat _ => "float"
  | PStr _ => "str"
  | PList _ => "list"
  | PDict _ => "dict"
  end.

(** The two built-ins of the interpreter that are taken as given: [repr] of a
    float (as a function of the literal the float was read from) and [repr]
    of a [str]. *)
Class Builtins := {
  float_repr : string -> string;
  str_repr : string -> string
}.

Section PythonBuiltins.
Context {B : Builtins}.

(** [bool(v)]: a float is falsy when it is a zero. *)
Definition py_truthy (v : pyval) : bool :=
  match v with
  | PNone => false
  | PBool b => b
  | PInt z => negb (z =? 0)%Z
  | PFloat f =>
      negb (String.eqb (float_repr f) "0.0" || String.eqb (float_repr f) "-0.0")
  | PStr s => negb (String.eqb s EmptyString)
  | PList l => match l with [] => false | _ => true end
  | PDict d => match d with [] => false | _ => true end
  end.

(** [repr(v)] *)
Fixpoint py_repr (v : pyval) : string :=
  match v with
  | PNone => "None"
  | PBool true => "True"
  | PBool false => "False"
  | PInt z => str_of_Z z
  | PFloat f => float_repr f
  | PStr s => str_repr s
  | PList l => "[" ++ String.concat ", " (map py_repr l) ++ "]"
  | PDict d =>
      "{" ++ String.concat ", "
               (map (fun kv => str_repr (fst kv) ++ ": " ++ py_repr (snd kv)) d)
          ++ "}"
  end.

(** [str(v)], which is also what an f-string field [{v}] inserts.  Integers
    are taken to be within the interpreter's limit for conversion to text, as
    every integer read by [json.loads] is. *)
Definition py_str (v : pyval) : string :=
  match v with
  | PStr s => s
  | _ => py_repr v
  end.

(** The items a [for] over [v] yields; [str.join] reports a non-iterable
    argument with its own message. *)
Definition join_items (v : pyval) : result (list pyval) :=
  match v with
  | PStr s => Ok (map PStr (chars s))
  | PList l => Ok l
  | PDict d => Ok (map (fun kv => PStr (fst kv)) d)
  | _ => Raise (TypeError "can only join an iterable")
  end.

Fixpoint join_strs (i : Z) (items : list pyval) : result (list string) :=
  match items with
  | [] => Ok []
  | PStr s :: r => rbind (join_strs (i + 1) r) (fun l => Ok (s :: l))
  | v :: _ =>
      Raise (TypeError ("sequence item " ++ str_of_Z i
                        ++ ": expected str instance, " ++ type_name v ++ " found"))
  end.

(** [sep.join(v)] *)
Definition py_join (sep : string) (v : pyval) : result string :=
  rbind (join_items v) (fun items =>
  rbind (join_strs 0 items) (fun l => Ok (String.concat sep l))).

(** [v[k]] with a string subscript. *)
Definition py_getitem (v : pyval) (k : string) : result pyval :=
  match v with
  | PDict d =>
      match dict_lookup d k with
      | Some x => Ok x
      | None => Raise (KeyError (str_repr k))
      end
  | PList _ =>
      Raise (TypeError "list indices must be integers or slices, not str")
  | PStr _ => Raise (TypeError "string indices must be integers, not 'str'")
  | _ => Raise (TypeError ("'" ++ type_name v ++ "' object is not subscriptable"))
  end.

(** [v.get(k, default)]: only a dict has the method. *)
Definition py_get (v : pyval) (k : string) (default : pyval) : result pyval :=
  match v with
  | PDict d => Ok (dict_get d k default)
  | _ =>
      Raise (AttributeError ("'" ++ type_name v ++ "' object has no attribute 'get'"))
  end.

End PythonBuiltins.

(* ===================================================================== *)
(** * The [json] module of the standard library *)
(* ===================================================================== *)

(** ** [json.loads]

    The decoder of CPython with its default settings: whitespace is space,
    tab, line feed and carriage return; strings are scanned in strict mode;
    [NaN], [Infinity] and [-Infinity] are accepted; a repeated key keeps its
    first place and its last value; an integer literal of more than
    [max_str_digits] digits is refused.  The interpreter's recursion limit on
    deeply nested documents is not modelled. *)

Definition is_ws (c : ascii) : bool :=
  Ascii.eqb c " "%char || Ascii.eqb c "009"%char ||
  Ascii.eqb c "010"%char || Ascii.eqb c "013"%char.

Fixpoint skip_ws (s : string) : string :=
  match s with
  | EmptyString => EmptyString
  | String c r => if is_ws c then skip_ws r else s
  end.

Definition is_digit (c : ascii) : bool :=
  let n := N_of_ascii c in ((48 <=? n) && (n <=? 57))%N.

Definition hex_val (c : ascii) : option N :=
  let n := N_of_ascii c in
  if ((48 <=? n) && (n <=? 57))%N then Some (n - 48)%N
  else if ((97 <=? n) && (n <=? 102))%N then Some (n - 87)%N
  else if ((65 <=? n) && (n <=? 70))%N then Some (n - 55)%N
  else None.

(** The four hexadecimal digits of a [\uXXXX] escape. *)
Definition decode_uXXXX (s : string) : option (N * string) :=
  match s with
  | String a (String b (String c (String d r))) =>
      match hex_val a, hex_val b, hex_val c, hex_val d with
      | Some x, Some y, Some z, Some w =>
          Some (((x * 16 + y) * 16 + z) * 16 + w, r)%N
      | _, _, _, _ => None
      end
  | _ => None
  end.

(** UTF-8 (generalised to lone surrogates) of a code point. *)
Definition utf8_encode (cp : N) : string :=
  let b n := String (ascii_of_N n) EmptyString in
  (if cp <? 128 then b cp
   else if cp <? 2048 then b (192 + cp / 64) ++ b (128 + cp mod 64)
   else if cp <? 65536 then
     b (224 + cp / 4096) ++ b (128 + (cp / 64) mod 64) ++ b (128 + cp mod 64)
   else
     b (240 + cp / 262144) ++ b (128 + (cp / 4096) mod 64)
       ++ b (128 + (cp / 64) mod 64) ++ b (128 + cp mod 64))%N.

(** The one-letter escapes of the decoder's [BACKSLASH] table. *)
Definition backslash (e : ascii) : option string :=
  let one n := Some (String (ascii_of_N n) EmptyString) in
  if Ascii.eqb e dq then one 34%N
  else if Ascii.eqb e "\"%char then one 92%N
  else if Ascii.eqb e "/"%char then one 47%N
  else if Ascii.eqb e "b"%char then one 8%N
  else if Ascii.eqb e "f"%char then one 12%N
  else if Ascii.eqb e "n"%char then one 10%N
  else if Ascii.eqb e "r"%char then one 13%N
  else if Ascii.eqb e "t"%char then one 9%N
  else None.

Definition is_high_surrogate (u : N) : bool := ((55296 <=? u) && (u <=? 56319))%N.
Definition is_low_surrogate (u : N) : bool := ((56320 <=? u) && (u <=? 57343))%N.

(** One round of the loop of [scanstring] on the text [s] after what was
    scanned so far, [acc] being what was decoded so far; [continue] stands
    for the next round. *)
Definition scanstring_step (continue : string -> string -> option (string * string))
  (s acc : string) : option (string * string) :=
  match s with
  | EmptyString => None
  | String c r =>
    if Ascii.eqb c dq then Some (acc, r)
    else if Ascii.eqb c "\"%char then
      match r with
      | EmptyString => None
      | String e r1 =>
        if Ascii.eqb e "u"%char then
          match decode_uXXXX r1 with
          | None => None
          | Some (uni, r2) =>
            if is_high_surrogate uni then
              match drop_prefix "\u" r2 with
              | None => continue r2 (acc ++ utf8_encode uni)
              | Some r3 =>
                match decode_uXXXX r3 with
                | None => None
                | Some (uni2, r4) =>
                  if is_low_surrogate uni2 then
                    continue r4
                      (acc ++ utf8_encode
                                (65536 + (uni - 55296) * 1024 + (uni2 - 56320))%N)
                  else continue r2 (acc ++ utf8_encode uni)
                end
              end
            else continue r2 (acc ++ utf8_encode uni)
          end
        else
          match backslash e with
          | Some ch => continue r1 (acc ++ ch)
          | None => None
          end
      end
    else if (N_of_ascii c <? 32)%N then None
    else continue r (acc ++ String c EmptyString)
  end.

(** [scanstring]: [s] is the text after the opening quote; the result is the
    decoded string and the text after the closing quote.  Every round takes
    at least one character, so a fuel above the length of [s] is enough
    ([scanstring_fuel]). *)
Fixpoint scanstring (fuel : nat) (s : string) (acc : string)
  : option (string * string) :=
  match fuel with
  | O => None
  | S f => scanstring_step (scanstring f) s acc
  end.

(** A string literal: the text after the opening quote is scanned. *)
Definition scan_string_literal (r : string) : option (string * string) :=
  scanstring (S (String.length r)) r EmptyString.

(** The longest prefix of digits, and the rest. *)
Fixpoint span_digits (s : string) : string * string :=
  match s with
  | EmptyString => (EmptyString, EmptyString)
  | String c r =>
      if is_digit c then
        let (d, rest) := span_digits r in (String c d, rest)
      else (EmptyString, s)
  end.

Fixpoint Z_of_digits (acc : Z) (s : string) : Z :=
  match s with
  | EmptyString => acc
  | String c r => Z_of_digits (10 * acc + (Z.of_N (N_of_ascii c) - 48))%Z r
  end.

(** [sys.get_int_max_str_digits()] *)
Definition max_str_digits : nat := 4300.

(** The groups of the decoder's [NUMBER_RE]: an optional minus sign and an
    integer part (a single 0, or a nonzero digit and more digits), then
    optionally a point and digits, then optionally an exponent letter, a sign
    and digits.  Each function returns what it matched and the rest; an
    optional group that cannot be matched in full matches nothing. *)
Definition match_sign (s : string) : string * string :=
  match s with
  | String c r => if Ascii.eqb c "-"%char then ("-", r) else (EmptyString, s)
  | EmptyString => (EmptyString, s)
  end.

Definition match_int (s : string) : option (string * string) :=
  match s with
  | EmptyString => None
  | String c r =>
      if is_digit c then
        Some (if Ascii.eqb c "0"%char then ("0", r) else span_digits s)
      else None
  end.

Definition match_frac (s : string) : string * string :=
  match s with
  | String p r =>
      if Ascii.eqb p "."%char then
        match span_digits r with
        | (EmptyString, _) => (EmptyString, s)
        | (fd, rest) => (String p fd, rest)
        end
      else (EmptyString, s)
  | EmptyString => (EmptyString, s)
  end.

Definition match_exp (s : string) : string * string :=
  match s with
  | String e r =>
      if Ascii.eqb e "e"%char || Ascii.eqb e "E"%char then
        let (sg, r1) :=
          match r with
          | String g x =>
              if Ascii.eqb g "+"%char || Ascii.eqb g "-"%char
              then (String g EmptyString, x) else (EmptyString, r)
          | EmptyString => (EmptyString, r)
          end in
        match span_digits r1 with
        | (EmptyString, _) => (EmptyString, s)
        | (ed, rest) => (String e (sg ++ ed), rest)
        end
      else (EmptyString, s)
  | EmptyString => (EmptyString, s)
  end.

(** The number at the head of [s] and its conversion: an [int] when there is
    neither fraction nor exponent, a [float] otherwise. *)
Definition match_number (s : string) : option (pyval * string) :=
  let (sign, s1) := match_sign s in
  match match_int s1 with
  | None => None
  | Some (ip, s2) =>
      let (frac, s3) := match_frac s2 in
      let (ex, s4) := match_exp s3 in
      match frac, ex with
      | EmptyString, EmptyString =>
          if Nat.ltb max_str_digits (String.length ip) then None
          else
            let n := Z_of_digits 0 ip in
            Some (PInt (if String.eqb sign "-" then (- n)%Z else n), s4)
      | _, _ => Some (PFloat (sign ++ ip ++ frac ++ ex), s4)
      end
  end.

(** The literals the scanner knows, in the order it tries them. *)
Definition scan_literal (s : string) : option (pyval * string) :=
  match drop_prefix "null" s with
  | Some r => Some (PNone, r)
  | None =>
  match drop_prefix "true" s with
  | Some r => Some (PBool true, r)
  | None =>
  match drop_prefix "false" s with
  | Some r => Some (PBool false, r)
  | None =>
  match match_number s with
  | Some res => Some res
  | None =>
  match drop_prefix "NaN" s with
  | Some r => Some (PFloat "NaN", r)
  | None =>
  match drop_prefix "Infinity" s with
  | Some r => Some (PFloat "Infinity", r)
  | None =>
  match drop_prefix "-Infinity" s with
  | Some r => Some (PFloat "-Infinity", r)
  | None => None
  end end end end end end end.

(** [scan_once] at the head of [s]; [members] and [elements] stand for the
    loops of the object and array decoders. *)
Definition scan_once_step
  (members : string -> list (string * pyval)
             -> option (list (string * pyval) * string))
  (elements : string -> list pyval -> option (list pyval * string))
  (s : string) : option (pyval * string) :=
  match s with
  | EmptyString => None
  | String c r =>
    if Ascii.eqb c dq then
      match scan_string_literal r with
      | Some (str, r1) => Some (PStr str, r1)
      | None => None
      end
    else if Ascii.eqb c "{"%char then
      match skip_ws r with
      | EmptyString => None
      | String c1 r1 =>
          if Ascii.eqb c1 "}"%char then Some (PDict [], r1)
          else
            match members (String c1 r1) [] with
            | Some (pairs, r2) => Some (PDict (dict_of_pairs pairs), r2)
            | None => None
            end
      end
    else if Ascii.eqb c "["%char then
      match skip_ws r with
      | EmptyString => None
      | String c1 r1 =>
          if Ascii.eqb c1 "]"%char then Some (PList [], r1)
          else
            match elements (String c1 r1) [] with
            | Some (items, r2) => Some (PList items, r2)
            | None => None
            end
      end
    else scan_literal s
  end.

(** One round of the object decoder's loop: a key, a colon, a value, and then
    a closing brace or a comma and the next round. *)
Definition scan_members_step
  (once : string -> option (pyval * string))
  (members : string -> list (string * pyval)
             -> option (list (string * pyval) * string))
  (s : string) (acc : list (string * pyval))
  : option (list (string * pyval) * string) :=
  match s with
  | EmptyString => None
  | String c r =>
    if Ascii.eqb c dq then
      match scan_string_literal r with
      | None => None
      | Some (key, r1) =>
        match skip_ws r1 with
        | EmptyString => None
        | String c2 r2 =>
          if Ascii.eqb c2 ":"%char then
            match once (skip_ws r2) with
            | None => None
            | Some (v, r3) =>
              match skip_ws r3 with
              | EmptyString => None
              | String c4 r4 =>
                if Ascii.eqb c4 "}"%char then Some ((acc ++ [(key, v)])%list, r4)
                else if Ascii.eqb c4 ","%char then
                  members (skip_ws r4) (acc ++ [(key, v)])%list
                else None
              end
            end
          else None
        end
      end
    else None
  end.

(** One round of the array decoder's loop: a value, and then a closing
    bracket or a comma and the next round. *)
Definition scan_elements_step
  (once : string -> option (pyval * string))
  (elements : string -> list pyval -> option (list pyval * string))
  (s : string) (acc : list pyval) : option (list pyval * string) :=
  match once s with
  | None => None
  | Some (v, r1) =>
    match skip_ws r1 with
    | EmptyString => None
    | String c2 r2 =>
      if Ascii.eqb c2 "]"%char then Some ((acc ++ [v])%list, r2)
      else if Ascii.eqb c2 ","%char then
        elements (skip_ws r2) (acc ++ [v])%list
      else None
    end
  end.

(** The scanner, with fuel for its recursion.  Twice the length of the text
    is enough ([scan_once_fuel]). *)
Fixpoint scan_once (fuel : nat) (s : string) : option (pyval * string) :=
  match fuel with
  | O => None
  | S f => scan_once_step (scan_members f) (scan_elements f) s
  end
with scan_members (fuel : nat) (s : string) (acc : list (string * pyval))
  : option (list (string * pyval) * string) :=
  match fuel with
  | O => None
  | S f => scan_members_step (scan_once f) (scan_members f) s acc
  end
with scan_elements (fuel : nat) (s : string) (acc : list pyval)
  : option (list pyval * string) :=
  match fuel with
  | O => None
  | S f => scan_elements_step (scan_once f) (scan_elements f) s acc
  end.

(** [json.loads(s)]: [None] stands for the exception the decoder raises. *)
Definition json_loads (s : string) : option pyval :=
  match scan_once (2 + 2 * String.length s) (skip_ws s) with
  | Some (v, r) =>
      match skip_ws r with
      | EmptyString => Some v
      | String _ _ => None
      end
  | None => None
  end.

(** ** [json.dumps]

    The encoder with its default settings ([ensure_ascii], separators
    [", "] and [": "]). *)

(** The code points of a text.  Ill-formed input, which no Python [str]
    encodes to, is passed through byte by byte. *)
Fixpoint utf8_decode (s : string) : list N :=
  match s with
  | EmptyString => []
  | String c r =>
    let n := N_of_ascii c in
    let cont x := (N_of_ascii x - 128)%N in
    if (n <? 192)%N then n :: utf8_decode r
    else if (n <? 224)%N then
      match r with
      | String c1 r1 =>
          if is_continuation c1
          then ((n - 192) * 64 + cont c1)%N :: utf8_decode r1
          else n :: utf8_decode r
      | EmptyString => [n]
      end
    else if (n <? 240)%N then
      match r with
      | String c1 (String c2 r2) =>
          if is_continuation c1 && is_continuation c2
          then (((n - 224) * 64 + cont c1) * 64 + cont c2)%N :: utf8_decode r2
          else n :: utf8_decode r
      | _ => n :: utf8_decode r
      end
    else
      match r with
      | String c1 (String c2 (String c3 r3)) =>
          if is_continuation c1 && is_continuation c2 && is_continuation c3
          then ((((n - 240) * 64 + cont c1) * 64 + cont c2) * 64 + cont c3)%N
               :: utf8_decode r3
          else n :: utf8_decode r
      | _ => n :: utf8_decode r
      end
  end.

Definition hex_digit (n : N) : ascii :=
  if (n <? 10)%N then ascii_of_N (48 + n) else ascii_of_N (87 + n).

(** [format(n, "04x")] *)
Definition hex4 (n : N) : string :=
  String (hex_digit ((n / 4096) mod 16)%N)
    (String (hex_digit ((n / 256) mod 16)%N)
       (String (hex_digit ((n / 16) mod 16)%N)
          (String (hex_digit (n mod 16)%N) EmptyString))).

(** The replacement the encoder's [ESCAPE_ASCII] makes for one character. *)
Definition escape_char (cp : N) : string :=
  if (cp =? 34)%N then String "\"%char (String dq EmptyString)
  else if (cp =? 92)%N then "\\"
  else if (cp =? 10)%N then "\n"
  else if (cp =? 13)%N then "\r"
  else if (cp =? 9)%N then "\t"
  else if (cp =? 8)%N then "\b"
  else if (cp =? 12)%N then "\f"
  else if ((32 <=? cp) && (cp <=? 126))%N then String (ascii_of_N cp) EmptyString
  else if (cp <? 65536)%N then "\u" ++ hex4 cp
  else
    let v := (cp - 65536)%N in
    "\u" ++ hex4 (55296 + v / 1024)%N ++ "\u" ++ hex4 (56320 + v mod 1024)%N.

(** [encode_basestring_ascii] *)
Definition encode_basestring_ascii (s : string) : string :=
  String dq (String.concat EmptyString (map escape_char (utf8_decode s)))
    ++ String dq EmptyString.

Section JsonDumps.
Context {B : Builtins}.

(** The encoder's [floatstr]. *)
Definition floatstr (literal : string) : string :=
  let r := float_repr literal in
  if String.eqb r "nan" then "NaN"
  else if String.eqb r "inf" then "Infinity"
  else if String.eqb r "-inf" then "-Infinity"
  else r.

Fixpoint json_dumps (v : pyval) : string :=
  match v with
  | PNone => "null"
  | PBool true => "true"
  | PBool false => "false"
  | PInt z => str_of_Z z
  | PFloat f => floatstr f
  | PStr s => encode_basestring_ascii s
  | PList l => "[" ++ String.concat ", " (map json_dumps l) ++ "]"
  | PDict d =>
      "{" ++ String.concat ", "
               (map (fun kv =>
                       encode_basestring_ascii (fst kv) ++ ": " ++ json_dumps (snd kv))
                    d)
          ++ "}"
  end.

End JsonDumps.

(* ===================================================================== *)
(** * The regular expression of [extract_tags] *)
(* ===================================================================== *)

(** What the lazy [[\s\S]*?}] matches at the start of [s]: the shortest prefix
    that ends with a closing brace. *)
Fixpoint lazy_to_close (s : string) : option string :=
  match s with
  | EmptyString => None
  | String c r =>
      if Ascii.eqb c "}"%char then Some (String c EmptyString)
      else
        match lazy_to_close r with
        | Some m => Some (String c m)
        | None => None
        end
  end.

(** [re.search(r'\{[\s\S]*?}', s)]: the match at the leftmost position where
    the pattern matches, as [match.group()]; [None] when there is none. *)
Fixpoint re_search_braces (s : string) : option string :=
  match s with
  | EmptyString => None
  | String c r =>
      if Ascii.eqb c "{"%char then
        match lazy_to_close r with
        | Some m => Some (String c m)
        | None => re_search_braces r
        end
      else re_search_braces r
  end.

(* ===================================================================== *)
(** * The A2A types the agent touches ([a2a.types]) *)
(* ===================================================================== *)

Inductive Role := user | agent.

(** A part is a tagged union on its [kind]: text, data or file. *)
Inductive Part :=
| TextPart (text : string) (metadata : option pydict)
| DataPart (data : pydict) (metadata : option pydict)
| FilePart (file : pydict) (metadata : option pydict).

Record Message := {
  msg_role : Role;
  msg_parts : list Part;
  msg_messageId : string;
  msg_kind : string;
  msg_taskId : option string;
  msg_contextId : option string
}.

Inductive TaskState :=
| submitted | working | input_required | completed | canceled | failed
| rejected | auth_required | unknown.

Record TaskStatus := {
  state : TaskState;
  message : option Message;
  timestamp : option string
}.

Record Artifact := {
  artifactId : string;
  parts : list Part;
  name : option string;
  description : option string
}.

Record Task := {
  id : string;
  contextId : string;
  history : option (list Message);
  status : TaskStatus;
  artifacts : option (list Artifact);
  kind : string
}.

(* ===================================================================== *)
(** * The world outside: model, UUIDs, clock *)
(* ===================================================================== *)

(** What the agent calls and does not define.  [strands_agent prompt] is
    [str(self.strands_agent(prompt))]: it answers with a text or raises, and
    it may change the world (the framework keeps the conversation).  [uuid4]
    is [str(uuid.uuid4())] and [utcnow_iso] is [datetime.utcnow().isoformat()]. *)
Class Runtime := {
  World : Type;
  strands_agent : string -> World -> result string * World;
  uuid4 : World -> string * World;
  utcnow_iso : World -> string * World
}.

(** Computations that read and change the world and may raise; the world at
    the point of a [raise] is kept, as it is in Python. *)
Definition M {R : Runtime} (A : Type) : Type := World -> result A * World.

Definition ret {R : Runtime} {A} (a : A) : M A := fun w => (Ok a, w).

Definition raise {R : Runtime} {A} (e : exn) : M A := fun w => (Raise e, w).

Definition bind {R : Runtime} {A B} (c : M A) (k : A -> M B) : M B :=
  fun w =>
    match c w with
    | (Ok a, w') => k a w'
    | (Raise e, w') => (Raise e, w')
    end.

(** [try: body  except Exception as e: handler e] *)
Definition try_except {R : Runtime} {A} (body : M A) (handler : exn -> M A)
  : M A :=
  fun w =>
    match body w with
    | (Ok a, w') => (Ok a, w')
    | (Raise e, w') => handler e w'
    end.

(** A computation that only may raise. *)
Definition lift {R : Runtime} {A} (r : result A) : M A := fun w => (r, w).

(** A computation that cannot raise. *)
Definition call {R : Runtime} {A} (f : World -> A * World) : M A :=
  fun w => let (a, w') := f w in (Ok a, w').

Declare Scope monad_scope.
Delimit Scope monad_scope with monad.
Notation "x <- c ;; k" := (bind c (fun x => k))
  (at level 61, c at next level, right associativity) : monad_scope.

(* ===================================================================== *)
(** * [main.py] *)
(* ===================================================================== *)

Section MarketAnalysis.
Context {B : Builtins} {R : Runtime}.
Open Scope monad_scope.

Definition is_user (msg : Message) : bool :=
  match msg_role msg with
  | user => true
  | agent => false
  end.

(** [user_messages[-1]] for the user-role messages of the history, when there
    is one. *)
Definition latest_user_message (h : list Message) : option Message :=
  match filter is_user h with
  | [] => None
  | m :: ms => Some (last ms m)
  end.

(** The body of the loop over the parts of the latest user message.  The two
    [if] statements are independent; a file part passes both untouched.
    [data["extraContext"]] is read only when the key is there, so the default
    of the lookup is never used. *)
Definition process_part (_input_data : pydict) (part : Part) : pydict :=
  let d0 :=
    match part with
    | TextPart text _ => dict_set _input_data "userContext" (PStr text)
    | _ => _input_data
    end in
  match part with
  | DataPart data _ =>
      if py_truthy (PDict data) then
        let d1 := dict_set d0 "sector" (dict_get data "sector" (PStr "UNKNOWN_SECTOR")) in
        let d2 := dict_set d1 "focus" (dict_get data "focus" (PStr "UNKNOWN_FOCUS")) in
        let d3 := dict_set d2 "riskFactors" (dict_get data "riskFactors" (PList [])) in
        let d4 := dict_set d3 "summaryLength" (dict_get data "summaryLength" (PInt 200)) in
        if dict_mem data "extraContext"
        then dict_set d4 "extraContext" (dict_get data "extraContext" PNone)
        else d4
      else d0
  | _ => d0
  end.

(** [extract_user_input_from_task].  The argument is a [Task], which is
    always truthy, so [not task] is false; the debugging [print]s are left
    out. *)
Definition extract_user_input_from_task (task : Task) : pydict :=
  match history task with
  | None => [("error", PStr "No task or history found")]
  | Some [] => [("error", PStr "No task or history found")]
  | Some h =>
      match latest_user_message h with
      | None => [("error", PStr "No user messages found")]
      | Some latest => fold_left process_part (msg_parts latest) []
      end
  end.

(** [MarketAnalysisAgent.build_prompt].  The only step that can raise is the
    [join] over the risk factors. *)
Definition build_prompt (input_ : pydict) : result string :=
  let extra_context := dict_get input_ "extraContext" PNone in
  let user_context := dict_get input_ "userContext" PNone in
  let sector := dict_get input_ "sector" (PStr "technology sector") in
  let focus := dict_get input_ "focus" (PStr "overall outlook") in
  let risk_factors := dict_get input_ "riskFactors" (PList []) in
  let summary_length := dict_get input_ "summaryLength" (PInt 150) in
  rbind (if py_truthy risk_factors then py_join ", " risk_factors
         else Ok "market uncertainty") (fun risks =>
  let prompt :=
    "Knowing the user request: " ++ py_str user_context ++ ". "
    ++ "Write a concise, coherent, and natural-sounding market summary (about "
    ++ py_str summary_length ++ " words) for the " ++ py_str sector ++ " sector. "
    ++ "Focus on " ++ py_str focus
    ++ ". Discuss key trends, opportunities, and threats in a single paragraph. "
    ++ "If the user request has the intention of making a trade but did not specify which stock or company, "
    ++ "then the summary should name out what is the company that matches user description for investment. "
    ++ "Do NOT include a title, bullet points, or any formatting—write in natural English prose only. "
    ++ "Consider risk factors such as: " ++ risks ++ "." in
  Ok (if py_truthy extra_context
      then prompt ++ " Here is more context: " ++ py_str extra_context ++ "."
      else prompt)).

Definition nl : string := String "010"%char EmptyString.

(** The prompt of [extract_tags]. *)
Definition tag_prompt (summary : string) : string :=
  "Analyze the following market summary and return exactly 4-7 key themes as a list of 'tags', "
  ++ "and the overall sentiment (positive, neutral, or negative) for investors. "
  ++ "Respond with nothing except a single JSON object with this format:" ++ nl
  ++ qq "{`tags`: [`tag1`, `tag2`, `tag3`], `sentiment`: `positive`}" ++ nl
  ++ "No title. No explanation. No extra text." ++ nl ++ nl
  ++ "Summary:" ++ nl ++ String dq summary ++ String dq EmptyString.

(** What the handler of [extract_tags] returns. *)
Definition default_tag_data : pydict :=
  [("tags", PList []); ("sentiment", PStr "unknown")].

(** The two-stage parse of the model's answer: the whole text, then the first
    brace-delimited piece (whose parse error is not caught here), then the
    empty dict when there is no such piece. *)
Definition parse_response (result : string) : M pyval :=
  match json_loads result with
  | Some parsed => ret parsed
  | None =>
      match re_search_braces result with
      | Some m =>
          match json_loads m with
          | Some parsed => ret parsed
          | None => raise JSONDecodeError
          end
      | None => ret (PDict [])
      end
  end.

(** [MarketAnalysisAgent.extract_tags] *)
Definition extract_tags (summary : string) : M pydict :=
  try_except
    (result <- strands_agent (tag_prompt summary) ;;
     parsed <- parse_response result ;;
     tags <- lift (py_get parsed "tags" (PList [])) ;;
     sentiment <- lift (py_get parsed "sentiment" (PStr "unknown")) ;;
     let tags :=
       match tags with
       | PList _ => tags
       | _ => if py_truthy tags then PList [tags] else PList []
       end in
     let sentiment :=
       match sentiment with
       | PStr _ => sentiment
       | _ => PStr (py_str sentiment)
       end in
     ret [("tags", tags); ("sentiment", sentiment)])
    (fun e => ret default_tag_data).

(** [task.artifacts = task.artifacts or []; task.artifacts.append(artifact)] *)
Definition append_artifact (task_artifacts : option (list Artifact))
  (artifact : Artifact) : option (list Artifact) :=
  Some ((match task_artifacts with Some l => l | None => [] end) ++ [artifact])%list.

(** [MarketAnalysisAgent.analyze].  Input extraction and prompt building run
    before the [try]; the task is written to only after the last call that
    can raise, so the handler always sees the task as it was passed in. *)
Definition analyze (task : Task) : M Task :=
  let prompt_input := extract_user_input_from_task task in
  prompt <- lift (build_prompt prompt_input) ;;
  try_except
    (summary <- strands_agent prompt ;;
     tag_data <- extract_tags summary ;;
     let parts :=
       [TextPart summary (Some []); DataPart tag_data (Some [])] in
     artifact_id <- call uuid4 ;;
     let artifact :=
       {| artifactId := artifact_id;
          parts := parts;
          name := Some "Market Summary";
          description := Some "Summary and tags generated by LLM" |} in
     message_id <- call uuid4 ;;
     let msg :=
       {| msg_role := agent;
          msg_parts := [TextPart "Market summary successfully generated." (Some [])];
          msg_messageId := message_id;
          msg_kind := "message";
          msg_taskId := Some (id task);
          msg_contextId := Some (contextId task) |} in
     now <- call utcnow_iso ;;
     ret {| id := id task;
            contextId := contextId task;
            history := history task;
            status := {| state := completed;
                         message := Some msg;
                         timestamp := Some (now ++ "Z") |};
            artifacts := append_artifact (artifacts task) artifact;
            kind := "task" |})
    (fun e =>
     let error_parts := [TextPart (exn_str e) (Some [])] in
     artifact_id <- call uuid4 ;;
     let artifact :=
       {| artifactId := artifact_id;
          parts := error_parts;
          name := Some "Error";
          description := Some "Error encountered during market analysis" |} in
     message_id <- call uuid4 ;;
     let error_msg :=
       {| msg_role := agent;
          msg_parts := error_parts;
          msg_messageId := message_id;
          msg_kind := "message";
          msg_taskId := Some (id task);
          msg_contextId := Some (contextId task) |} in
     now <- call utcnow_iso ;;
     ret {| id := id task;
            contextId := contextId task;
            history := history task;
            status := {| state := failed;
                         message := Some error_msg;
                         timestamp := Some (now ++ "Z") |};
            artifacts := append_artifact (artifacts task) artifact;
            kind := "task" |}).

End MarketAnalysis.

(* ===================================================================== *)
(** * [agent_card.py] *)
(* ===================================================================== *)

Section AgentCard.
Context {B : Builtins}.

(** [os.environ.get(k, default)] *)
Fixpoint environ_get (environ : list (string * string)) (k default : string)
  : string :=
  match environ with
  | [] => default
  | (k', v) :: r => if String.eqb k' k then v else environ_get r k default
  end.

(** The object the handler serialises. *)
Definition agent_card (domain : pyval) (region model_id : string) : pyval :=
  PDict
    [("id", PStr "market-analysis-agent");
     ("name", PStr "MarketAnalysisAgent");
     ("description",
      PStr "Provides market analysis summaries and sentiment insights via Bedrock.");
     ("protocol", PStr "A2A/1.0");
     ("skills", PList [PStr "MarketSummary"]);
     ("endpoints",
      PDict [("send", PStr ("https://" ++ py_str domain ++ "/dev/tasks/send"))]);
     ("metadata",
      PDict [("streaming", PBool true);
             ("modelId", PStr model_id);
             ("region", PStr region);
             ("provider", PStr "Bedrock/Anthropic")])].

(** [lambda_handler(event, context)]; [environ] is [os.environ]. *)
Definition lambda_handler (environ : list (string * string))
  (event context : pyval) : result pyval :=
  rbind (py_getitem event "requestContext") (fun request_context =>
  rbind (py_getitem request_context "domainName") (fun domain =>
  let region := environ_get environ "AWS_REGION" "us-east-1" in
  let model_id :=
    environ_get environ "BEDROCK_MODEL_ID"
      "us.anthropic.claude-3-5-haiku-20241022-v1:0" in
  Ok (PDict
        [("statusCode", PInt 200);
         ("body", PStr (json_dumps (agent_card domain region model_id)));
         ("headers", PDict [("Content-Type", PStr "application/json")])]))).

End AgentCard.

(* ===================================================================== *)
(** * Notions used to state the properties *)
(* ===================================================================== *)

(** The mapping of a data part that the extraction loop reads: one whose
    mapping is not empty. *)
Definition nonempty_data (part : Part) : option pydict :=
  match part with
  | DataPart (kv :: r) _ => Some (kv :: r)
  | _ => None
  end.

(** The last data part with a non-empty mapping among [ps]. *)
Fixpoint last_data_part (ps : list Part) : option pydict :=
  match ps with
  | [] => None
  | part :: r =>
      match last_data_part r with
      | Some d => Some d
      | None => nonempty_data part
      end
  end.


(** [c in s] for a character. *)
Fixpoint mem_char (c : ascii) (s : string) : bool :=
  match s with
  | EmptyString => false
  | String x r => Ascii.eqb x c || mem_char c r
  end.

(** A task comes with no artifacts: the field is [None] or the empty list. *)
Definition no_artifacts (task : Task) : Prop :=
  artifacts task = None \/ artifacts task = Some [].

(** The prompt built when nothing was extracted. *)
Definition default_prompt : string :=
  "Knowing the user request: None. "
  ++ "Write a concise, coherent, and natural-sounding market summary (about 150 words) for the technology sector sector. "
  ++ "Focus on overall outlook. Discuss key trends, opportunities, and threats in a single paragraph. "
  ++ "If the user request has the intention of making a trade but did not specify which stock or company, "
  ++ "then the summary should name out what is the company that matches user description for investment. "
  ++ "Do NOT include a title, bullet points, or any formatting—write in natural English prose only. "
  ++ "Consider risk factors such as: market uncertainty.".

(** The latest user message of a task, when its history has one. *)
Definition latest_message_of (task : Task) : option Message :=
  match history task with
  | Some h => latest_user_message h
  | None => None
  end.

(** The extracted input carries what the loop read from the mapping [d]: the
    four fields, each with the extractor's default. *)
Definition reads_data (input_ d : pydict) : Prop :=
  dict_lookup input_ "sector" = Some (dict_get d "sector" (PStr "UNKNOWN_SECTOR"))
  /\ dict_lookup input_ "focus" = Some (dict_get d "focus" (PStr "UNKNOWN_FOCUS"))
  /\ dict_lookup input_ "riskFactors" = Some (dict_get d "riskFactors" (PList []))
  /\ dict_lookup input_ "summaryLength" = Some (dict_get d "summaryLength" (PInt 200)).

(** The task as the success path of [analyze] leaves it. *)
Definition completed_task (task : Task) (summary : string) (tag_data : pydict)
  (artifact_id message_id now : string) : Task :=
  {| id := id task;
     contextId := contextId task;
     history := history task;
     status :=
       {| state := completed;
          message :=
            Some {| msg_role := agent;
                    msg_parts :=
                      [TextPart "Market summary successfully generated." (Some [])];
                    msg_messageId := message_id;
                    msg_kind := "message";
                    msg_taskId := Some (id task);
                    msg_contextId := Some (contextId task) |};
          timestamp := Some (now ++ "Z") |};
     artifacts :=
       append_artifact (artifacts task)
         {| artifactId := artifact_id;
            parts := [TextPart summary (Some []); DataPart tag_data (Some [])];
            name := Some "Market Summary";
            description := Some "Summary and tags generated by LLM" |};
     kind := "task" |}.

(** The task as the handler of [analyze] leaves it. *)
Definition failed_task (task : Task) (e : exn)
  (artifact_id message_id now : string) : Task :=
  {| id := id task;
     contextId := contextId task;
     history := history task;
     status :=
       {| state := failed;
          message :=
            Some {| msg_role := agent;
                    msg_parts := [TextPart (exn_str e) (Some [])];
                    msg_messageId := message_id;
                    msg_kind := "message";
                    msg_taskId := Some (id task);
                    msg_contextId := Some (contextId task) |};
          timestamp := Some (now ++ "Z") |};
     artifacts :=
       append_artifact (artifacts task)
         {| artifactId := artifact_id;
            parts := [TextPart (exn_str e) (Some [])];
            name := Some "Error";
            description := Some "Error encountered during market analysis" |};
     kind := "task" |}.

Section TagPolicy.
Context {B : Builtins}.

(** The result normalization as the specification words it: a "tags" value
    that is not a list is wrapped when truthy and dropped when falsy; a
    "sentiment" value that is not a string is replaced by its [str]. *)
Definition spec_normalize_tags (v : pyval) : list pyval :=
  match v with
  | PList l => l
  | _ => if py_truthy v then [v] else []
  end.

Definition spec_normalize_sentiment (v : pyval) : string :=
  match v with
  | PStr s => s
  | _ => py_str v
  end.

(** What a successfully parsed value yields; a value that is not a mapping
    has no tags to offer and yields the default. *)
Definition spec_tag_data (parsed : pyval) : pydict :=
  match parsed with
  | PDict d =>
      [("tags", PList (spec_normalize_tags (dict_get d "tags" (PList []))));
       ("sentiment",
        PStr (spec_normalize_sentiment (dict_get d "sentiment" (PStr "unknown"))))]
  | _ => default_tag_data
  end.

(** The parsing policy as the specification words it, on the outcome of the
    model call. *)
Definition spec_tag_policy (response : result string) : pydict :=
  match response with
  | Raise _ => default_tag_data
  | Ok text =>
      match json_loads text with
      | Some parsed => spec_tag_data parsed
      | None =>
          match re_search_braces text with
          | None => default_tag_data
          | Some piece =>
              match json_loads piece with
              | Some parsed => spec_tag_data parsed
              | None => default_tag_data
              end
          end
      end
  end.

End TagPolicy.

(* ===================================================================== *)
(** * A runtime and tasks for the examples *)
(* ===================================================================== *)

(** Built-ins for the examples: they agree with Python on float literals that
    are already in shortest form and on texts of printable ASCII without
    quotes or backslashes. *)
Definition example_builtins : Builtins :=
  {| float_repr := fun literal => literal;
     str_repr := fun s => "'" ++ s ++ "'" |}.

(** A world whose model answers from a script, whose UUIDs are numbered and
    whose clock stands still. *)
Record ScriptedWorld := {
  script : list (result string);
  next_uuid : Z;
  clock : string
}.

Definition scripted : Runtime :=
  {| World := ScriptedWorld;
     strands_agent := fun _ w =>
       match script w with
       | [] => (Raise (Exception "RuntimeError" "script exhausted"), w)
       | r :: rest =>
           (r, {| script := rest; next_uuid := next_uuid w; clock := clock w |})
       end;
     uuid4 := fun w =>
       ("uuid-" ++ str_of_Z (next_uuid w),
        {| script := script w; next_uuid := (next_uuid w + 1)%Z; clock := clock w |});
     utcnow_iso := fun w => (clock w, w) |}.

Definition world_with (answers : list (result string)) : ScriptedWorld :=
  {| script := answers; next_uuid := 0; clock := "2025-01-01T00:00:00" |}.

Definition user_message (ps : list Part) : Message :=
  {| msg_role := user; msg_parts := ps; msg_messageId := "m-1";
     msg_kind := "message"; msg_taskId := Some "t-1"; msg_contextId := Some "c-1" |}.

Definition task_with (h : option (list Message)) : Task :=
  {| id := "t-1"; contextId := "c-1"; history := h;
     status := {| state := submitted; message := None; timestamp := None |};
     artifacts := None; kind := "task" |}.

Definition energy_data : pydict :=
  [("sector", PStr "energy"); ("focus", PStr "renewables");
   ("riskFactors", PList [PStr "regulation"; PStr "oil prices"]);
   ("summaryLength", PInt 100)].

(** The request of the specification's example. *)
Definition task_energy : Task :=
  task_with (Some [user_message [DataPart energy_data None]]).

(** The same data part followed by a second one. *)
Definition task_energy_then_tech : Task :=
  task_with (Some [user_message [DataPart energy_data None;
                                 DataPart [("sector", PStr "tech")] None]]).

(** A data part whose mapping is empty. *)
Definition task_empty_data : Task :=
  task_with (Some [user_message [DataPart [] None]]).

(** A data part with only a focus, and one with only a sector. *)
Definition task_focus_only : Task :=
  task_with (Some [user_message [TextPart "Should I buy?" None;
                                 DataPart [("focus", PStr "dividends")] None]]).


(** Risk factors that are not strings. *)
Definition task_numeric_risk : Task :=
  task_with (Some [user_message [DataPart [("riskFactors", PList [PInt 1])] None]]).

(** No history at all, and a history with agent messages only. *)
Definition task_no_history : Task := task_with None.

(** The tag answer of the specification's example, and one with eight tags. *)
Definition answer_four_tags : string :=
  qq "Here is the result: {`tags`:[`a`,`b`,`c`,`d`],`sentiment`:`positive`}".

Definition answer_eight_tags : string :=
  qq "{`tags`:[`a`,`b`,`c`,`d`,`e`,`f`,`g`,`h`],`sentiment`:`neutral`}".

(** A request event as the HTTP gateway delivers it. *)
Definition example_event : pyval :=
  PDict [("requestContext",
          PDict [("domainName", PStr "abc123.execute-api.us-east-1.amazonaws.com")])].

(* ===================================================================== *)
(** * The agent's constructor ([MarketAnalysisAgent.__init__]) *)
(* ===================================================================== *)

Definition SYSTEM_PROMPT : string :=
  "You are a financial analyst. Provide clear, insightful market summaries. "
  ++ "Answer the questions to the best of your model training data.".

(** The keyword arguments the constructor passes to [BedrockModel]. *)
Record BedrockModel := {
  bm_model_id : string;
  bm_streaming : bool;
  bm_region_name : string;
  bm_max_tokens : Z
}.

(** The keyword arguments the constructor passes to [StrandsAgent]. *)
Record StrandsAgent := {
  sa_model : BedrockModel;
  sa_system_prompt : string
}.

(** [a or b] for an optional text [a]: [None] and the empty text are falsy. *)
Definition or_else (a : option string) (b : string) : string :=
  match a with
  | Some (String c r) => String c r
  | _ => b
  end.

(** [MarketAnalysisAgent.__init__(model_id, region)], as the agent it
    configures; [environ] is [os.environ]. *)
Definition MarketAnalysisAgent_init (environ : list (string * string))
  (model_id region : option string) : StrandsAgent :=
  let model_id :=
    or_else model_id
      (environ_get environ "BEDROCK_MODEL_ID"
         "us.anthropic.claude-3-5-haiku-20241022-v1:0") in
  let region_name :=
    or_else region (environ_get environ "AWS_PRIMARY_REGION" "us-east-1") in
  {| sa_model := {| bm_model_id := model_id;
                    bm_streaming := true;
                    bm_region_name := region_name;
                    bm_max_tokens := 600 |};
     sa_system_prompt := SYSTEM_PROMPT |}.

(* ===================================================================== *)
(** * Further notions used to state properties *)
(* ===================================================================== *)

(** The text of the last text part among [ps]. *)
Fixpoint last_text_part (ps : list Part) : option string :=
  match ps with
  | [] => None
  | part :: r =>
      match last_text_part r with
      | Some t => Some t
      | None =>
          match part with
          | TextPart text _ => Some text
          | _ => None
          end
      end
  end.

(** The extra context a part offers: the value under "extraContext" of a
    data part with a non-empty mapping. *)
Definition extra_of (part : Part) : option pyval :=
  match nonempty_data part with
  | Some d => dict_lookup d "extraContext"
  | None => None
  end.

(** The extra context of the last part that offers one. *)
Fixpoint last_extra_context (ps : list Part) : option pyval :=
  match ps with
  | [] => None
  | part :: r =>
      match last_extra_context r with
      | Some x => Some x
      | None => extra_of part
      end
  end.

(** The parts the extraction loop acts on: text parts and data parts with a
    non-empty mapping. *)
Definition is_read (part : Part) : bool :=
  match part with
  | TextPart _ _ => true
  | DataPart (_ :: _) _ => true
  | _ => false
  end.

(** The keys an extracted input can have besides the error flag. *)
Definition input_fields : list string :=
  ["userContext"; "sector"; "focus"; "riskFactors"; "summaryLength";
   "extraContext"].

Definition is_str (v : pyval) : bool :=
  match v with
  | PStr _ => true
  | _ => false
  end.

(** The values [str.join] accepts: a text, a mapping (its keys are texts),
    or a list of texts. *)
Definition joinable (v : pyval) : bool :=
  match v with
  | PStr _ => true
  | PDict _ => true
  | PList l => forallb is_str l
  | _ => false
  end.

(** The text of the prompt before any extra context, as a function of the
    five texts inserted into it. *)
Definition prompt_text (user_context summary_length sector focus risks : string)
  : string :=
  "Knowing the user request: " ++ user_context ++ ". "
  ++ "Write a concise, coherent, and natural-sounding market summary (about "
  ++ summary_length ++ " words) for the " ++ sector ++ " sector. "
  ++ "Focus on " ++ focus
  ++ ". Discuss key trends, opportunities, and threats in a single paragraph. "
  ++ "If the user request has the intention of making a trade but did not specify which stock or company, "
  ++ "then the summary should name out what is the company that matches user description for investment. "
  ++ "Do NOT include a title, bullet points, or any formatting—write in natural English prose only. "
  ++ "Consider risk factors such as: " ++ risks ++ ".".

(** Python's [s.startswith(prefix)]. *)
Definition starts_with (s prefix : string) : Prop :=
  exists post, s = prefix ++ post.

(* ===================================================================== *)
(** * Notions for the round trip of the JSON encoding *)
(* ===================================================================== *)

(** A text of ASCII characters only. *)
Definition is_ascii (c : ascii) : bool := (N_of_ascii c <? 128)%N.

Fixpoint ascii_only (s : string) : bool :=
  match s with
  | EmptyString => true
  | String c r => is_ascii c && ascii_only r
  end.

(** The keys of an association list are distinct. *)
Fixpoint distinct_keys (d : pydict) : bool :=
  match d with
  | [] => true
  | (k, _) :: r => negb (dict_mem r k) && distinct_keys r
  end.

(** The values built from [None], booleans, ASCII texts, lists and mappings
    with distinct ASCII keys: no numbers. *)
Fixpoint plain (v : pyval) : bool :=
  match v with
  | PNone => true
  | PBool _ => true
  | PInt _ => false
  | PFloat _ => false
  | PStr s => ascii_only s
  | PList l => forallb plain l
  | PDict d =>
      forallb (fun kv => ascii_only (fst kv) && plain (snd kv)) d
      && distinct_keys d
  end.

(** The scanner reads the encoding of [v] back, whatever text follows it,
    once it has enough fuel. *)
Definition decodes {B : Builtins} (v : pyval) : Prop :=
  exists f0 : nat,
    forall (f : nat) (t : string),
      f0 <= f -> scan_once f (json_dumps v ++ t) = Some (v, t).

(* ===================================================================== *)
(** * Notions for reading back the encoding of any text *)
(* ===================================================================== *)

(** The encoder writes a text as a sequence of pieces that the decoder reads
    one at a time: an ASCII character as itself or with its one-letter
    escape ([TSimple]), and a four-digit hexadecimal escape ([THex]); a
    character above the basic plane is written as two of the latter. *)
Inductive token : Type :=
| TSimple (c : ascii)
| THex (n : N).

Definition token_text (t : token) : string :=
  match t with
  | TSimple c => escape_char (N_of_ascii c)
  | THex n => "\u" ++ hex4 n
  end.

(** The ASCII characters that the encoder does not write in hexadecimal. *)
Definition is_simple (c : ascii) : bool :=
  is_ascii c && negb (prefixb "\u" (escape_char (N_of_ascii c))).

Definition token_ok (tk : token) : Prop :=
  match tk with
  | TSimple c => is_simple c = true
  | THex _ => True
  end.

(** The pieces [escape_char] writes for one code point. *)
Definition tokens_of (cp : N) : list token :=
  if (cp <? 128)%N then
    if is_simple (ascii_of_N cp) then [TSimple (ascii_of_N cp)] else [THex cp]
  else if (cp <? 65536)%N then [THex cp]
  else [THex (55296 + (cp - 65536) / 1024)%N; THex (56320 + (cp - 65536) mod 1024)%N].

Definition texts (ts : list token) : string :=
  String.concat EmptyString (map token_text ts).

(** What [scanstring] makes of a sequence of pieces: it joins a high
    surrogate and a low surrogate that follows it into one character. *)
Fixpoint decode_tokens (ts : list token) : string :=
  match ts with
  | [] => EmptyString
  | TSimple c :: r => String c (decode_tokens r)
  | THex n :: r =>
      let u := (n mod 65536)%N in
      match r with
      | THex m :: r' =>
          let u2 := (m mod 65536)%N in
          if is_high_surrogate u && is_low_surrogate u2
          then utf8_encode (65536 + (u - 55296) * 1024 + (u2 - 56320))%N
               ++ decode_tokens r'
          else utf8_encode u ++ decode_tokens r
      | _ => utf8_encode u ++ decode_tokens r
      end
  end.

(** The text the decoder returns for the encoding of [s].  It is [s] itself
    for a well-formed text; no assumption of well-formedness is needed for
    the decoding to succeed ([scan_string_literal_reread]). *)
Definition reread (s : string) : string :=
  decode_tokens (flat_map tokens_of (utf8_decode s)).

Definition is_number (v : pyval) : bool :=
  match v with
  | PInt _ | PFloat _ => true
  | _ => false
  end.

(** The scanner reads the encoding of [v] as [v'], whatever text follows it,
    once it has enough fuel. *)
Definition reads_as {B : Builtins} (v v' : pyval) : Prop :=
  exists f0 : nat,
    forall (f : nat) (t : string),
      f0 <= f -> scan_once f (json_dumps v ++ t) = Some (v', t).

Definition entry_reads_as {B : Builtins} (kv kv' : string * pyval) : Prop :=
  fst kv' = fst kv
  /\ ascii_only (fst kv) = true
  /\ is_number (snd kv) = false
  /\ reads_as (snd kv) (snd kv').

(** The agent card as the decoder returns it from the encoded card: the
    three texts that come from the event and the environment are read back
    by [reread]. *)
Definition reread_card {B : Builtins} (domain : pyval) (region model_id : string)
  : pydict :=
  [("id", PStr "market-analysis-agent");
   ("name", PStr "MarketAnalysisAgent");
   ("description",
    PStr "Provides market analysis summaries and sentiment insights via Bedrock.");
   ("protocol", PStr "A2A/1.0");
   ("skills", PList [PStr "MarketSummary"]);
   ("endpoints",
    PDict [("send", PStr (reread ("https://" ++ py_str domain ++ "/dev/tasks/send")))]);
   ("metadata",
    PDict [("streaming", PBool true);
           ("modelId", PStr (reread model_id));
           ("region", PStr (reread region));
           ("provider", PStr "Bedrock/Anthropic")])].


(* ===================================================================== *)
(** * More tasks and answers for the examples *)
(* ===================================================================== *)

Definition agent_message (text : string) : Message :=
  {| msg_role := agent; msg_parts := [TextPart text None]; msg_messageId := "m-2";
     msg_kind := "message"; msg_taskId := Some "t-1"; msg_contextId := Some "c-1" |}.

(** An earlier user message, an agent's reply, a second user message and
    another reply. *)
Definition task_conversation : Task :=
  task_with (Some [user_message [TextPart "old question" None];
                   agent_message "first reply";
                   user_message [TextPart "new question" None];
                   agent_message "second reply"]).

(** A data part with extra context, followed by one without. *)
Definition task_extra_then_plain : Task :=
  task_with (Some [user_message
                     [DataPart [("sector", PStr "energy");
                                ("extraContext", PStr "Q3 report")] None;
                      DataPart [("sector", PStr "tech")] None]]).

(** A well-formed tag answer with a key the agent does not ask for. *)
Definition answer_mapping : pydict :=
  [("tags", PList [PStr "oil"; PStr "gas"]);
   ("sentiment", PStr "negative");
   ("confidence", PStr "high")].


(* ===================================================================== *)
(** * Lemmas on texts *)
(* ===================================================================== *)

Lemma append_assoc (a b c : string) : (a ++ b) ++ c = a ++ b ++ c.
Proof.
  induction a as [|x a IH]; simpl; [reflexivity | now rewrite IH].
Qed.

Lemma contains_here (hay needle post : string) :
  hay = needle ++ post -> contains hay needle.
Proof.
  intros ->. now exists EmptyString, post.
Qed.

Lemma contains_app_r (a b needle : string) :
  contains b needle -> contains (a ++ b) needle.
Proof.
  intros (pre & post & ->). exists (a ++ pre), post.
  now rewrite append_assoc.
Qed.

Lemma contains_app_l (a b needle : string) :
  contains a needle -> contains (a ++ b) needle.
Proof.
  intros (pre & post & ->). exists pre, (post ++ b).
  now rewrite !append_assoc.
Qed.

Lemma contains_cons (c : ascii) (hay needle : string) :
  contains hay needle -> contains (String c hay) needle.
Proof.
  apply (contains_app_r (String c EmptyString)).
Qed.

Lemma prefixb_app (needle post : string) : prefixb needle (needle ++ post) = true.
Proof.
  induction needle as [|x n IH]; simpl; [reflexivity|].
  now rewrite Ascii.eqb_refl, IH.
Qed.

Lemma containsb_complete (hay needle : string) :
  contains hay needle -> containsb hay needle = true.
Proof.
  intros (pre & post & ->).
  induction pre as [|x pre IH].
  - change (EmptyString ++ needle ++ post) with (needle ++ post).
    pose proof (prefixb_app needle post) as Hp.
    destruct (needle ++ post); simpl; now rewrite Hp.
  - simpl. rewrite IH. apply orb_true_r.
Qed.

Lemma not_contains (hay needle : string) :
  containsb hay needle = false -> ~ contains hay needle.
Proof.
  intros Hb Hc. apply containsb_complete in Hc. congruence.
Qed.

Lemma Ok_inj {A : Type} (a b : A) : Ok a = Ok b -> a = b.
Proof.
  intros H. now injection H.
Qed.

(* ===================================================================== *)
(** * Lemmas on dicts *)
(* ===================================================================== *)

Lemma dict_lookup_set_same (d : pydict) (k : string) (v : pyval) :
  dict_lookup (dict_set d k v) k = Some v.
Proof.
  induction d as [|[k' v'] d IH]; simpl.
  - now rewrite String.eqb_refl.
  - destruct (String.eqb k' k) eqn:E; simpl; rewrite E; [reflexivity | exact IH].
Qed.

Lemma dict_lookup_set_other (d : pydict) (k k' : string) (v : pyval) :
  String.eqb k k' = false ->
  dict_lookup (dict_set d k v) k' = dict_lookup d k'.
Proof.
  intros Hk. induction d as [|[k0 v0] d IH]; simpl.
  - now rewrite Hk.
  - destruct (String.eqb k0 k) eqn:E; simpl.
    + apply String.eqb_eq in E. subst k0. now rewrite Hk.
    + now rewrite IH.
Qed.

Lemma dict_get_found (d : pydict) (k : string) (v default : pyval) :
  dict_lookup d k = Some v -> dict_get d k default = v.
Proof.
  unfold dict_get. now intros ->.
Qed.

Lemma dict_get_missing (d : pydict) (k : string) (default : pyval) :
  dict_lookup d k = None -> dict_get d k default = default.
Proof.
  unfold dict_get. now intros ->.
Qed.

(* ===================================================================== *)
(** * The decoder's fuel is enough *)
(* ===================================================================== *)

Lemma skip_ws_length (s : string) : String.length (skip_ws s) <= String.length s.
Proof.
  induction s as [|c r IH]; [apply le_n|].
  cbn [skip_ws]. destruct (is_ws c); cbn [String.length]; lia.
Qed.

Lemma drop_prefix_length (p s r : string) :
  drop_prefix p s = Some r -> String.length s = String.length p + String.length r.
Proof.
  revert s. induction p as [|a p IH]; intros s H; cbn [drop_prefix] in H.
  - injection H as ->. reflexivity.
  - destruct s as [|b s]; [discriminate|].
    destruct (Ascii.eqb a b); [|discriminate].
    cbn [String.length]. rewrite (IH s H). reflexivity.
Qed.

Lemma decode_uXXXX_length (s r : string) (u : N) :
  decode_uXXXX s = Some (u, r) -> String.length s = 4 + String.length r.
Proof.
  unfold decode_uXXXX. intros H.
  destruct s as [|a [|b [|c [|d s]]]]; try discriminate.
  destruct (hex_val a), (hex_val b), (hex_val c), (hex_val d); try discriminate.
  injection H as _ ->. reflexivity.
Qed.

(** A round of [scanstring] only continues on a shorter text. *)
Lemma scanstring_step_shorter
  (k : string -> string -> option (string * string)) (s acc : string) :
  scanstring_step k s acc = None
  \/ (exists r, scanstring_step k s acc = Some (acc, r)
                /\ String.length r < String.length s)
  \/ (exists r acc', scanstring_step k s acc = k r acc'
                     /\ String.length r < String.length s).
Proof.
  unfold scanstring_step.
  destruct s as [|c s]; [now left|]. cbn [String.length].
  destruct (Ascii.eqb c dq); [right; left; exists s; split; [reflexivity | lia]|].
  destruct (Ascii.eqb c "\").
  - destruct s as [|e r1]; [now left|]. cbn [String.length].
    destruct (Ascii.eqb e "u").
    + destruct (decode_uXXXX r1) as [[uni r2]|] eqn:E1; [|now left].
      apply decode_uXXXX_length in E1.
      destruct (is_high_surrogate uni).
      * destruct (drop_prefix "\u" r2) as [r3|] eqn:E2.
        -- apply drop_prefix_length in E2. cbn [String.length] in E2.
           destruct (decode_uXXXX r3) as [[uni2 r4]|] eqn:E3; [|now left].
           apply decode_uXXXX_length in E3.
           destruct (is_low_surrogate uni2);
             right; right; do 2 eexists; (split; [reflexivity | lia]).
        -- right; right; do 2 eexists; (split; [reflexivity | lia]).
      * right; right; do 2 eexists; (split; [reflexivity | lia]).
    + destruct (backslash e); [|now left].
      right; right; do 2 eexists; (split; [reflexivity | lia]).
  - destruct (N_of_ascii c <? 32)%N; [now left|].
    right; right; do 2 eexists; (split; [reflexivity | lia]).
Qed.

Lemma scanstring_length (f : nat) :
  forall (s acc x r : string),
    scanstring f s acc = Some (x, r) -> String.length r < String.length s.
Proof.
  induction f as [|f IH]; intros s acc x r H; [discriminate|].
  cbn [scanstring] in H.
  destruct (scanstring_step_shorter (scanstring f) s acc)
    as [E | [(r' & E & Hl) | (r' & acc' & E & Hl)]]; rewrite E in H.
  - discriminate.
  - injection H as _ <-. exact Hl.
  - apply IH in H. lia.
Qed.

(** Any fuel above the length of the text gives [scanstring] the same
    result: it never runs out. *)
Lemma scanstring_fuel (f : nat) :
  forall (f' : nat) (s acc : string),
    String.length s < f -> String.length s < f' ->
    scanstring f s acc = scanstring f' s acc.
Proof.
  induction f as [|f IH]; intros f' s acc Hf Hf'; [lia|].
  destruct f' as [|f']; [lia|]. cbn [scanstring].
  unfold scanstring_step.
  destruct s as [|c s]; [reflexivity|]. cbn [String.length] in Hf, Hf'.
  destruct (Ascii.eqb c dq); [reflexivity|].
  destruct (Ascii.eqb c "\").
  - destruct s as [|e r1]; [reflexivity|]. cbn [String.length] in Hf, Hf'.
    destruct (Ascii.eqb e "u").
    + destruct (decode_uXXXX r1) as [[uni r2]|] eqn:E1; [|reflexivity].
      apply decode_uXXXX_length in E1.
      destruct (is_high_surrogate uni).
      * destruct (drop_prefix "\u" r2) as [r3|] eqn:E2.
        -- apply drop_prefix_length in E2. cbn [String.length] in E2.
           destruct (decode_uXXXX r3) as [[uni2 r4]|] eqn:E3; [|reflexivity].
           apply decode_uXXXX_length in E3.
           destruct (is_low_surrogate uni2); apply IH; lia.
        -- apply IH; lia.
      * apply IH; lia.
    + destruct (backslash e); [|reflexivity]. apply IH; lia.
  - destruct (N_of_ascii c <? 32)%N; [reflexivity|]. apply IH; lia.
Qed.

Lemma scan_string_literal_length (r x rest : string) :
  scan_string_literal r = Some (x, rest) -> String.length rest < String.length r.
Proof.
  apply scanstring_length.
Qed.

Lemma span_digits_length (s : string) :
  String.length s
  = String.length (fst (span_digits s)) + String.length (snd (span_digits s)).
Proof.
  induction s as [|c r IH]; [reflexivity|].
  cbn [span_digits]. destruct (is_digit c); [|reflexivity].
  destruct (span_digits r) as [d rest]. cbn [fst snd String.length] in *. lia.
Qed.

Lemma match_sign_length (s : string) :
  String.length (snd (match_sign s)) <= String.length s.
Proof.
  unfold match_sign. destruct s as [|c r]; [apply le_n|].
  destruct (Ascii.eqb c "-"); cbn [snd String.length]; lia.
Qed.

Lemma match_int_length (s ip rest : string) :
  match_int s = Some (ip, rest) -> String.length rest < String.length s.
Proof.
  unfold match_int. destruct s as [|c r]; [discriminate|].
  destruct (is_digit c) eqn:Ed; [|discriminate].
  destruct (Ascii.eqb c "0").
  - intros H. injection H as _ <-. cbn [String.length]. lia.
  - intros H. injection H as H.
    pose proof (span_digits_length (String c r)) as Hl.
    cbn [span_digits] in H, Hl. rewrite Ed in H, Hl.
    destruct (span_digits r) as [d rest']. injection H as <- <-.
    cbn [fst snd String.length] in Hl. cbn [String.length]. lia.
Qed.

Lemma match_frac_length (s : string) :
  String.length (snd (match_frac s)) <= String.length s.
Proof.
  unfold match_frac. destruct s as [|p r]; [apply le_n|].
  destruct (Ascii.eqb p "."); [|apply le_n].
  pose proof (span_digits_length r) as Hl.
  destruct (span_digits r) as [[|d ds] rest]; cbn [fst snd String.length] in *; lia.
Qed.

Lemma match_exp_length (s : string) :
  String.length (snd (match_exp s)) <= String.length s.
Proof.
  unfold match_exp. destruct s as [|e r]; [apply le_n|].
  destruct (Ascii.eqb e "e" || Ascii.eqb e "E"); [|apply le_n].
  destruct r as [|g x].
  - cbn [span_digits snd]. apply le_n.
  - destruct (Ascii.eqb g "+" || Ascii.eqb g "-").
    + pose proof (span_digits_length x) as Hl.
      destruct (span_digits x) as [[|d ds] rest];
        cbn [fst snd String.length] in *; lia.
    + pose proof (span_digits_length (String g x)) as Hl.
      destruct (span_digits (String g x)) as [[|d ds] rest];
        cbn [fst snd String.length] in *; lia.
Qed.

Lemma match_number_length (s rest : string) (v : pyval) :
  match_number s = Some (v, rest) -> String.length rest < String.length s.
Proof.
  unfold match_number. pose proof (match_sign_length s) as H1.
  destruct (match_sign s) as [sign s1]. cbn [snd] in H1.
  destruct (match_int s1) as [[ip s2]|] eqn:Ei; [|discriminate].
  apply match_int_length in Ei.
  pose proof (match_frac_length s2) as H3.
  destruct (match_frac s2) as [frac s3]. cbn [snd] in H3.
  pose proof (match_exp_length s3) as H4.
  destruct (match_exp s3) as [ex s4]. cbn [snd] in H4.
  assert (Hlt : String.length s4 < String.length s) by lia.
  destruct frac, ex;
    try (destruct (Nat.ltb max_str_digits (String.length ip)); [discriminate|]);
    intros H; injection H as _ <-; exact Hlt.
Qed.

Lemma scan_literal_length (s rest : string) (v : pyval) :
  scan_literal s = Some (v, rest) -> String.length rest < String.length s.
Proof.
  unfold scan_literal.
  repeat match goal with
  | |- match drop_prefix ?p s with _ => _ end = _ -> _ =>
      let E := fresh "E" in
      destruct (drop_prefix p s) eqn:E;
      [ apply drop_prefix_length in E; cbn [String.length] in E;
        intros H; injection H as _ <-; lia |]
  | |- match match_number s with _ => _ end = _ -> _ =>
      let E := fresh "E" in
      destruct (match_number s) as [[v' r']|] eqn:E;
      [ apply match_number_length in E;
        intros H; injection H as _ <-; exact E |]
  end.
  discriminate.
Qed.

(** What the three scanners return is shorter than what they were given. *)
Lemma scan_length (f : nat) :
  (forall s v r, scan_once f s = Some (v, r) -> String.length r < String.length s)
  /\ (forall s acc p r,
        scan_members f s acc = Some (p, r) -> String.length r < String.length s)
  /\ (forall s acc l r,
        scan_elements f s acc = Some (l, r) -> String.length r < String.length s).
Proof.
  induction f as [|f (IHo & IHm & IHe)]; [repeat split; discriminate|].
  split; [|split].
  - intros s v r. cbn [scan_once]. unfold scan_once_step.
    destruct s as [|c s]; [discriminate|]. cbn [String.length].
    destruct (Ascii.eqb c dq).
    { destruct (scan_string_literal s) as [[x r1]|] eqn:E; [|discriminate].
      apply scan_string_literal_length in E.
      intros H. injection H as _ <-. lia. }
    destruct (Ascii.eqb c "{").
    { pose proof (skip_ws_length s) as Hw.
      destruct (skip_ws s) as [|c1 r1]; [discriminate|].
      cbn [String.length] in Hw.
      destruct (Ascii.eqb c1 "}"); [intros H; injection H as _ <-; lia|].
      destruct (scan_members f (String c1 r1) []) as [[p r2]|] eqn:E;
        [|discriminate].
      apply IHm in E. cbn [String.length] in E.
      intros H. injection H as _ <-. lia. }
    destruct (Ascii.eqb c "[").
    { pose proof (skip_ws_length s) as Hw.
      destruct (skip_ws s) as [|c1 r1]; [discriminate|].
      cbn [String.length] in Hw.
      destruct (Ascii.eqb c1 "]"); [intros H; injection H as _ <-; lia|].
      destruct (scan_elements f (String c1 r1) []) as [[p r2]|] eqn:E;
        [|discriminate].
      apply IHe in E. cbn [String.length] in E.
      intros H. injection H as _ <-. lia. }
    intros H. apply scan_literal_length in H. exact H.
  - intros s acc p r. cbn [scan_members]. unfold scan_members_step.
    destruct s as [|c s]; [discriminate|]. cbn [String.length].
    destruct (Ascii.eqb c dq); [|discriminate].
    destruct (scan_string_literal s) as [[key r1]|] eqn:E1; [|discriminate].
    apply scan_string_literal_length in E1.
    pose proof (skip_ws_length r1) as Hw1.
    destruct (skip_ws r1) as [|c2 r2]; [discriminate|].
    cbn [String.length] in Hw1.
    destruct (Ascii.eqb c2 ":"); [|discriminate].
    pose proof (skip_ws_length r2) as Hw2.
    destruct (scan_once f (skip_ws r2)) as [[v r3]|] eqn:E3; [|discriminate].
    apply IHo in E3.
    pose proof (skip_ws_length r3) as Hw3.
    destruct (skip_ws r3) as [|c4 r4]; [discriminate|].
    cbn [String.length] in Hw3.
    destruct (Ascii.eqb c4 "}"); [intros H; injection H as _ <-; lia|].
    destruct (Ascii.eqb c4 ","); [|discriminate].
    pose proof (skip_ws_length r4) as Hw4.
    intros H. apply IHm in H. lia.
  - intros s acc l r. cbn [scan_elements]. unfold scan_elements_step.
    destruct (scan_once f s) as [[v r1]|] eqn:E1; [|discriminate].
    apply IHo in E1.
    pose proof (skip_ws_length r1) as Hw1.
    destruct (skip_ws r1) as [|c2 r2]; [discriminate|].
    cbn [String.length] in Hw1.
    destruct (Ascii.eqb c2 "]"); [intros H; injection H as _ <-; lia|].
    destruct (Ascii.eqb c2 ","); [|discriminate].
    pose proof (skip_ws_length r2) as Hw2.
    intros H. apply IHe in H. lia.
Qed.

(** One more unit of fuel changes nothing once the fuel is twice the length
    of the text (plus one for the two loops). *)
Lemma scan_fuel_step (f : nat) :
  (forall s, 2 * String.length s <= f -> scan_once (S f) s = scan_once f s)
  /\ (forall s acc, 2 * String.length s + 1 <= f ->
        scan_members (S f) s acc = scan_members f s acc)
  /\ (forall s acc, 2 * String.length s + 1 <= f ->
        scan_elements (S f) s acc = scan_elements f s acc).
Proof.
  induction f as [|f (IHo & IHm & IHe)].
  - split; [|split; intros; lia].
    intros [|c s] H; [reflexivity | cbn [String.length] in H; lia].
  - destruct (scan_length f) as (Lo & _ & _).
    split; [|split].
    + intros s Hs. cbn [scan_once]. unfold scan_once_step.
      destruct s as [|c s]; [reflexivity|]. cbn [String.length] in Hs.
      destruct (Ascii.eqb c dq); [reflexivity|].
      pose proof (skip_ws_length s) as Hw.
      destruct (Ascii.eqb c "{").
      { destruct (skip_ws s) as [|c1 r1]; [reflexivity|].
        destruct (Ascii.eqb c1 "}"); [reflexivity|].
        rewrite IHm by lia. reflexivity. }
      destruct (Ascii.eqb c "[").
      { destruct (skip_ws s) as [|c1 r1]; [reflexivity|].
        destruct (Ascii.eqb c1 "]"); [reflexivity|].
        rewrite IHe by lia. reflexivity. }
      reflexivity.
    + intros s acc Hs. cbn [scan_members]. unfold scan_members_step.
      destruct s as [|c s]; [reflexivity|]. cbn [String.length] in Hs.
      destruct (Ascii.eqb c dq); [|reflexivity].
      destruct (scan_string_literal s) as [[key r1]|] eqn:E1; [|reflexivity].
      apply scan_string_literal_length in E1.
      pose proof (skip_ws_length r1) as Hw1.
      destruct (skip_ws r1) as [|c2 r2]; [reflexivity|].
      cbn [String.length] in Hw1.
      destruct (Ascii.eqb c2 ":"); [|reflexivity].
      pose proof (skip_ws_length r2) as Hw2.
      rewrite IHo by lia.
      destruct (scan_once f (skip_ws r2)) as [[v r3]|] eqn:E3; [|reflexivity].
      apply Lo in E3.
      pose proof (skip_ws_length r3) as Hw3.
      destruct (skip_ws r3) as [|c4 r4]; [reflexivity|].
      cbn [String.length] in Hw3.
      destruct (Ascii.eqb c4 "}"); [reflexivity|].
      destruct (Ascii.eqb c4 ","); [|reflexivity].
      pose proof (skip_ws_length r4) as Hw4.
      apply IHm. lia.
    + intros s acc Hs. cbn [scan_elements]. unfold scan_elements_step.
      rewrite IHo by lia.
      destruct (scan_once f s) as [[v r1]|] eqn:E1; [|reflexivity].
      apply Lo in E1.
      pose proof (skip_ws_length r1) as Hw1.
      destruct (skip_ws r1) as [|c2 r2]; [reflexivity|].
      cbn [String.length] in Hw1.
      destruct (Ascii.eqb c2 "]"); [reflexivity|].
      destruct (Ascii.eqb c2 ","); [|reflexivity].
      pose proof (skip_ws_length r2) as Hw2.
      apply IHe. lia.
Qed.

(** Fuel of twice the length of the text is enough for the scanner: more
    fuel gives the same result. *)
Lemma scan_once_fuel (s : string) (f : nat) :
  2 * String.length s <= f -> scan_once f s = scan_once (2 * String.length s) s.
Proof.
  intros H. induction H as [|f H IH]; [reflexivity|].
  rewrite <- IH. apply (proj1 (scan_fuel_step f)). exact H.
Qed.

(** [json_loads] does not depend on its choice of fuel. *)
Lemma json_loads_fuel (s : string) (f : nat) :
  2 * String.length s <= f ->
  json_loads s =
  match scan_once f (skip_ws s) with
  | Some (v, r) =>
      match skip_ws r with
      | EmptyString => Some v
      | String _ _ => None
      end
  | None => None
  end.
Proof.
  intros H. pose proof (skip_ws_length s) as Hw. unfold json_loads.
  rewrite (scan_once_fuel (skip_ws s) f) by lia.
  rewrite (scan_once_fuel (skip_ws s) (2 + 2 * String.length s)) by lia.
  reflexivity.
Qed.

(* ===================================================================== *)
(** * Lemmas on input extraction *)
(* ===================================================================== *)

Section ExtractionFacts.
Context {B : Builtins}.

(** A part the loop does not read as data leaves every field but the user
    context as it was. *)
Lemma process_part_skips (acc : pydict) (part : Part) (k : string) :
  nonempty_data part = None ->
  String.eqb "userContext" k = false ->
  dict_lookup (process_part acc part) k = dict_lookup acc k.
Proof.
  intros Hn Hk. destruct part as [text md | d md | f md]; simpl.
  - now apply dict_lookup_set_other.
  - destruct d; [reflexivity | discriminate].
  - reflexivity.
Qed.

Ltac lookup_through_sets :=
  repeat first
    [ rewrite dict_lookup_set_same; reflexivity
    | rewrite dict_lookup_set_other by reflexivity ].

(** A data part with a non-empty mapping overwrites the four fields. *)
Lemma process_part_reads (acc : pydict) (kv : string * pyval) (r : pydict)
  (md : option pydict) :
  reads_data (process_part acc (DataPart (kv :: r) md)) (kv :: r).
Proof.
  unfold reads_data, process_part. cbn [py_truthy].
  destruct (dict_mem (kv :: r) "extraContext");
    repeat split; lookup_through_sets.
Qed.

Lemma fold_parts_skips (ps : list Part) :
  last_data_part ps = None ->
  forall (acc : pydict) (k : string),
    String.eqb "userContext" k = false ->
    dict_lookup (fold_left process_part ps acc) k = dict_lookup acc k.
Proof.
  induction ps as [|part r IH]; intros Hl acc k Hk; [reflexivity|].
  simpl in Hl |- *. destruct (last_data_part r) eqn:Er; [discriminate|].
  rewrite IH by auto. now apply process_part_skips.
Qed.

(** The loop ends with the fields of the last data part that has a non-empty
    mapping. *)
Lemma fold_parts_reads (ps : list Part) (d : pydict) :
  last_data_part ps = Some d ->
  forall acc : pydict, reads_data (fold_left process_part ps acc) d.
Proof.
  induction ps as [|part r IH]; intros Hl acc; [discriminate|].
  simpl in Hl |- *. destruct (last_data_part r) eqn:Er.
  - injection Hl as ->. now apply IH.
  - destruct part as [text md | [|kv d'] md | f md]; try discriminate.
    injection Hl as <-.
    pose proof (process_part_reads acc kv d' md) as (H1 & H2 & H3 & H4).
    unfold reads_data.
    rewrite !(fold_parts_skips r Er) by reflexivity. auto.
Qed.

Lemma extract_latest (task : Task) (m : Message) :
  latest_message_of task = Some m ->
  extract_user_input_from_task task = fold_left process_part (msg_parts m) [].
Proof.
  unfold latest_message_of, extract_user_input_from_task.
  destruct (history task) as [[|x h]|]; try discriminate.
  now intros ->.
Qed.

Lemma extract_reads (task : Task) (m : Message) (d : pydict) :
  latest_message_of task = Some m ->
  last_data_part (msg_parts m) = Some d ->
  reads_data (extract_user_input_from_task task) d.
Proof.
  intros Hm Hd. rewrite (extract_latest task m Hm). now apply fold_parts_reads.
Qed.

Lemma extract_without_message (task : Task) :
  latest_message_of task = None ->
  extract_user_input_from_task task = [("error", PStr "No task or history found")]
  \/ extract_user_input_from_task task = [("error", PStr "No user messages found")].
Proof.
  unfold latest_message_of, extract_user_input_from_task.
  destruct (history task) as [[|x h]|]; auto.
  intros ->. auto.
Qed.

Lemma no_user_message (h : list Message) :
  Forall (fun msg => msg_role msg <> user) h -> latest_user_message h = None.
Proof.
  intros Hall. unfold latest_user_message.
  replace (filter is_user h) with (@nil Message); [reflexivity|].
  induction Hall as [|x l Hx _ IH]; [reflexivity|].
  simpl. unfold is_user at 1. destruct (msg_role x); [congruence | exact IH].
Qed.

End ExtractionFacts.

(* ===================================================================== *)
(** * Running the monadic code *)
(* ===================================================================== *)

Section RunFacts.
Context {B : Builtins} {R : Runtime}.

(** [extract_tags] never raises: whatever the model call does, the result is
    the one the parsing policy names, in the world the call left. *)
Lemma extract_tags_run (summary : string) (w : World) :
  extract_tags summary w =
  (Ok (spec_tag_policy (fst (strands_agent (tag_prompt summary) w))),
   snd (strands_agent (tag_prompt summary) w)).
Proof.
  unfold extract_tags, try_except, bind, parse_response, lift, ret, raise.
  destruct (strands_agent (tag_prompt summary) w) as [[text|e] w1];
    [|reflexivity].
  cbn [fst snd spec_tag_policy].
  assert (Hparsed : forall parsed : pyval,
    match
      match py_get parsed "tags" (PList []) with
      | Ok tags =>
          match py_get parsed "sentiment" (PStr "unknown") with
          | Ok sentiment =>
              (Ok [("tags",
                    match tags with
                    | PList _ => tags
                    | _ => if py_truthy tags then PList [tags] else PList []
                    end);
                   ("sentiment",
                    match sentiment with
                    | PStr _ => sentiment
                    | _ => PStr (py_str sentiment)
                    end)], w1)
          | Raise e => (Raise e, w1)
          end
      | Raise e => (Raise e, w1)
      end
    with
    | (Ok a, w') => (Ok a, w')
    | (Raise e, w') => (Ok default_tag_data, w')
    end = (Ok (spec_tag_data parsed), w1)).
  { intros parsed. destruct parsed; try reflexivity.
    unfold py_get, spec_tag_data, spec_normalize_tags, spec_normalize_sentiment.
    destruct (dict_get d "tags" (PList [])) as [| b | z | f | s | l | m];
      destruct (dict_get d "sentiment" (PStr "unknown"));
      try reflexivity;
      match goal with
      | |- context [py_truthy ?v] => destruct (py_truthy v)
      end; reflexivity. }
  destruct (json_loads text) as [parsed|]; [apply Hparsed|].
  destruct (re_search_braces text) as [piece|]; [|reflexivity].
  destruct (json_loads piece) as [parsed|]; [apply Hparsed | reflexivity].
Qed.

(** An exception from prompt building leaves [analyze] as it is. *)
Lemma analyze_run_raise (task : Task) (e : exn) (w : World) :
  build_prompt (extract_user_input_from_task task) = Raise e ->
  analyze task w = (Raise e, w).
Proof.
  intros Hp. unfold analyze, bind, lift. now rewrite Hp.
Qed.

(** The success path. *)
Lemma analyze_run_completed (task : Task) (prompt summary : string)
  (w w1 : World) :
  build_prompt (extract_user_input_from_task task) = Ok prompt ->
  strands_agent prompt w = (Ok summary, w1) ->
  let r2 := strands_agent (tag_prompt summary) w1 in
  let u1 := uuid4 (snd r2) in
  let u2 := uuid4 (snd u1) in
  let t := utcnow_iso (snd u2) in
  analyze task w =
  (Ok (completed_task task summary (spec_tag_policy (fst r2))
         (fst u1) (fst u2) (fst t)), snd t).
Proof.
  intros Hp Hs. unfold analyze, bind, lift, try_except, call, ret.
  rewrite Hp, Hs, extract_tags_run. cbv zeta.
  destruct (uuid4 (snd (strands_agent (tag_prompt summary) w1))) as [a wa].
  cbn [fst snd]. destruct (uuid4 wa) as [b wb].
  cbn [fst snd]. destruct (utcnow_iso wb) as [c wc].
  reflexivity.
Qed.

(** The handler. *)
Lemma analyze_run_failed (task : Task) (prompt : string) (e : exn)
  (w w1 : World) :
  build_prompt (extract_user_input_from_task task) = Ok prompt ->
  strands_agent prompt w = (Raise e, w1) ->
  let u1 := uuid4 w1 in
  let u2 := uuid4 (snd u1) in
  let t := utcnow_iso (snd u2) in
  analyze task w = (Ok (failed_task task e (fst u1) (fst u2) (fst t)), snd t).
Proof.
  intros Hp Hs. unfold analyze, bind, lift, try_except, call, ret.
  rewrite Hp, Hs. cbv zeta.
  destruct (uuid4 w1) as [a wa].
  cbn [fst snd]. destruct (uuid4 wa) as [b wb].
  cbn [fst snd]. destruct (utcnow_iso wb) as [c wc].
  reflexivity.
Qed.

End RunFacts.

(* ===================================================================== *)
(** * The prompt *)
(* ===================================================================== *)

(** Looks for the needle at the head of the text, then one character or one
    opaque piece further on. *)
Ltac contains_search :=
  first
    [ solve [eapply contains_here; reflexivity]
    | apply contains_cons; contains_search
    | apply contains_app_r; contains_search ].

Ltac prompt_contains :=
  match goal with
  | |- contains (if ?c then _ else _) _ =>
      destruct c; [apply contains_app_l|]; contains_search
  | |- contains _ _ => contains_search
  end.

Section PromptFacts.
Context {B : Builtins}.

(** The prompt for an input whose four data fields are known, in terms of the
    joined risk text. *)
Lemma build_prompt_fields (input_ : pydict) (sector focus rf sl : pyval)
  (prompt : string) :
  dict_lookup input_ "sector" = Some sector ->
  dict_lookup input_ "focus" = Some focus ->
  dict_lookup input_ "riskFactors" = Some rf ->
  dict_lookup input_ "summaryLength" = Some sl ->
  build_prompt input_ = Ok prompt ->
  exists (risks tail : string),
    prompt =
    "Knowing the user request: " ++ py_str (dict_get input_ "userContext" PNone)
    ++ ". Write a concise, coherent, and natural-sounding market summary (about "
    ++ py_str sl ++ " words) for the " ++ py_str sector ++ " sector. Focus on "
    ++ py_str focus
    ++ ". Discuss key trends, opportunities, and threats in a single paragraph. "
    ++ "If the user request has the intention of making a trade but did not specify which stock or company, "
    ++ "then the summary should name out what is the company that matches user description for investment. "
    ++ "Do NOT include a title, bullet points, or any formatting—write in natural English prose only. "
    ++ "Consider risk factors such as: " ++ risks ++ "." ++ tail.
Proof.
  intros Hs Hf Hr Hl. unfold build_prompt.
  rewrite (dict_get_found _ _ _ _ Hs), (dict_get_found _ _ _ _ Hf),
    (dict_get_found _ _ _ _ Hr), (dict_get_found _ _ _ _ Hl).
  destruct (if py_truthy rf then py_join ", " rf else Ok "market uncertainty")
    as [risks|e]; cbn [rbind]; [|discriminate].
  intros Hp. apply Ok_inj in Hp. subst prompt. exists risks.
  destruct (py_truthy (dict_get input_ "extraContext" PNone)).
  - exists (" Here is more context: "
            ++ py_str (dict_get input_ "extraContext" PNone) ++ ".").
    rewrite !append_assoc. reflexivity.
  - exists EmptyString. reflexivity.
Qed.

(** Without a summary length there was no data to read, hence no risk
    factors either. *)
Lemma extract_without_length (task : Task) :
  dict_lookup (extract_user_input_from_task task) "summaryLength" = None ->
  dict_lookup (extract_user_input_from_task task) "riskFactors" = None.
Proof.
  destruct (latest_message_of task) as [m|] eqn:Em.
  - destruct (last_data_part (msg_parts m)) as [d|] eqn:Ed.
    + destruct (extract_reads task m d Em Ed) as (_ & _ & _ & H4).
      rewrite H4. discriminate.
    + intros _. rewrite (extract_latest task m Em).
      now rewrite (fold_parts_skips _ Ed) by reflexivity.
  - intros _. destruct (extract_without_message task Em) as [-> | ->];
      reflexivity.
Qed.

End PromptFacts.

(** C7, as amended.  When the last data part with a non-empty mapping in the
    latest user message gives sector "energy", focus "renewables", risk
    factors "regulation" and "oil prices" and summary length 100, the prompt
    is built and contains "energy sector", "renewables", "100 words" and
    "regulation, oil prices". *)
Theorem energy_prompt_substrings {B : Builtins} (task : Task) (m : Message)
  (d : pydict) :
  latest_message_of task = Some m ->
  last_data_part (msg_parts m) = Some d ->
  dict_lookup d "sector" = Some (PStr "energy") ->
  dict_lookup d "focus" = Some (PStr "renewables") ->
  dict_lookup d "riskFactors" = Some (PList [PStr "regulation"; PStr "oil prices"]) ->
  dict_lookup d "summaryLength" = Some (PInt 100) ->
  exists prompt : string,
    build_prompt (extract_user_input_from_task task) = Ok prompt
    /\ contains prompt "energy sector"
    /\ contains prompt "renewables"
    /\ contains prompt "100 words"
    /\ contains prompt "regulation, oil prices".
Proof.
  intros Hm Hd Hs Hf Hr Hl.
  destruct (extract_reads task m d Hm Hd) as (H1 & H2 & H3 & H4).
  rewrite (dict_get_found _ _ _ _ Hs) in H1.
  rewrite (dict_get_found _ _ _ _ Hf) in H2.
  rewrite (dict_get_found _ _ _ _ Hr) in H3.
  rewrite (dict_get_found _ _ _ _ Hl) in H4.
  assert (Hb : exists prompt,
             build_prompt (extract_user_input_from_task task) = Ok prompt).
  { unfold build_prompt. rewrite (dict_get_found _ _ _ _ H3).
    cbn [py_truthy py_join join_items join_strs rbind]. eauto. }
  destruct Hb as (prompt & Hb). exists prompt. split; [exact Hb|].
  assert (Hrisks :
    build_prompt (extract_user_input_from_task task) = Ok prompt ->
    contains prompt "regulation, oil prices").
  { unfold build_prompt. rewrite (dict_get_found _ _ _ _ H3).
    cbn [py_truthy py_join join_items join_strs rbind String.concat].
    intros Hp. apply Ok_inj in Hp. subst prompt. prompt_contains. }
  destruct (build_prompt_fields _ _ _ _ _ _ H1 H2 H3 H4 Hb)
    as (risks & tail & Hshape).
  cbn [py_str py_repr] in Hshape.
  repeat split; [| | | now apply Hrisks]; rewrite Hshape; contains_search.
Qed.

Lemma energy_prompt_substrings_witness :
  exists prompt : string,
    build_prompt (B := example_builtins)
      (extract_user_input_from_task (B := example_builtins) task_energy)
    = Ok prompt
    /\ contains prompt "energy sector"
    /\ contains prompt "renewables"
    /\ contains prompt "100 words"
    /\ contains prompt "regulation, oil prices".
Proof.
  apply (energy_prompt_substrings (B := example_builtins) task_energy
           (user_message [DataPart energy_data None]) energy_data);
    reflexivity.
Defined.

(** C7, counterexample.  The latest user message contains the data part of
    the example, followed by a second data part that only names a sector: the
    second one overwrites all four fields, and the prompt contains none of
    "energy sector", "renewables", "100 words", "regulation, oil prices". *)
Lemma later_data_part_overrides :
  In (DataPart energy_data None)
     (msg_parts (user_message [DataPart energy_data None;
                               DataPart [("sector", PStr "tech")] None]))
  /\ latest_message_of task_energy_then_tech
     = Some (user_message [DataPart energy_data None;
                           DataPart [("sector", PStr "tech")] None])
  /\ exists prompt : string,
       build_prompt (B := example_builtins)
         (extract_user_input_from_task (B := example_builtins)
            task_energy_then_tech)
       = Ok prompt
       /\ ~ contains prompt "energy sector"
       /\ ~ contains prompt "renewables"
       /\ ~ contains prompt "100 words"
       /\ ~ contains prompt "regulation, oil prices".
Proof.
  split; [left; reflexivity|]. split; [reflexivity|].
  eexists. split; [vm_compute; reflexivity|].
  repeat split; apply not_contains; vm_compute; reflexivity.
Qed.

(** C8, as amended.  The two summary-length defaults: when the last data part
    with a non-empty mapping in the latest user message has no summaryLength
    key, a prompt that is built asks for about 200 words; when the extracted
    input has no summaryLength at all, the prompt is built and asks for about
    150 words. *)
Theorem summary_length_defaults {B : Builtins} (task : Task) :
  (forall (m : Message) (d : pydict) (prompt : string),
     latest_message_of task = Some m ->
     last_data_part (msg_parts m) = Some d ->
     dict_lookup d "summaryLength" = None ->
     build_prompt (extract_user_input_from_task task) = Ok prompt ->
     contains prompt "(about 200 words)")
  /\ (dict_lookup (extract_user_input_from_task task) "summaryLength" = None ->
      exists prompt : string,
        build_prompt (extract_user_input_from_task task) = Ok prompt
        /\ contains prompt "(about 150 words)").
Proof.
  split.
  - intros m d prompt Hm Hd Hl Hb.
    destruct (extract_reads task m d Hm Hd) as (H1 & H2 & H3 & H4).
    rewrite (dict_get_missing _ _ _ Hl) in H4.
    destruct (build_prompt_fields _ _ _ _ _ _ H1 H2 H3 H4 Hb)
      as (risks & tail & ->).
    cbn [py_str py_repr]. contains_search.
  - intros Hl. pose proof (extract_without_length task Hl) as Hr.
    unfold build_prompt.
    rewrite (dict_get_missing _ _ _ Hl), (dict_get_missing _ _ _ Hr).
    cbn [py_truthy rbind py_str py_repr].
    eexists. split; [reflexivity|]. prompt_contains.
Qed.

Lemma summary_length_defaults_witness :
  contains
    ("Knowing the user request: Should I buy?. Write a concise, coherent, and natural-sounding market summary (about 200 words) for the UNKNOWN_SECTOR sector. Focus on dividends. Discuss key trends, opportunities, and threats in a single paragraph. If the user request has the intention of making a trade but did not specify which stock or company, then the summary should name out what is the company that matches user description for investment. Do NOT include a title, bullet points, or any formatting—write in natural English prose only. Consider risk factors such as: market uncertainty.")
    "(about 200 words)"
  /\ exists prompt : string,
       build_prompt (B := example_builtins)
         (extract_user_input_from_task (B := example_builtins) task_no_history)
       = Ok prompt
       /\ contains prompt "(about 150 words)".
Proof.
  split.
  - apply (proj1 (summary_length_defaults (B := example_builtins) task_focus_only)
             (user_message [TextPart "Should I buy?" None;
                            DataPart [("focus", PStr "dividends")] None])
             [("focus", PStr "dividends")]);
      reflexivity.
  - apply (proj2 (summary_length_defaults (B := example_builtins) task_no_history)).
    reflexivity.
Defined.

(** C8, counterexample.  The only part of the latest user message is a data
    part with an empty mapping: it has no summaryLength key, the loop skips
    it, and the prompt asks for about 150 words, not 200. *)
Lemma empty_data_part_asks_150_words :
  latest_message_of task_empty_data = Some (user_message [DataPart [] None])
  /\ dict_lookup [] "summaryLength" = None
  /\ build_prompt (B := example_builtins)
       (extract_user_input_from_task (B := example_builtins) task_empty_data)
     = Ok default_prompt
  /\ contains default_prompt "(about 150 words)"
  /\ ~ contains default_prompt "200 words".
Proof.
  split; [reflexivity|]. split; [reflexivity|]. split; [reflexivity|].
  split.
  - unfold default_prompt. contains_search.
  - apply not_contains. vm_compute. reflexivity.
Qed.




(* ===================================================================== *)
(** * Tag extraction *)
(* ===================================================================== *)

Lemma lazy_to_close_body (s piece : string) :
  lazy_to_close s = Some piece ->
  exists body post : string,
    s = body ++ "}" ++ post /\ piece = body ++ "}" /\ mem_char "}" body = false.
Proof.
  revert piece. induction s as [|c r IH]; intros piece H; [discriminate|].
  simpl in H. destruct (Ascii.eqb c "}") eqn:Ec.
  - apply Ascii.eqb_eq in Ec. subst c. injection H as <-.
    now exists EmptyString, r.
  - destruct (lazy_to_close r) as [m|]; [|discriminate].
    injection H as <-. destruct (IH m eq_refl) as (body & post & -> & -> & Hb).
    exists (String c body), post. simpl. now rewrite Ec, Hb.
Qed.

Lemma lazy_to_close_none (s : string) :
  lazy_to_close s = None -> re_search_braces s = None.
Proof.
  induction s as [|c r IH]; [reflexivity|].
  simpl. destruct (Ascii.eqb c "}"); [discriminate|].
  destruct (lazy_to_close r) as [m|]; [discriminate|]. intros _.
  rewrite (IH eq_refl). now destruct (Ascii.eqb c "{").
Qed.

(** The match of the regular expression runs from the first opening brace of
    the text to the first closing brace after it. *)
Lemma re_search_braces_first (s piece : string) :
  re_search_braces s = Some piece ->
  exists pre body post : string,
    s = pre ++ "{" ++ body ++ "}" ++ post
    /\ piece = "{" ++ body ++ "}"
    /\ mem_char "{" pre = false
    /\ mem_char "}" body = false.
Proof.
  induction s as [|c r IH]; intros H; [discriminate|].
  simpl in H. destruct (Ascii.eqb c "{") eqn:Ec.
  - apply Ascii.eqb_eq in Ec. subst c.
    destruct (lazy_to_close r) as [m|] eqn:Em.
    + injection H as <-.
      destruct (lazy_to_close_body r m Em) as (body & post & -> & -> & Hb).
      now exists EmptyString, body, post.
    + rewrite (lazy_to_close_none r Em) in H. discriminate.
  - destruct (IH H) as (pre & body & post & -> & -> & Hp & Hb).
    exists (String c pre), body, post. simpl. now rewrite Ec, Hp.
Qed.







Section TagFacts.
Context {B : Builtins}.


Lemma spec_tag_data_shape (parsed : pyval) :
  exists (tags : list pyval) (sentiment : string),
    spec_tag_data parsed = [("tags", PList tags); ("sentiment", PStr sentiment)].
Proof.
  destruct parsed; unfold spec_tag_data, default_tag_data;
    do 2 eexists; reflexivity.
Qed.

Lemma spec_tag_policy_shape (response : result string) :
  exists (tags : list pyval) (sentiment : string),
    spec_tag_policy response
    = [("tags", PList tags); ("sentiment", PStr sentiment)].
Proof.
  assert (Hd : exists (tags : list pyval) (sentiment : string),
             default_tag_data = [("tags", PList tags); ("sentiment", PStr sentiment)])
    by (unfold default_tag_data; eauto).
  destruct response as [text|e]; simpl; [|exact Hd].
  destruct (json_loads text); [apply spec_tag_data_shape|].
  destruct (re_search_braces text) as [piece|]; [|exact Hd].
  destruct (json_loads piece); [apply spec_tag_data_shape | exact Hd].
Qed.

End TagFacts.

Lemma parse_response_policy {B : Builtins} {R : Runtime} (text : string)
  (w w' : World) (parsed : pyval) :
  parse_response text w = (Ok parsed, w') ->
  w' = w /\ spec_tag_policy (Ok text) = spec_tag_data parsed.
Proof.
  unfold parse_response, ret, raise. cbn [spec_tag_policy].
  destruct (json_loads text) as [p|].
  - intros H. injection H as <- <-. auto.
  - destruct (re_search_braces text) as [piece|].
    + destruct (json_loads piece) as [p|]; [|discriminate].
      intros H. injection H as <- <-. auto.
    + intros H. injection H as <- <-. auto.
Qed.



(** C5.  [extract_tags] never raises and always returns a mapping with
    exactly the keys "tags" and "sentiment", the first a list and the second a
    string.  When the answer parses to a mapping: a "tags" value that is a
    list is kept, one that is not a list is wrapped into a one-element list
    when truthy and replaced by the empty list when falsy; a "sentiment"
    value that is a string is kept, any other is replaced by its [str]. *)
Theorem extract_tags_well_formed {B : Builtins} {R : Runtime}
  (summary : string) (w : World) :
  (exists (tags : list pyval) (sentiment : string) (w' : World),
     extract_tags summary w
     = (Ok [("tags", PList tags); ("sentiment", PStr sentiment)], w'))
  /\ (forall (text : string) (w1 : World) (d : pydict),
        strands_agent (tag_prompt summary) w = (Ok text, w1) ->
        parse_response text w1 = (Ok (PDict d), w1) ->
        exists (tags : list pyval) (sentiment : string),
          extract_tags summary w
          = (Ok [("tags", PList tags); ("sentiment", PStr sentiment)], w1)
          /\ (forall l, dict_get d "tags" (PList []) = PList l -> tags = l)
          /\ ((forall l, dict_get d "tags" (PList []) <> PList l) ->
              py_truthy (dict_get d "tags" (PList [])) = true ->
              tags = [dict_get d "tags" (PList [])])
          /\ ((forall l, dict_get d "tags" (PList []) <> PList l) ->
              py_truthy (dict_get d "tags" (PList [])) = false ->
              tags = [])
          /\ (forall s, dict_get d "sentiment" (PStr "unknown") = PStr s ->
              sentiment = s)
          /\ ((forall s, dict_get d "sentiment" (PStr "unknown") <> PStr s) ->
              sentiment = py_str (dict_get d "sentiment" (PStr "unknown")))).
Proof.
  split.
  - rewrite extract_tags_run.
    destruct (spec_tag_policy_shape (fst (strands_agent (tag_prompt summary) w)))
      as (tags & sentiment & ->).
    eauto.
  - intros text w1 d Hs Hp. rewrite extract_tags_run, Hs. cbn [fst snd].
    destruct (parse_response_policy text w1 w1 (PDict d) Hp) as (_ & ->).
    cbn [spec_tag_data].
    exists (spec_normalize_tags (dict_get d "tags" (PList []))),
           (spec_normalize_sentiment (dict_get d "sentiment" (PStr "unknown"))).
    split; [reflexivity|].
    unfold spec_normalize_tags, spec_normalize_sentiment.
    split; [|split; [|split; [|split]]].
    + intros l ->. reflexivity.
    + intros Hnl ->. destruct (dict_get d "tags" (PList [])); try reflexivity.
      now elim (Hnl l).
    + intros Hnl ->. destruct (dict_get d "tags" (PList [])); try reflexivity.
      now elim (Hnl l).
    + intros s ->. reflexivity.
    + intros _. destruct (dict_get d "sentiment" (PStr "unknown"));
        reflexivity.
Qed.

Lemma extract_tags_well_formed_witness :
  exists (tags : list pyval) (sentiment : string),
    extract_tags (B := example_builtins) (R := scripted) "X"
      (world_with [Ok (qq "{`tags`: `oil`, `sentiment`: 3}")])
    = (Ok [("tags", PList tags); ("sentiment", PStr sentiment)], world_with [])
    /\ tags = [PStr "oil"] /\ sentiment = "3".
Proof.
  destruct (proj2 (extract_tags_well_formed (B := example_builtins) (R := scripted)
                     "X" (world_with [Ok (qq "{`tags`: `oil`, `sentiment`: 3}")]))
                  (qq "{`tags`: `oil`, `sentiment`: 3}") (world_with [])
                  [("tags", PStr "oil"); ("sentiment", PInt 3)]
                  eq_refl eq_refl)
    as (tags & sentiment & Hrun & _ & Hwrap & _ & _ & Hstr).
  exists tags, sentiment. split; [exact Hrun|]. split.
  - apply Hwrap; [discriminate | reflexivity].
  - apply Hstr. discriminate.
Defined.

(* ===================================================================== *)
(** * Orchestration *)
(* ===================================================================== *)

Lemma append_to_no_artifacts (task : Task) (a : Artifact) :
  no_artifacts task -> append_artifact (artifacts task) a = Some [a].
Proof.
  unfold append_artifact. now intros [-> | ->].
Qed.

(** C1, as amended.  Once the prompt is built, no exception leaves [analyze];
    and every exception the summary call raises is caught: the task comes
    back with the same id, context and history, state failed, an agent
    message and an appended artifact whose only part is the text of the
    exception, and the time read after the failure, with a "Z", as timestamp. *)
Theorem analyze_catches_model_exceptions {B : Builtins} {R : Runtime}
  (task : Task) (prompt : string) (w : World) :
  build_prompt (extract_user_input_from_task task) = Ok prompt ->
  (exists (task' : Task) (w' : World), analyze task w = (Ok task', w'))
  /\ forall (e : exn) (w1 : World),
       strands_agent prompt w = (Raise e, w1) ->
       exists (task' : Task) (w' : World) (msg : Message) (a : Artifact),
         analyze task w = (Ok task', w')
         /\ id task' = id task
         /\ contextId task' = contextId task
         /\ history task' = history task
         /\ state (status task') = failed
         /\ message (status task') = Some msg
         /\ msg_role msg = agent
         /\ msg_parts msg = [TextPart (exn_str e) (Some [])]
         /\ timestamp (status task')
            = Some (fst (utcnow_iso (snd (uuid4 (snd (uuid4 w1))))) ++ "Z")
         /\ artifacts task'
            = Some ((match artifacts task with Some l => l | None => [] end)
                    ++ [a])%list
         /\ name a = Some "Error"
         /\ parts a = [TextPart (exn_str e) (Some [])].
Proof.
  intros Hp. split.
  - destruct (strands_agent prompt w) as [[summary|e] w1] eqn:Hs.
    + rewrite (analyze_run_completed task prompt summary w w1 Hp Hs). eauto.
    + rewrite (analyze_run_failed task prompt e w w1 Hp Hs). eauto.
  - intros e w1 Hs.
    rewrite (analyze_run_failed task prompt e w w1 Hp Hs).
    do 4 eexists. split; [reflexivity|].
    cbn. repeat (split; [reflexivity|]). reflexivity.
Qed.

Lemma analyze_catches_model_exceptions_witness :
  exists (task' : Task) (w' : World (Runtime := scripted)),
    analyze (B := example_builtins) (R := scripted) task_energy
      (world_with [Raise (Exception "RuntimeError" "model unavailable")])
    = (Ok task', w').
Proof.
  apply (proj1 (analyze_catches_model_exceptions (B := example_builtins)
                  (R := scripted) task_energy
                  "Knowing the user request: None. Write a concise, coherent, and natural-sounding market summary (about 100 words) for the energy sector. Focus on renewables. Discuss key trends, opportunities, and threats in a single paragraph. If the user request has the intention of making a trade but did not specify which stock or company, then the summary should name out what is the company that matches user description for investment. Do NOT include a title, bullet points, or any formatting—write in natural English prose only. Consider risk factors such as: regulation, oil prices."
                  (world_with [Raise (Exception "RuntimeError" "model unavailable")])
                  eq_refl)).
Defined.

(** C1, counterexample.  Prompt building runs before the [try]: with a risk
    factor that is not a string the [join] raises a [TypeError], and
    [analyze] passes it on to its caller instead of returning a failed task. *)
Lemma prompt_building_exception_propagates :
  build_prompt (B := example_builtins)
    (extract_user_input_from_task (B := example_builtins) task_numeric_risk)
  = Raise (TypeError "sequence item 0: expected str instance, int found")
  /\ analyze (B := example_builtins) (R := scripted) task_numeric_risk
       (world_with [Ok "X"; Ok answer_four_tags])
     = (Raise (TypeError "sequence item 0: expected str instance, int found"),
        world_with [Ok "X"; Ok answer_four_tags]).
Proof.
  split; reflexivity.
Qed.

(** C2, as amended.  For a task without artifacts, when the summary call and
    the tag call both answer, [analyze] returns the task with state
    completed and exactly one artifact, named "Market Summary", whose parts
    are the summary as a text part and then a data part with "tags", a list,
    and "sentiment", a string: the mapping that the parsing policy yields for
    the tag answer, with as many tags as that answer gives. *)
Theorem analyze_completed {B : Builtins} {R : Runtime}
  (task : Task) (prompt summary answer : string) (w w1 w2 : World) :
  no_artifacts task ->
  build_prompt (extract_user_input_from_task task) = Ok prompt ->
  strands_agent prompt w = (Ok summary, w1) ->
  strands_agent (tag_prompt summary) w1 = (Ok answer, w2) ->
  exists (task' : Task) (w' : World) (a : Artifact)
         (tags : list pyval) (sentiment : string),
    analyze task w = (Ok task', w')
    /\ state (status task') = completed
    /\ artifacts task' = Some [a]
    /\ name a = Some "Market Summary"
    /\ parts a = [TextPart summary (Some []);
                  DataPart [("tags", PList tags); ("sentiment", PStr sentiment)]
                    (Some [])]
    /\ spec_tag_policy (Ok answer)
       = [("tags", PList tags); ("sentiment", PStr sentiment)].
Proof.
  intros Hna Hp Hs Ht.
  pose proof (analyze_run_completed task prompt summary w w1 Hp Hs) as Hrun.
  cbv zeta in Hrun. rewrite Ht in Hrun. cbn [fst snd] in Hrun.
  destruct (spec_tag_policy_shape (Ok answer)) as (tags & sentiment & Hshape).
  rewrite Hshape in Hrun. rewrite Hrun.
  do 2 eexists. eexists. exists tags, sentiment.
  split; [reflexivity|]. split; [reflexivity|].
  split; [apply (append_to_no_artifacts task _ Hna)|].
  split; [reflexivity|]. split; [reflexivity | exact Hshape].
Qed.

Lemma analyze_completed_witness :
  exists (task' : Task) (w' : World (Runtime := scripted)) (a : Artifact)
         (tags : list pyval) (sentiment : string),
    analyze (B := example_builtins) (R := scripted) task_no_history
      (world_with [Ok "X"; Ok answer_four_tags])
    = (Ok task', w')
    /\ state (status task') = completed
    /\ artifacts task' = Some [a]
    /\ name a = Some "Market Summary"
    /\ parts a = [TextPart "X" (Some []);
                  DataPart [("tags", PList tags); ("sentiment", PStr sentiment)]
                    (Some [])]
    /\ spec_tag_policy (B := example_builtins) (Ok answer_four_tags)
       = [("tags", PList tags); ("sentiment", PStr sentiment)].
Proof.
  apply (analyze_completed (B := example_builtins) (R := scripted)
           task_no_history default_prompt "X" answer_four_tags
           (world_with [Ok "X"; Ok answer_four_tags])
           (world_with [Ok answer_four_tags]) (world_with []));
    [left; reflexivity | reflexivity | reflexivity | reflexivity].
Defined.

(** C2, counterexample.  Both model calls answer, the task has no artifacts,
    and the tag answer lists eight tags: all eight are in the data part. *)
Lemma eight_tags_are_kept :
  no_artifacts task_energy
  /\ strands_agent (Runtime := scripted) (tag_prompt "X")
       (world_with [Ok answer_eight_tags])
     = (Ok answer_eight_tags, world_with [])
  /\ exists (task' : Task) (w' : World (Runtime := scripted)) (a : Artifact)
            (tags : list pyval),
       analyze (B := example_builtins) (R := scripted) task_energy
         (world_with [Ok "X"; Ok answer_eight_tags])
       = (Ok task', w')
       /\ state (status task') = completed
       /\ artifacts task' = Some [a]
       /\ parts a = [TextPart "X" (Some []);
                     DataPart [("tags", PList tags); ("sentiment", PStr "neutral")]
                       (Some [])]
       /\ length tags = 8.
Proof.
  split; [left; reflexivity|]. split; [reflexivity|].
  do 4 eexists. split; [vm_compute; reflexivity|].
  repeat (split; [reflexivity|]). reflexivity.
Qed.

(** C3.  For a task without artifacts, when the summary call raises, the task
    returned has state failed and exactly one artifact; it is named "Error",
    its single part is a text part with the text of the exception, and no
    artifact of the task is named "Market Summary". *)
Theorem analyze_summary_call_raises {B : Builtins} {R : Runtime}
  (task : Task) (prompt : string) (e : exn) (w w1 : World) :
  no_artifacts task ->
  build_prompt (extract_user_input_from_task task) = Ok prompt ->
  strands_agent prompt w = (Raise e, w1) ->
  exists (task' : Task) (w' : World) (a : Artifact),
    analyze task w = (Ok task', w')
    /\ state (status task') = failed
    /\ artifacts task' = Some [a]
    /\ name a = Some "Error"
    /\ parts a = [TextPart (exn_str e) (Some [])]
    /\ forall (l : list Artifact) (a' : Artifact),
         artifacts task' = Some l -> In a' l -> name a' <> Some "Market Summary".
Proof.
  intros Hna Hp Hs.
  rewrite (analyze_run_failed task prompt e w w1 Hp Hs).
  do 3 eexists. split; [reflexivity|]. split; [reflexivity|].
  split; [apply (append_to_no_artifacts task _ Hna)|].
  split; [reflexivity|]. split; [reflexivity|].
  intros l a' Hl Hin. cbn [artifacts failed_task] in Hl.
  rewrite (append_to_no_artifacts task _ Hna) in Hl.
  injection Hl as <-. destruct Hin as [<- | []]. discriminate.
Qed.

Lemma analyze_summary_call_raises_witness :
  exists (task' : Task) (w' : World (Runtime := scripted)) (a : Artifact),
    analyze (B := example_builtins) (R := scripted) task_no_history
      (world_with [Raise (Exception "RuntimeError" "model unavailable")])
    = (Ok task', w')
    /\ state (status task') = failed
    /\ artifacts task' = Some [a]
    /\ name a = Some "Error"
    /\ parts a = [TextPart "model unavailable" (Some [])]
    /\ forall (l : list Artifact) (a' : Artifact),
         artifacts task' = Some l -> In a' l -> name a' <> Some "Market Summary".
Proof.
  apply (analyze_summary_call_raises (B := example_builtins) (R := scripted)
           task_no_history default_prompt
           (Exception "RuntimeError" "model unavailable")
           (world_with [Raise (Exception "RuntimeError" "model unavailable")])
           (world_with []));
    [left; reflexivity | reflexivity | reflexivity].
Defined.

(** C6.  For a task whose history is missing, empty or without a user
    message, extraction returns a mapping with the single key "error", the
    prompt builder returns the prompt of its defaults, and whenever the
    summary call answers, [analyze] returns the task in state completed;
    nothing raises on the way. *)
Theorem missing_history_still_completes {B : Builtins} {R : Runtime}
  (task : Task) :
  (history task = None
   \/ history task = Some []
   \/ exists h, history task = Some h
                /\ Forall (fun msg => msg_role msg <> user) h) ->
  (exists text : string,
     extract_user_input_from_task task = [("error", PStr text)])
  /\ build_prompt (extract_user_input_from_task task) = Ok default_prompt
  /\ forall (w w1 : World) (summary : string),
       strands_agent default_prompt w = (Ok summary, w1) ->
       exists (task' : Task) (w' : World),
         analyze task w = (Ok task', w') /\ state (status task') = completed.
Proof.
  intros Hh.
  assert (Hm : latest_message_of task = None).
  { unfold latest_message_of.
    destruct Hh as [-> | [-> | (h & -> & Hall)]];
      [reflexivity | reflexivity | now apply no_user_message]. }
  assert (Hp : build_prompt (extract_user_input_from_task task) = Ok default_prompt)
    by (destruct (extract_without_message task Hm) as [-> | ->]; reflexivity).
  split; [destruct (extract_without_message task Hm) as [-> | ->]; eauto|].
  split; [exact Hp|].
  intros w w1 summary Hs.
  rewrite (analyze_run_completed task default_prompt summary w w1 Hp Hs).
  eauto.
Qed.

Lemma missing_history_still_completes_witness :
  exists (task' : Task) (w' : World (Runtime := scripted)),
    analyze (B := example_builtins) (R := scripted) task_no_history
      (world_with [Ok "X"; Ok answer_four_tags])
    = (Ok task', w')
    /\ state (status task') = completed.
Proof.
  apply (proj2 (proj2 (missing_history_still_completes (B := example_builtins)
                         (R := scripted) task_no_history (or_introl eq_refl)))
           (world_with [Ok "X"; Ok answer_four_tags])
           (world_with [Ok answer_four_tags]) "X").
  reflexivity.
Defined.

(* ===================================================================== *)
(** * The agent card *)
(* ===================================================================== *)

(** The body of the example response parses back to the card. *)
Example agent_card_body_parses :
  match lambda_handler (B := example_builtins) [] example_event PNone with
  | Ok (PDict [_; (_, PStr body); _]) =>
      json_loads body
      = Some (agent_card (B := example_builtins)
                (PStr "abc123.execute-api.us-east-1.amazonaws.com")
                "us-east-1" "us.anthropic.claude-3-5-haiku-20241022-v1:0")
  | _ => False
  end.
Proof.
  vm_compute. reflexivity.
Qed.

(* ===================================================================== *)
(** * Further properties of input extraction *)
(* ===================================================================== *)

Lemma dict_mem_lookup (d : pydict) (k : string) :
  dict_mem d k = match dict_lookup d k with Some _ => true | None => false end.
Proof.
  induction d as [|[k' v] d IH]; [reflexivity|].
  cbn [dict_mem dict_lookup]. destruct (String.eqb k' k); [reflexivity | exact IH].
Qed.

Lemma dict_set_keys (d : pydict) (k : string) (v : pyval) :
  map fst (dict_set d k v)
  = if dict_mem d k then map fst d else (map fst d ++ [k])%list.
Proof.
  induction d as [|[k' v'] d IH]; [reflexivity|].
  cbn [dict_set dict_mem]. destruct (String.eqb k' k) eqn:E; cbn [orb].
  - reflexivity.
  - cbn [map fst]. rewrite IH. now destruct (dict_mem d k).
Qed.

Lemma dict_mem_In (d : pydict) (k : string) :
  dict_mem d k = true <-> In k (map fst d).
Proof.
  induction d as [|[k' v] d IH]; cbn [dict_mem map fst In].
  - split; [discriminate | contradiction].
  - rewrite orb_true_iff, IH, String.eqb_eq. reflexivity.
Qed.

(** Assignment keeps the keys of a dict distinct and adds at most its key. *)
Lemma dict_set_invariant (allowed : list string) (d : pydict) (k : string)
  (v : pyval) :
  In k allowed ->
  NoDup (map fst d) /\ incl (map fst d) allowed ->
  NoDup (map fst (dict_set d k v)) /\ incl (map fst (dict_set d k v)) allowed.
Proof.
  intros Hk (Hn & Hi). rewrite dict_set_keys.
  destruct (dict_mem d k) eqn:E; [auto|]. split.
  - apply NoDup_app; [exact Hn | repeat constructor; intros [] | ].
    intros x Hx [<- | []]. apply dict_mem_In in Hx. congruence.
  - apply incl_app; [exact Hi|]. intros x [<- | []]. exact Hk.
Qed.

Section MoreExtraction.
Context {B : Builtins}.

Lemma process_part_invariant (acc : pydict) (part : Part) :
  NoDup (map fst acc) /\ incl (map fst acc) input_fields ->
  NoDup (map fst (process_part acc part))
  /\ incl (map fst (process_part acc part)) input_fields.
Proof.
  intros H. unfold process_part.
  assert (H0 : NoDup (map fst
                 match part with
                 | TextPart text _ => dict_set acc "userContext" (PStr text)
                 | _ => acc
                 end)
               /\ incl (map fst
                    match part with
                    | TextPart text _ => dict_set acc "userContext" (PStr text)
                    | _ => acc
                    end) input_fields).
  { destruct part; try exact H.
    apply dict_set_invariant; [cbn; auto | exact H]. }
  destruct part as [text md | d md | f md]; try exact H0.
  destruct (py_truthy (PDict d)); [|exact H0].
  assert (H4 : forall acc', NoDup (map fst acc') /\ incl (map fst acc') input_fields ->
     NoDup (map fst (dict_set (dict_set (dict_set (dict_set acc' "sector"
               (dict_get d "sector" (PStr "UNKNOWN_SECTOR"))) "focus"
               (dict_get d "focus" (PStr "UNKNOWN_FOCUS"))) "riskFactors"
               (dict_get d "riskFactors" (PList []))) "summaryLength"
               (dict_get d "summaryLength" (PInt 200))))
     /\ incl (map fst (dict_set (dict_set (dict_set (dict_set acc' "sector"
               (dict_get d "sector" (PStr "UNKNOWN_SECTOR"))) "focus"
               (dict_get d "focus" (PStr "UNKNOWN_FOCUS"))) "riskFactors"
               (dict_get d "riskFactors" (PList []))) "summaryLength"
               (dict_get d "summaryLength" (PInt 200)))) input_fields).
  { intros acc' H'.
    repeat (apply dict_set_invariant; [cbn; tauto|]). exact H'. }
  destruct (dict_mem d "extraContext").
  - apply dict_set_invariant; [cbn; tauto|]. now apply H4.
  - now apply H4.
Qed.

Lemma fold_parts_invariant (ps : list Part) :
  forall acc : pydict,
    NoDup (map fst acc) /\ incl (map fst acc) input_fields ->
    NoDup (map fst (fold_left process_part ps acc))
    /\ incl (map fst (fold_left process_part ps acc)) input_fields.
Proof.
  induction ps as [|part r IH]; intros acc H; [exact H|].
  cbn [fold_left]. apply IH. now apply process_part_invariant.
Qed.

(** X1.  The extracted input is a well-formed dict: its keys are distinct, and
    they are either the single key "error" or among the six input fields. *)
Theorem extract_keys (task : Task) :
  NoDup (map fst (extract_user_input_from_task task))
  /\ (map fst (extract_user_input_from_task task) = ["error"]
      \/ incl (map fst (extract_user_input_from_task task)) input_fields).
Proof.
  destruct (latest_message_of task) as [m|] eqn:Em.
  - rewrite (extract_latest task m Em).
    destruct (fold_parts_invariant (msg_parts m) []) as (Hn & Hi).
    { split; [constructor | intros x []]. }
    auto.
  - destruct (extract_without_message task Em) as [-> | ->];
      (split; [repeat constructor; intros [] | left; reflexivity]).
Qed.



(** What one round of the loop does to a field. *)
Lemma process_part_user_context (acc : pydict) (part : Part) :
  dict_lookup (process_part acc part) "userContext"
  = match part with
    | TextPart text _ => Some (PStr text)
    | _ => dict_lookup acc "userContext"
    end.
Proof.
  unfold process_part. destruct part as [text md | d md | f md].
  - apply dict_lookup_set_same.
  - destruct (py_truthy (PDict d)); [|reflexivity].
    destruct (dict_mem d "extraContext");
      now rewrite ?dict_lookup_set_other by reflexivity.
  - reflexivity.
Qed.

Lemma process_part_extra_context (acc : pydict) (part : Part) :
  dict_lookup (process_part acc part) "extraContext"
  = match extra_of part with
    | Some x => Some x
    | None => dict_lookup acc "extraContext"
    end.
Proof.
  unfold process_part, extra_of. destruct part as [text md | d md | f md].
  - cbn [nonempty_data]. now apply dict_lookup_set_other.
  - destruct d as [|kv d]; [reflexivity|]. cbn [nonempty_data py_truthy].
    rewrite dict_mem_lookup. unfold dict_get at 5.
    destruct (dict_lookup (kv :: d) "extraContext") as [x|].
    + apply dict_lookup_set_same.
    + now rewrite !dict_lookup_set_other by reflexivity.
  - reflexivity.
Qed.

Lemma process_part_error (acc : pydict) (part : Part) :
  dict_lookup (process_part acc part) "error" = dict_lookup acc "error".
Proof.
  unfold process_part. destruct part as [text md | d md | f md].
  - now apply dict_lookup_set_other.
  - destruct (py_truthy (PDict d)); [|reflexivity].
    destruct (dict_mem d "extraContext");
      now rewrite ?dict_lookup_set_other by reflexivity.
  - reflexivity.
Qed.

Lemma fold_parts_user_context (ps : list Part) :
  forall acc : pydict,
    dict_lookup (fold_left process_part ps acc) "userContext"
    = match last_text_part ps with
      | Some t => Some (PStr t)
      | None => dict_lookup acc "userContext"
      end.
Proof.
  induction ps as [|part r IH]; intros acc; [reflexivity|].
  cbn [fold_left last_text_part]. rewrite IH.
  destruct (last_text_part r); [reflexivity|].
  rewrite process_part_user_context. now destruct part.
Qed.

Lemma fold_parts_extra_context (ps : list Part) :
  forall acc : pydict,
    dict_lookup (fold_left process_part ps acc) "extraContext"
    = match last_extra_context ps with
      | Some x => Some x
      | None => dict_lookup acc "extraContext"
      end.
Proof.
  induction ps as [|part r IH]; intros acc; [reflexivity|].
  cbn [fold_left last_extra_context]. rewrite IH.
  destruct (last_extra_context r); [reflexivity|].
  apply process_part_extra_context.
Qed.

Lemma fold_parts_error (ps : list Part) :
  forall acc : pydict,
    dict_lookup (fold_left process_part ps acc) "error" = dict_lookup acc "error".
Proof.
  induction ps as [|part r IH]; intros acc; [reflexivity|].
  cbn [fold_left]. rewrite IH. apply process_part_error.
Qed.

Lemma process_part_unread (acc : pydict) (part : Part) :
  is_read part = false -> process_part acc part = acc.
Proof.
  destruct part as [text md | [|kv d] md | f md]; try discriminate; reflexivity.
Qed.

Lemma fold_parts_read (ps : list Part) :
  forall acc : pydict,
    fold_left process_part ps acc = fold_left process_part (filter is_read ps) acc.
Proof.
  induction ps as [|part r IH]; intros acc; [reflexivity|].
  cbn [fold_left filter]. destruct (is_read part) eqn:E.
  - cbn [fold_left]. apply IH.
  - rewrite (process_part_unread acc part E). apply IH.
Qed.

(** X2.  The user context is the text of the last text part of the latest user
    message, and is absent when that message has no text part. *)
Theorem extract_user_context (task : Task) (m : Message) :
  latest_message_of task = Some m ->
  dict_lookup (extract_user_input_from_task task) "userContext"
  = option_map PStr (last_text_part (msg_parts m)).
Proof.
  intros Hm. rewrite (extract_latest task m Hm), fold_parts_user_context.
  now destruct (last_text_part (msg_parts m)).
Qed.

(** X3.  The extra context is not overwritten with the other fields: it
    is the "extraContext" value of the last data part with a non-empty
    mapping that has the key, whatever data parts come after it. *)
Theorem extract_extra_context (task : Task) (m : Message) :
  latest_message_of task = Some m ->
  dict_lookup (extract_user_input_from_task task) "extraContext"
  = last_extra_context (msg_parts m).
Proof.
  intros Hm. rewrite (extract_latest task m Hm), fold_parts_extra_context.
  now destruct (last_extra_context (msg_parts m)).
Qed.

(** X4.  File parts and data parts with an empty mapping play no role: the
    extracted input is the one of the message without them. *)
Theorem extract_ignores_unread_parts (task : Task) (m : Message) :
  latest_message_of task = Some m ->
  extract_user_input_from_task task
  = fold_left process_part (filter is_read (msg_parts m)) [].
Proof.
  intros Hm. rewrite (extract_latest task m Hm). apply fold_parts_read.
Qed.

(** X5.  The error flag is there exactly when the history has no user
    message; and a user message without usable parts (no text part and no
    data part with a non-empty mapping: no parts at all, or only file parts
    and data parts with an empty mapping) yields the empty mapping, not an
    error. *)
Theorem extract_error_flag (task : Task) :
  (dict_lookup (extract_user_input_from_task task) "error" = None
   <-> exists m, latest_message_of task = Some m)
  /\ (forall m : Message,
        latest_message_of task = Some m ->
        filter is_read (msg_parts m) = [] ->
        extract_user_input_from_task task = []).
Proof.
  split; [split|].
  - destruct (latest_message_of task) as [m|] eqn:Em; [eauto|].
    destruct (extract_without_message task Em) as [-> | ->]; discriminate.
  - intros (m & Hm). rewrite (extract_latest task m Hm). apply fold_parts_error.
  - intros m Hm Hnone.
    rewrite (extract_latest task m Hm), fold_parts_read, Hnone. reflexivity.
Qed.

Lemma filter_user_app_agents (h rest : list Message) (m : Message) :
  msg_role m = user ->
  Forall (fun msg => msg_role msg = agent) rest ->
  latest_user_message (h ++ m :: rest)%list = Some m.
Proof.
  intros Hm Hrest. unfold latest_user_message.
  rewrite filter_app. cbn [filter]. unfold is_user at 2. rewrite Hm.
  replace (filter is_user rest) with (@nil Message).
  - destruct (filter is_user h) as [|x l]; cbn [app]; [reflexivity|].
    f_equal. apply last_last.
  - induction Hrest as [|x l Hx _ IH]; [reflexivity|].
    cbn [filter]. unfold is_user at 1. now rewrite Hx.
Qed.

(** X6.  Only the latest user message counts: whatever comes before it
    in the history and whatever agent messages come after it, the extracted
    input is the one read from its parts. *)
Theorem extract_latest_user_message_only (task : Task) (h rest : list Message)
  (m : Message) :
  history task = Some (h ++ m :: rest)%list ->
  msg_role m = user ->
  Forall (fun msg => msg_role msg = agent) rest ->
  extract_user_input_from_task task = fold_left process_part (msg_parts m) [].
Proof.
  intros Hh Hm Hrest. apply extract_latest.
  unfold latest_message_of. rewrite Hh. now apply filter_user_app_agents.
Qed.

End MoreExtraction.

(* ===================================================================== *)
(** * Further properties of the prompt builder *)
(* ===================================================================== *)

Section MorePrompt.
Context {B : Builtins}.

Lemma join_strs_texts (l : list string) (i : Z) :
  join_strs i (map PStr l) = Ok l.
Proof.
  revert i. induction l as [|x l IH]; intros i; [reflexivity|].
  cbn [map join_strs]. now rewrite IH.
Qed.

Lemma join_strs_ok (items : list pyval) :
  forall i : Z,
    (exists l, join_strs i items = Ok l) <-> forallb is_str items = true.
Proof.
  induction items as [|v items IH]; intros i.
  - split; [reflexivity | intros _; now exists []].
  - destruct v; cbn [join_strs forallb is_str andb];
      try (split; [intros (l0 & H0); discriminate | discriminate]).
    rewrite <- (IH (i + 1)%Z). split.
    + intros (l & H). destruct (join_strs (i + 1) items) as [l'|e]; [eauto|].
      discriminate.
    + intros (l & ->). cbn [rbind]. eauto.
Qed.

Lemma join_strs_error (items : list pyval) :
  forall (i : Z) (e : exn), join_strs i items = Raise e -> exn_class e = "TypeError".
Proof.
  induction items as [|v items IH]; intros i e; [discriminate|].
  destruct v; cbn [join_strs]; try (intros H; injection H as <-; reflexivity).
  destruct (join_strs (i + 1) items) as [l|e'] eqn:E; [discriminate|].
  cbn [rbind]. intros H. injection H as <-. exact (IH _ _ E).
Qed.

Lemma forallb_is_str_texts (l : list string) : forallb is_str (map PStr l) = true.
Proof.
  induction l as [|x l IH]; [reflexivity | exact IH].
Qed.

Lemma py_join_ok (sep : string) (v : pyval) :
  (exists text, py_join sep v = Ok text) <-> joinable v = true.
Proof.
  unfold py_join, joinable, join_items.
  destruct v; cbn [rbind];
    try (split; [intros (t0 & H0); discriminate | discriminate]).
  - rewrite join_strs_texts. cbn [rbind]. split; eauto.
  - rewrite <- (join_strs_ok l 0). split.
    + intros (t & H). destruct (join_strs 0 l) as [l'|e]; [eauto | discriminate].
    + intros (l' & ->). cbn [rbind]. eauto.
  - rewrite <- (map_map fst PStr d), join_strs_texts. cbn [rbind]. split; eauto.
Qed.

Lemma py_join_error (sep : string) (v : pyval) (e : exn) :
  py_join sep v = Raise e -> exn_class e = "TypeError".
Proof.
  unfold py_join, join_items.
  destruct v; cbn [rbind]; try (intros H; injection H as <-; reflexivity).
  - rewrite join_strs_texts. discriminate.
  - destruct (join_strs 0 l) as [l'|e'] eqn:E; [discriminate|].
    cbn [rbind]. intros H. injection H as <-. exact (join_strs_error _ _ _ E).
  - rewrite <- (map_map fst PStr d), join_strs_texts. discriminate.
Qed.

(** The prompt in terms of the six values read from the input. *)
Lemma build_prompt_text (input_ : pydict) :
  build_prompt input_ =
  rbind (if py_truthy (dict_get input_ "riskFactors" (PList []))
         then py_join ", " (dict_get input_ "riskFactors" (PList []))
         else Ok "market uncertainty")
    (fun risks =>
       Ok (prompt_text (py_str (dict_get input_ "userContext" PNone))
             (py_str (dict_get input_ "summaryLength" (PInt 150)))
             (py_str (dict_get input_ "sector" (PStr "technology sector")))
             (py_str (dict_get input_ "focus" (PStr "overall outlook")))
             risks
           ++ (if py_truthy (dict_get input_ "extraContext" PNone)
               then " Here is more context: "
                    ++ py_str (dict_get input_ "extraContext" PNone) ++ "."
               else EmptyString))).
Proof.
  unfold build_prompt, prompt_text.
  destruct (if py_truthy (dict_get input_ "riskFactors" (PList []))
            then py_join ", " (dict_get input_ "riskFactors" (PList []))
            else Ok "market uncertainty") as [risks|e]; cbn [rbind];
    [|reflexivity].
  f_equal.
  destruct (py_truthy (dict_get input_ "extraContext" PNone)).
  - reflexivity.
  - rewrite !append_assoc. reflexivity.
Qed.


Lemma prompt_text_risks (uc sl se fo risks tail : string) :
  contains (prompt_text uc sl se fo risks ++ tail)
    ("Consider risk factors such as: " ++ risks ++ ".").
Proof.
  unfold prompt_text. rewrite !append_assoc.
  do 14 apply contains_app_r.
  exists EmptyString, tail. now rewrite !append_assoc.
Qed.

Lemma prompt_text_start (uc sl se fo risks tail : string) :
  starts_with (prompt_text uc sl se fo risks ++ tail)
    ("Knowing the user request: " ++ uc ++ ". ").
Proof.
  unfold prompt_text, starts_with. eexists.
  rewrite !append_assoc. reflexivity.
Qed.

Lemma build_prompt_ok (input_ : pydict) (prompt : string) :
  build_prompt input_ = Ok prompt ->
  exists risks : string,
    (if py_truthy (dict_get input_ "riskFactors" (PList []))
     then py_join ", " (dict_get input_ "riskFactors" (PList []))
     else Ok "market uncertainty") = Ok risks
    /\ prompt
       = prompt_text (py_str (dict_get input_ "userContext" PNone))
           (py_str (dict_get input_ "summaryLength" (PInt 150)))
           (py_str (dict_get input_ "sector" (PStr "technology sector")))
           (py_str (dict_get input_ "focus" (PStr "overall outlook")))
           risks
         ++ (if py_truthy (dict_get input_ "extraContext" PNone)
             then " Here is more context: "
                  ++ py_str (dict_get input_ "extraContext" PNone) ++ "."
             else EmptyString).
Proof.
  rewrite build_prompt_text.
  destruct (if py_truthy (dict_get input_ "riskFactors" (PList []))
            then py_join ", " (dict_get input_ "riskFactors" (PList []))
            else Ok "market uncertainty") as [risks|e]; cbn [rbind];
    [|discriminate].
  intros H. apply Ok_inj in H. eauto.
Qed.

(** X7.  The prompt is built exactly when the risk factors are falsy (missing,
    empty, [None], zero) or can be joined (a text, a mapping, a list of
    texts); every exception of the builder is a [TypeError]. *)
Theorem build_prompt_succeeds_iff (input_ : pydict) :
  ((exists prompt, build_prompt input_ = Ok prompt)
   <-> py_truthy (dict_get input_ "riskFactors" (PList [])) = false
       \/ joinable (dict_get input_ "riskFactors" (PList [])) = true)
  /\ forall e : exn, build_prompt input_ = Raise e -> exn_class e = "TypeError".
Proof.
  rewrite build_prompt_text.
  destruct (py_truthy (dict_get input_ "riskFactors" (PList []))).
  - split.
    + rewrite <- (py_join_ok ", "). split.
      * intros (prompt & H).
        destruct (py_join ", " (dict_get input_ "riskFactors" (PList [])))
          as [t|e]; [eauto | discriminate].
      * intros [H | (t & ->)]; [discriminate|]. cbn [rbind]. eauto.
    + intros e.
      destruct (py_join ", " (dict_get input_ "riskFactors" (PList [])))
        as [t|e'] eqn:E; cbn [rbind]; [discriminate|].
      intros H. injection H as <-. exact (py_join_error _ _ _ E).
  - cbn [rbind]. split; [split; eauto | discriminate].
Qed.

(** X8.  The builder reads the six input fields and nothing else: two inputs
    that agree on them give the same prompt or the same exception.  In
    particular the error flag of the extraction is never looked at. *)
Theorem build_prompt_reads_fields (a b : pydict) :
  (forall k, In k input_fields -> dict_lookup a k = dict_lookup b k) ->
  build_prompt a = build_prompt b.
Proof.
  intros H. rewrite !build_prompt_text. unfold dict_get.
  rewrite !(H _) by (cbn; tauto). reflexivity.
Qed.

(** X9.  The risk sentence of a prompt that is built.  Falsy risk factors give
    "market uncertainty"; a non-empty list of texts gives the texts separated
    by a comma and a space; a non-empty text is taken as a sequence and gives
    its characters separated the same way. *)
Theorem build_prompt_risk_text (input_ : pydict) (prompt : string) :
  build_prompt input_ = Ok prompt ->
  (py_truthy (dict_get input_ "riskFactors" (PList [])) = false ->
   contains prompt "Consider risk factors such as: market uncertainty.")
  /\ (forall l : list string,
        dict_get input_ "riskFactors" (PList []) = PList (map PStr l) ->
        l <> [] ->
        contains prompt
          ("Consider risk factors such as: " ++ String.concat ", " l ++ "."))
  /\ (forall s : string,
        dict_get input_ "riskFactors" (PList []) = PStr s ->
        s <> EmptyString ->
        contains prompt
          ("Consider risk factors such as: " ++ String.concat ", " (chars s)
           ++ ".")).
Proof.
  intros Hb. destruct (build_prompt_ok input_ prompt Hb) as (risks & Hr & ->).
  split; [|split].
  - intros Hf. rewrite Hf in Hr. apply Ok_inj in Hr. subst risks.
    apply (prompt_text_risks _ _ _ _ "market uncertainty").
  - intros l Hl Hne. rewrite Hl in Hr.
    destruct l as [|x l]; [congruence|].
    cbn [py_truthy map] in Hr. change (PStr x :: map PStr l) with (map PStr (x :: l)) in Hr.
    unfold py_join, join_items in Hr. cbn [rbind] in Hr.
    rewrite join_strs_texts in Hr. cbn [rbind] in Hr.
    apply Ok_inj in Hr. subst risks. apply prompt_text_risks.
  - intros s Hs Hne. rewrite Hs in Hr.
    destruct s as [|c s]; [congruence|].
    cbn [py_truthy] in Hr.
    replace (String.eqb (String c s) EmptyString) with false in Hr
      by (symmetry; now apply String.eqb_neq).
    cbn [negb] in Hr.
    unfold py_join, join_items in Hr. cbn [rbind] in Hr.
    rewrite join_strs_texts in Hr. cbn [rbind] in Hr.
    apply Ok_inj in Hr. subst risks. apply prompt_text_risks.
Qed.

Lemma ends_with_app_r (a b suffix : string) :
  ends_with b suffix -> ends_with (a ++ b) suffix.
Proof.
  intros (pre & ->). exists (a ++ pre). now rewrite append_assoc.
Qed.

Lemma append_empty_r (s : string) : s ++ EmptyString = s.
Proof.
  induction s as [|c s IH]; [reflexivity|]. cbn [append]. now rewrite IH.
Qed.

Lemma prompt_text_end (uc sl se fo risks : string) :
  ends_with (prompt_text uc sl se fo risks)
    ("Consider risk factors such as: " ++ risks ++ ".").
Proof.
  unfold prompt_text. do 14 apply ends_with_app_r. now exists EmptyString.
Qed.

(** X10.  A prompt that is built starts with the user request.  When the
    extra context is truthy, the prompt is the text of the five fields
    followed by the sentence with the extra context, and so ends with it.
    When the extra context is falsy (missing, [None], empty), nothing is
    added: the prompt is exactly the text of the five fields, which ends with
    the risk sentence; the risks named there are the joined risk factors, or
    "market uncertainty" when there are none. *)
Theorem build_prompt_frame (input_ : pydict) (prompt : string) :
  build_prompt input_ = Ok prompt ->
  starts_with prompt
    ("Knowing the user request: "
     ++ py_str (dict_get input_ "userContext" PNone) ++ ". ")
  /\ (py_truthy (dict_get input_ "extraContext" PNone) = true ->
      exists risks : string,
        (if py_truthy (dict_get input_ "riskFactors" (PList []))
         then py_join ", " (dict_get input_ "riskFactors" (PList []))
         else Ok "market uncertainty") = Ok risks
        /\ prompt
           = prompt_text (py_str (dict_get input_ "userContext" PNone))
               (py_str (dict_get input_ "summaryLength" (PInt 150)))
               (py_str (dict_get input_ "sector" (PStr "technology sector")))
               (py_str (dict_get input_ "focus" (PStr "overall outlook")))
               risks
             ++ " Here is more context: "
             ++ py_str (dict_get input_ "extraContext" PNone) ++ "."
        /\ ends_with prompt
             (" Here is more context: "
              ++ py_str (dict_get input_ "extraContext" PNone) ++ "."))
  /\ (py_truthy (dict_get input_ "extraContext" PNone) = false ->
      exists risks : string,
        (if py_truthy (dict_get input_ "riskFactors" (PList []))
         then py_join ", " (dict_get input_ "riskFactors" (PList []))
         else Ok "market uncertainty") = Ok risks
        /\ prompt
           = prompt_text (py_str (dict_get input_ "userContext" PNone))
               (py_str (dict_get input_ "summaryLength" (PInt 150)))
               (py_str (dict_get input_ "sector" (PStr "technology sector")))
               (py_str (dict_get input_ "focus" (PStr "overall outlook")))
               risks
        /\ ends_with prompt ("Consider risk factors such as: " ++ risks ++ ".")).
Proof.
  intros Hb. destruct (build_prompt_ok input_ prompt Hb) as (risks & Hr & ->).
  split; [apply prompt_text_start|]. split.
  - intros ->. exists risks. split; [exact Hr|]. split; [reflexivity|].
    exists (prompt_text (py_str (dict_get input_ "userContext" PNone))
              (py_str (dict_get input_ "summaryLength" (PInt 150)))
              (py_str (dict_get input_ "sector" (PStr "technology sector")))
              (py_str (dict_get input_ "focus" (PStr "overall outlook")))
              risks).
    reflexivity.
  - intros ->. exists risks. rewrite append_empty_r.
    split; [exact Hr|]. split; [reflexivity | apply prompt_text_end].
Qed.

End MorePrompt.

(** X11.  The text the user wrote reaches the prompt: for a task with a latest
    user message, a prompt that is built starts with the request line holding
    the text of the last text part of that message, or "None" when it has
    no text part. *)
Theorem prompt_carries_user_text {B : Builtins} (task : Task) (m : Message)
  (prompt : string) :
  latest_message_of task = Some m ->
  build_prompt (extract_user_input_from_task task) = Ok prompt ->
  starts_with prompt
    ("Knowing the user request: "
     ++ match last_text_part (msg_parts m) with
        | Some text => text
        | None => "None"
        end
     ++ ". ").
Proof.
  intros Hm Hb.
  destruct (build_prompt_ok _ prompt Hb) as (risks & _ & ->).
  replace (match last_text_part (msg_parts m) with
           | Some text => text
           | None => "None"
           end)
    with (py_str (dict_get (extract_user_input_from_task task) "userContext" PNone));
    [apply prompt_text_start|].
  unfold dict_get.
  rewrite (extract_latest task m Hm), fold_parts_user_context.
  now destruct (last_text_part (msg_parts m)).
Qed.

(* ===================================================================== *)
(** * Further properties of the orchestration *)
(* ===================================================================== *)

Lemma build_prompt_raises_type_error {B : Builtins} (input_ : pydict) (e : exn) :
  build_prompt input_ = Raise e -> exn_class e = "TypeError".
Proof.
  rewrite build_prompt_text.
  destruct (py_truthy (dict_get input_ "riskFactors" (PList []))).
  - destruct (py_join ", " (dict_get input_ "riskFactors" (PList [])))
      as [t|e'] eqn:E; cbn [rbind]; [discriminate|].
    intros H. injection H as <-. exact (py_join_error _ _ _ E).
  - discriminate.
Qed.

(** X12.  What [analyze] returns, on either path: the task keeps its id,
    context and history and has kind "task"; exactly one artifact is
    appended after the ones it had; the status carries an agent message for
    this task and a timestamp ending in "Z"; and the state is either
    completed, with an artifact "Market Summary" of a text part and a data
    part, or failed, with an artifact "Error" whose single text part is also
    the part of the status message. *)
Theorem analyze_outcome {B : Builtins} {R : Runtime}
  (task task' : Task) (w w' : World) :
  analyze task w = (Ok task', w') ->
  id task' = id task
  /\ contextId task' = contextId task
  /\ history task' = history task
  /\ kind task' = "task"
  /\ exists (a : Artifact) (msg : Message) (now : string),
       artifacts task'
       = Some ((match artifacts task with Some l => l | None => [] end) ++ [a])%list
       /\ message (status task') = Some msg
       /\ msg_role msg = agent
       /\ msg_taskId msg = Some (id task)
       /\ timestamp (status task') = Some (now ++ "Z")
       /\ ((state (status task') = completed
            /\ name a = Some "Market Summary"
            /\ exists (summary : string) (tag_data : pydict),
                 parts a = [TextPart summary (Some []);
                            DataPart tag_data (Some [])])
           \/ (state (status task') = failed
               /\ name a = Some "Error"
               /\ exists text : string,
                    parts a = [TextPart text (Some [])]
                    /\ msg_parts msg = [TextPart text (Some [])])).
Proof.
  intros H.
  destruct (build_prompt (extract_user_input_from_task task)) as [prompt|e] eqn:Hp.
  - destruct (strands_agent prompt w) as [[summary|e] w1] eqn:Hs.
    + rewrite (analyze_run_completed task prompt summary w w1 Hp Hs) in H.
      injection H as <- _.
      repeat (split; [reflexivity|]).
      do 3 eexists. repeat (split; [reflexivity|]).
      left. repeat (split; [reflexivity|]). do 2 eexists. reflexivity.
    + rewrite (analyze_run_failed task prompt e w w1 Hp Hs) in H.
      injection H as <- _.
      repeat (split; [reflexivity|]).
      do 3 eexists. repeat (split; [reflexivity|]).
      right. repeat (split; [reflexivity|]). eexists. split; reflexivity.
  - rewrite (analyze_run_raise task e w Hp) in H. discriminate.
Qed.

(** X13.  [analyze] raises exactly when prompt building raises: it then passes
    on that exception, a [TypeError], and leaves the world as it found it, so
    neither the model nor the UUID source nor the clock was used. *)
Theorem analyze_raises_iff {B : Builtins} {R : Runtime}
  (task : Task) (e : exn) (w w' : World) :
  (analyze task w = (Raise e, w')
   <-> build_prompt (extract_user_input_from_task task) = Raise e /\ w' = w)
  /\ (analyze task w = (Raise e, w') -> exn_class e = "TypeError").
Proof.
  assert (Hiff : analyze task w = (Raise e, w')
                 <-> build_prompt (extract_user_input_from_task task) = Raise e
                     /\ w' = w).
  { split.
    - intros H.
      destruct (build_prompt (extract_user_input_from_task task))
        as [prompt|e0] eqn:Hp.
      + destruct (strands_agent prompt w) as [[summary|e1] w1] eqn:Hs.
        * rewrite (analyze_run_completed task prompt summary w w1 Hp Hs) in H.
          discriminate.
        * rewrite (analyze_run_failed task prompt e1 w w1 Hp Hs) in H.
          discriminate.
      + rewrite (analyze_run_raise task e0 w Hp) in H.
        injection H as -> ->. auto.
    - intros (Hp & ->). now apply analyze_run_raise. }
  split; [exact Hiff|].
  intros H. apply Hiff in H. destruct H as (Hp & _).
  exact (build_prompt_raises_type_error _ _ Hp).
Qed.

(** X14.  A failure of the tag call does not fail the task: when the summary
    call answers and the tag call raises, the task is completed, and the data
    part of its new artifact holds the default, no tags and sentiment
    "unknown". *)
Theorem tag_call_failure_completes {B : Builtins} {R : Runtime}
  (task : Task) (prompt summary : string) (e : exn) (w w1 w2 : World) :
  build_prompt (extract_user_input_from_task task) = Ok prompt ->
  strands_agent prompt w = (Ok summary, w1) ->
  strands_agent (tag_prompt summary) w1 = (Raise e, w2) ->
  exists (task' : Task) (w' : World) (a : Artifact),
    analyze task w = (Ok task', w')
    /\ state (status task') = completed
    /\ artifacts task'
       = Some ((match artifacts task with Some l => l | None => [] end) ++ [a])%list
    /\ name a = Some "Market Summary"
    /\ parts a = [TextPart summary (Some []);
                  DataPart [("tags", PList []); ("sentiment", PStr "unknown")]
                    (Some [])].
Proof.
  intros Hp Hs Ht.
  pose proof (analyze_run_completed task prompt summary w w1 Hp Hs) as Hrun.
  cbv zeta in Hrun. rewrite Ht in Hrun. cbn [fst snd spec_tag_policy] in Hrun.
  rewrite Hrun. do 3 eexists.
  repeat (split; [reflexivity|]). reflexivity.
Qed.

(* ===================================================================== *)
(** * The regular expression, exactly *)
(* ===================================================================== *)

Lemma lazy_to_close_found (body post : string) :
  mem_char "}" body = false ->
  lazy_to_close (body ++ String "}" post) = Some (body ++ "}").
Proof.
  induction body as [|c body IH]; intros H.
  - cbn [append lazy_to_close]. now rewrite Ascii.eqb_refl.
  - cbn [mem_char] in H. apply orb_false_iff in H. destruct H as (Hc & Hb).
    cbn [append lazy_to_close]. rewrite Hc, (IH Hb). reflexivity.
Qed.

Lemma re_search_braces_found (pre body post : string) :
  mem_char "{" pre = false ->
  mem_char "}" body = false ->
  re_search_braces (pre ++ String "{" (body ++ String "}" post))
  = Some (String "{" (body ++ "}")).
Proof.
  intros Hp Hb. induction pre as [|c pre IH].
  - cbn [append re_search_braces]. rewrite Ascii.eqb_refl.
    now rewrite (lazy_to_close_found body post Hb).
  - cbn [mem_char] in Hp. apply orb_false_iff in Hp. destruct Hp as (Hc & Hp).
    cbn [append re_search_braces]. rewrite Hc. exact (IH Hp).
Qed.

(** X15.  The match of the regular expression, exactly: a text has a match when
    and only when it has an opening brace with a closing brace after it, and
    the match is then the piece from the first opening brace to the first
    closing brace after it. *)
Theorem re_search_braces_exact (text piece : string) :
  re_search_braces text = Some piece
  <-> exists pre body post : string,
        text = pre ++ "{" ++ body ++ "}" ++ post
        /\ piece = "{" ++ body ++ "}"
        /\ mem_char "{" pre = false
        /\ mem_char "}" body = false.
Proof.
  split; [apply re_search_braces_first|].
  intros (pre & body & post & -> & -> & Hp & Hb).
  exact (re_search_braces_found pre body post Hp Hb).
Qed.

(* ===================================================================== *)
(** * Further properties of the agent card and the constructor *)
(* ===================================================================== *)

(** X16.  The handler does have error paths: it returns a response exactly
    when the event is a mapping whose "requestContext" is a mapping with a
    "domainName"; otherwise it raises a [KeyError] or a [TypeError]. *)
Theorem lambda_handler_succeeds_iff {B : Builtins}
  (environ : list (string * string)) (event context : pyval) :
  ((exists response, lambda_handler environ event context = Ok response)
   <-> exists (d rc : pydict) (domain : pyval),
         event = PDict d
         /\ dict_lookup d "requestContext" = Some (PDict rc)
         /\ dict_lookup rc "domainName" = Some domain)
  /\ forall e : exn,
       lambda_handler environ event context = Raise e ->
       exn_class e = "KeyError" \/ exn_class e = "TypeError".
Proof.
  unfold lambda_handler. split.
  - split.
    + intros (response & H).
      destruct event as [| | | | | |d]; try discriminate.
      cbn [py_getitem] in H.
      destruct (dict_lookup d "requestContext") as [rcv|] eqn:E1;
        [|discriminate].
      cbn [rbind] in H.
      destruct rcv as [| | | | | |rc]; try discriminate.
      cbn [py_getitem] in H.
      destruct (dict_lookup rc "domainName") as [domain|] eqn:E2;
        [|discriminate].
      eauto 6.
    + intros (d & rc & domain & -> & E1 & E2).
      cbn [py_getitem]. rewrite E1. cbn [rbind py_getitem]. rewrite E2.
      cbn [rbind]. eauto.
  - intros e H.
    destruct event as [| | | | | |d];
      try (injection H as <-; right; reflexivity).
    cbn [py_getitem] in H.
    destruct (dict_lookup d "requestContext") as [rcv|];
      [|injection H as <-; left; reflexivity].
    cbn [rbind] in H.
    destruct rcv as [| | | | | |rc];
      try (injection H as <-; right; reflexivity).
    cbn [py_getitem] in H.
    destruct (dict_lookup rc "domainName") as [domain|];
      [discriminate | injection H as <-; left; reflexivity].
Qed.

(* ===================================================================== *)
(** * Encoding and decoding agree *)
(* ===================================================================== *)

(** One round of [scanstring] undoes the encoder's replacement of one ASCII
    character. *)
Lemma scanstring_step_escape (c : ascii) :
  is_ascii c = true ->
  forall (k : string -> string -> option (string * string)) (t acc : string),
    scanstring_step k (escape_char (N_of_ascii c) ++ t) acc
    = k t (acc ++ String c EmptyString).
Proof.
  destruct c as [[] [] [] [] [] [] [] []];
    intros H k t acc; try (vm_compute in H; discriminate H); reflexivity.
Qed.

Lemma length_append (a b : string) :
  String.length (a ++ b) = String.length a + String.length b.
Proof.
  induction a as [|c a IH]; [reflexivity|]. cbn [append String.length]. now rewrite IH.
Qed.

Lemma concat_empty_cons (x : string) (l : list string) :
  String.concat EmptyString (x :: l) = x ++ String.concat EmptyString l.
Proof.
  destruct l as [|y l]; [|reflexivity].
  cbn [String.concat]. now rewrite append_empty_r.
Qed.

Lemma utf8_decode_ascii (c : ascii) (s : string) :
  is_ascii c = true -> utf8_decode (String c s) = N_of_ascii c :: utf8_decode s.
Proof.
  unfold is_ascii. intros H. cbn [utf8_decode].
  replace (N_of_ascii c <? 192)%N with true; [reflexivity|].
  symmetry. apply N.ltb_lt. apply N.ltb_lt in H. lia.
Qed.

(** The text between the quotes of an encoded string. *)
Lemma encode_basestring_ascii_eq (s t : string) :
  encode_basestring_ascii s ++ t
  = String dq (String.concat EmptyString (map escape_char (utf8_decode s))
               ++ String dq t).
Proof.
  unfold encode_basestring_ascii. cbn [append]. now rewrite append_assoc.
Qed.

Lemma scanstring_escaped (s : string) :
  ascii_only s = true ->
  forall (f : nat) (t acc : string),
    String.length s < f ->
    scanstring f
      (String.concat EmptyString (map escape_char (utf8_decode s)) ++ String dq t)
      acc
    = Some (acc ++ s, t).
Proof.
  induction s as [|c s IH]; intros Ha f t acc Hf.
  - destruct f as [|f]; [inversion Hf|].
    cbn [utf8_decode map String.concat append scanstring scanstring_step].
    now rewrite Ascii.eqb_refl, append_empty_r.
  - cbn [ascii_only] in Ha. apply andb_true_iff in Ha. destruct Ha as (Hc & Ha).
    destruct f as [|f]; [inversion Hf|]. cbn [String.length] in Hf.
    rewrite (utf8_decode_ascii c s Hc). cbn [map].
    rewrite concat_empty_cons, append_assoc. cbn [scanstring].
    rewrite (scanstring_step_escape c Hc).
    rewrite (IH Ha) by lia. now rewrite append_assoc.
Qed.

Lemma escape_char_length (n : N) : 1 <= String.length (escape_char n).
Proof.
  unfold escape_char.
  repeat match goal with
  | |- context [if ?b then _ else _] => destruct b
  end; cbn [append String.length hex4]; lia.
Qed.

Lemma escaped_length (l : list N) :
  List.length l <= String.length (String.concat EmptyString (map escape_char l)).
Proof.
  induction l as [|n l IH]; [apply le_n|].
  cbn [map List.length]. rewrite concat_empty_cons, length_append.
  pose proof (escape_char_length n). lia.
Qed.

Lemma utf8_decode_ascii_length (s : string) :
  ascii_only s = true -> List.length (utf8_decode s) = String.length s.
Proof.
  induction s as [|c s IH]; intros Ha; [reflexivity|].
  cbn [ascii_only] in Ha. apply andb_true_iff in Ha. destruct Ha as (Hc & Ha).
  rewrite (utf8_decode_ascii c s Hc). cbn [List.length String.length].
  now rewrite (IH Ha).
Qed.

(** Scanning the encoding of an ASCII text gives the text back. *)
Lemma scan_string_literal_encoded (s t : string) :
  ascii_only s = true ->
  scan_string_literal
    (String.concat EmptyString (map escape_char (utf8_decode s)) ++ String dq t)
  = Some (s, t).
Proof.
  intros Ha. unfold scan_string_literal.
  rewrite (scanstring_escaped s Ha); [reflexivity|].
  rewrite length_append. pose proof (escaped_length (utf8_decode s)) as Hl.
  rewrite (utf8_decode_ascii_length s Ha) in Hl. lia.
Qed.

(** Induction on values through their lists and mappings. *)
Lemma pyval_nested_ind (P : pyval -> Prop) :
  P PNone -> (forall b, P (PBool b)) -> (forall z, P (PInt z)) ->
  (forall f, P (PFloat f)) -> (forall s, P (PStr s)) ->
  (forall l, Forall P l -> P (PList l)) ->
  (forall d, Forall (fun kv => P (snd kv)) d -> P (PDict d)) ->
  forall v, P v.
Proof.
  intros Hn Hb Hz Hf Hs Hl Hd. fix IH 1.
  intros [| b | z | f | s | l | d];
    [exact Hn | apply Hb | apply Hz | apply Hf | apply Hs | | ].
  - apply Hl. induction l as [|x l IHl]; constructor; [apply IH | exact IHl].
  - apply Hd. induction d as [|[k x] d IHd]; constructor; [apply IH | exact IHd].
Qed.

Lemma skip_ws_nonws (c : ascii) (r : string) :
  is_ws c = false -> skip_ws (String c r) = String c r.
Proof.
  intros H. cbn [skip_ws]. now rewrite H.
Qed.

(** One round of the array loop, on a text shaped as the encoder shapes it. *)
Lemma elements_step_last
  (once : string -> option (pyval * string))
  (elements : string -> list pyval -> option (list pyval * string))
  (s t : string) (acc : list pyval) (v : pyval) :
  once s = Some (v, String "]" t) ->
  scan_elements_step once elements s acc = Some ((acc ++ [v])%list, t).
Proof.
  unfold scan_elements_step. intros ->. reflexivity.
Qed.

Lemma elements_step_more
  (once : string -> option (pyval * string))
  (elements : string -> list pyval -> option (list pyval * string))
  (s u : string) (acc : list pyval) (v : pyval) :
  once s = Some (v, String "," (String " " u)) ->
  scan_elements_step once elements s acc = elements (skip_ws u) (acc ++ [v])%list.
Proof.
  unfold scan_elements_step. intros ->. reflexivity.
Qed.

(** One round of the object loop, likewise. *)
Lemma members_step_last
  (once : string -> option (pyval * string))
  (members : string -> list (string * pyval)
             -> option (list (string * pyval) * string))
  (r u t key : string) (acc : list (string * pyval)) (v : pyval) :
  scan_string_literal r = Some (key, String ":" (String " " u)) ->
  once (skip_ws u) = Some (v, String "}" t) ->
  scan_members_step once members (String dq r) acc
  = Some ((acc ++ [(key, v)])%list, t).
Proof.
  unfold scan_members_step. intros -> H. rewrite Ascii.eqb_refl.
  change (skip_ws (String ":" (String " " u))) with (String ":" (String " " u)).
  cbv beta iota. change (Ascii.eqb ":" ":") with true. cbv iota.
  change (skip_ws (String " " u)) with (skip_ws u).
  rewrite H. reflexivity.
Qed.

Lemma members_step_more
  (once : string -> option (pyval * string))
  (members : string -> list (string * pyval)
             -> option (list (string * pyval) * string))
  (r u u2 key : string) (acc : list (string * pyval)) (v : pyval) :
  scan_string_literal r = Some (key, String ":" (String " " u)) ->
  once (skip_ws u) = Some (v, String "," (String " " u2)) ->
  scan_members_step once members (String dq r) acc
  = members (skip_ws u2) (acc ++ [(key, v)])%list.
Proof.
  unfold scan_members_step. intros -> H. rewrite Ascii.eqb_refl.
  change (skip_ws (String ":" (String " " u))) with (String ":" (String " " u)).
  cbv beta iota. change (Ascii.eqb ":" ":") with true. cbv iota.
  change (skip_ws (String " " u)) with (skip_ws u).
  rewrite H. reflexivity.
Qed.

Lemma dict_set_fresh (d : pydict) (k : string) (v : pyval) :
  dict_mem d k = false -> dict_set d k v = (d ++ [(k, v)])%list.
Proof.
  induction d as [|[k' v'] d IH]; intros H; [reflexivity|].
  cbn [dict_mem] in H. apply orb_false_iff in H. destruct H as (Hk & Hd).
  cbn [dict_set app]. rewrite Hk, (IH Hd). reflexivity.
Qed.

Lemma dict_mem_app (a b : pydict) (k : string) :
  dict_mem (a ++ b)%list k = dict_mem a k || dict_mem b k.
Proof.
  induction a as [|[k' v'] a IH]; [reflexivity|].
  cbn [app dict_mem]. rewrite IH. now rewrite orb_assoc.
Qed.

Lemma dict_mem_absent (d : pydict) (k : string) :
  dict_mem d k = false -> forall k', In k' (map fst d) -> String.eqb k' k = false.
Proof.
  induction d as [|[k0 v0] d IH]; intros H k' Hin; [contradiction|].
  cbn [dict_mem] in H. apply orb_false_iff in H. destruct H as (Hk & Hd).
  destruct Hin as [<- | Hin]; [exact Hk | now apply IH].
Qed.

(** [dict] of pairs with distinct keys is the list of pairs itself. *)
Lemma fold_set_distinct (pairs : list (string * pyval)) :
  forall pre : pydict,
    distinct_keys pairs = true ->
    (forall k, In k (map fst pairs) -> dict_mem pre k = false) ->
    fold_left (fun d kv => dict_set d (fst kv) (snd kv)) pairs pre
    = (pre ++ pairs)%list.
Proof.
  induction pairs as [|[k v] pairs IH]; intros pre Hd Hp.
  - cbn [fold_left]. now rewrite app_nil_r.
  - cbn [distinct_keys] in Hd. apply andb_true_iff in Hd.
    destruct Hd as (Hk & Hd). apply negb_true_iff in Hk.
    cbn [fold_left fst snd].
    rewrite dict_set_fresh by (apply Hp; left; reflexivity).
    rewrite IH; [now rewrite <- app_assoc | exact Hd |].
    intros k' Hin. rewrite dict_mem_app. cbn [dict_mem].
    rewrite (Hp k') by (right; exact Hin).
    rewrite String.eqb_sym, (dict_mem_absent pairs k Hk k' Hin). reflexivity.
Qed.

Lemma dict_of_pairs_distinct (d : pydict) :
  distinct_keys d = true -> dict_of_pairs d = d.
Proof.
  intros H. unfold dict_of_pairs. now rewrite (fold_set_distinct d [] H).
Qed.

Lemma concat_cons2_eq (a b : string) (l : list string) (t : string) :
  String.concat ", " (a :: b :: l) ++ t
  = a ++ String "," (String " " (String.concat ", " (b :: l) ++ t)).
Proof.
  change (String.concat ", " (a :: b :: l))
    with (a ++ ", " ++ String.concat ", " (b :: l)).
  now rewrite append_assoc.
Qed.

Lemma once_step_list
  (members : string -> list (string * pyval)
             -> option (list (string * pyval) * string))
  (elements : string -> list pyval -> option (list pyval * string))
  (c : ascii) (r : string) :
  is_ws c = false -> Ascii.eqb c "]" = false ->
  scan_once_step members elements (String "[" (String c r))
  = match elements (String c r) [] with
    | Some (items, r2) => Some (PList items, r2)
    | None => None
    end.
Proof.
  intros Hw Hc. unfold scan_once_step.
  change (Ascii.eqb "[" dq) with false. change (Ascii.eqb "[" "{") with false.
  change (Ascii.eqb "[" "[") with true. cbv iota.
  rewrite (skip_ws_nonws c r Hw), Hc. reflexivity.
Qed.

Lemma once_step_dict
  (members : string -> list (string * pyval)
             -> option (list (string * pyval) * string))
  (elements : string -> list pyval -> option (list pyval * string))
  (r : string) :
  scan_once_step members elements (String "{" (String dq r))
  = match members (String dq r) [] with
    | Some (pairs, r2) => Some (PDict (dict_of_pairs pairs), r2)
    | None => None
    end.
Proof.
  reflexivity.
Qed.

Section RoundTrip.
Context {B : Builtins}.

Lemma dumps_list_eq (l : list pyval) (t : string) :
  json_dumps (PList l) ++ t
  = String "[" (String.concat ", " (map json_dumps l) ++ String "]" t).
Proof.
  change (json_dumps (PList l))
    with ("[" ++ String.concat ", " (map json_dumps l) ++ "]").
  cbn [append]. now rewrite append_assoc.
Qed.

Lemma dumps_dict_eq (d : pydict) (t : string) :
  json_dumps (PDict d) ++ t
  = String "{"
      (String.concat ", "
         (map (fun kv =>
                 encode_basestring_ascii (fst kv) ++ ": " ++ json_dumps (snd kv)) d)
       ++ String "}" t).
Proof.
  change (json_dumps (PDict d))
    with ("{" ++ String.concat ", "
                   (map (fun kv =>
                           encode_basestring_ascii (fst kv) ++ ": "
                           ++ json_dumps (snd kv)) d) ++ "}").
  cbn [append]. now rewrite append_assoc.
Qed.

Lemma item_eq (k : string) (v : pyval) (t : string) :
  (encode_basestring_ascii k ++ ": " ++ json_dumps v) ++ t
  = String dq (String.concat EmptyString (map escape_char (utf8_decode k))
               ++ String dq (String ":" (String " " (json_dumps v ++ t)))).
Proof.
  rewrite append_assoc, encode_basestring_ascii_eq.
  now rewrite append_assoc.
Qed.

(** The encoding of a plain value starts with a character that is neither
    whitespace nor a closing bracket. *)
Lemma dumps_head (v : pyval) (t : string) :
  plain v = true ->
  exists (c : ascii) (r : string),
    json_dumps v ++ t = String c r
    /\ is_ws c = false /\ Ascii.eqb c "]" = false.
Proof.
  destruct v as [| b | z | f | s | l | d]; try discriminate; intros _.
  - now exists "n"%char, ("ull" ++ t).
  - destruct b; [now exists "t"%char, ("rue" ++ t) | now exists "f"%char, ("alse" ++ t)].
  - change (json_dumps (PStr s)) with (encode_basestring_ascii s).
    rewrite encode_basestring_ascii_eq. eexists _, _. now split.
  - rewrite dumps_list_eq. eexists _, _. now split.
  - rewrite dumps_dict_eq. eexists _, _. now split.
Qed.

Lemma skip_ws_dumps (v : pyval) (t : string) :
  plain v = true -> skip_ws (json_dumps v ++ t) = json_dumps v ++ t.
Proof.
  intros H. destruct (dumps_head v t H) as (c & r & -> & Hw & _).
  now apply skip_ws_nonws.
Qed.

Lemma elems_head (x : pyval) (l : list pyval) (t : string) :
  plain x = true ->
  exists (c : ascii) (r : string),
    String.concat ", " (map json_dumps (x :: l)) ++ t = String c r
    /\ is_ws c = false /\ Ascii.eqb c "]" = false.
Proof.
  intros H. cbn [map]. destruct l as [|y l].
  - apply (dumps_head x t H).
  - cbn [map]. rewrite concat_cons2_eq. apply (dumps_head x _ H).
Qed.

Lemma items_head (k : string) (v : pyval) (d : pydict) (t : string) :
  exists r : string,
    String.concat ", "
      (map (fun kv =>
              encode_basestring_ascii (fst kv) ++ ": " ++ json_dumps (snd kv))
         ((k, v) :: d)) ++ t
    = String dq r.
Proof.
  cbn [map fst snd]. destruct d as [|kv d].
  - cbn [map String.concat]. rewrite item_eq. eauto.
  - cbn [map]. rewrite concat_cons2_eq, item_eq. eauto.
Qed.

End RoundTrip.

Section RoundTripValues.
Context {B : Builtins}.

(** The array loop reads the encoded elements back. *)
Lemma elements_decode (l : list pyval) :
  Forall (fun v => plain v = true -> decodes v) l ->
  forallb plain l = true ->
  l <> [] ->
  exists f0 : nat,
    forall (f : nat) (acc : list pyval) (t : string),
      f0 <= f ->
      scan_elements f (String.concat ", " (map json_dumps l) ++ String "]" t) acc
      = Some ((acc ++ l)%list, t).
Proof.
  induction l as [|x l IH]; intros Hall Hpl Hne; [contradiction|].
  inversion Hall as [|x' l' Hx Hall']; subst.
  cbn [forallb] in Hpl. apply andb_true_iff in Hpl. destruct Hpl as (Hpx & Hpl).
  destruct (Hx Hpx) as (fx & Hfx).
  destruct l as [|y l].
  - exists (S fx). intros f acc t Hf. destruct f as [|f]; [lia|].
    cbn [scan_elements]. apply elements_step_last.
    change (String.concat ", " (map json_dumps [x])) with (json_dumps x).
    apply Hfx. lia.
  - destruct (IH Hall' Hpl) as (f1 & Hf1); [discriminate|].
    exists (S (Nat.max fx f1)). intros f acc t Hf. destruct f as [|f]; [lia|].
    cbn [scan_elements map]. rewrite concat_cons2_eq.
    rewrite (elements_step_more _ _ _ _ acc x (Hfx f _ ltac:(lia))).
    cbn [forallb] in Hpl. apply andb_true_iff in Hpl. destruct Hpl as (Hpy & _).
    destruct (elems_head y l (String "]" t) Hpy) as (c & r & Heq & Hw & _).
    cbn [map] in Heq. rewrite Heq, (skip_ws_nonws c r Hw), <- Heq.
    change (json_dumps y :: map json_dumps l) with (map json_dumps (y :: l)).
    rewrite Hf1 by lia. now rewrite <- app_assoc.
Qed.

(** The object loop reads the encoded members back. *)
Lemma members_decode (d : pydict) :
  Forall (fun kv => plain (snd kv) = true -> decodes (snd kv)) d ->
  forallb (fun kv => ascii_only (fst kv) && plain (snd kv)) d = true ->
  d <> [] ->
  exists f0 : nat,
    forall (f : nat) (acc : list (string * pyval)) (t : string),
      f0 <= f ->
      scan_members f
        (String.concat ", "
           (map (fun kv =>
                   encode_basestring_ascii (fst kv) ++ ": " ++ json_dumps (snd kv))
              d)
         ++ String "}" t) acc
      = Some ((acc ++ d)%list, t).
Proof.
  induction d as [|[k v] d IH]; intros Hall Hpl Hne; [contradiction|].
  inversion Hall as [|kv' d' Hv Hall']; subst. cbn [snd] in Hv.
  cbn [forallb fst snd] in Hpl. apply andb_true_iff in Hpl.
  destruct Hpl as (Hkv & Hpl). apply andb_true_iff in Hkv.
  destruct Hkv as (Hk & Hpv).
  destruct (Hv Hpv) as (fv & Hfv).
  destruct d as [|[k2 v2] d].
  - exists (S fv). intros f acc t Hf. destruct f as [|f]; [lia|].
    cbn [scan_members map fst snd String.concat]. rewrite item_eq.
    apply (members_step_last _ _ _ (json_dumps v ++ String "}" t) t k acc v).
    + now apply scan_string_literal_encoded.
    + rewrite (skip_ws_dumps v _ Hpv). apply Hfv. lia.
  - destruct (IH Hall' Hpl) as (f1 & Hf1); [discriminate|].
    exists (S (Nat.max fv f1)). intros f acc t Hf. destruct f as [|f]; [lia|].
    cbn [scan_members]. cbn [map fst snd]. rewrite concat_cons2_eq, item_eq.
    match goal with
    | |- scan_members_step _ _ (String dq (_ ++ String dq (String ":" (String " " (_ ++ String "," (String " " ?u2)))))) _ = _ =>
        rewrite (members_step_more _ _ _ (json_dumps v ++ String "," (String " " u2))
                   u2 k acc v)
    end.
    + destruct (items_head k2 v2 d (String "}" t)) as (r & Heq).
      cbn [map fst snd] in Heq. rewrite Heq.
      change (skip_ws (String dq r)) with (String dq r). rewrite <- Heq.
      change (scan_members f
                (String.concat ", "
                   (map (fun kv =>
                           encode_basestring_ascii (fst kv) ++ ": "
                           ++ json_dumps (snd kv)) ((k2, v2) :: d))
                 ++ String "}" t) (acc ++ [(k, v)])%list
              = Some ((acc ++ (k, v) :: (k2, v2) :: d)%list, t)).
      rewrite Hf1 by lia. now rewrite <- app_assoc.
    + now apply scan_string_literal_encoded.
    + rewrite (skip_ws_dumps v _ Hpv). apply Hfv. lia.
Qed.

(** Every plain value is read back by the scanner from its encoding. *)
Lemma plain_decodes (v : pyval) : plain v = true -> decodes v.
Proof.
  induction v as [| b | z | f | s | l IH | d IH] using pyval_nested_ind;
    intros Hp; try discriminate.
  - exists 1. intros f t Hf. destruct f as [|f]; [lia | reflexivity].
  - exists 1. intros f t Hf. destruct f as [|f]; [lia|]. now destruct b.
  - exists 1. intros f t Hf. destruct f as [|f]; [lia|].
    change (json_dumps (PStr s)) with (encode_basestring_ascii s).
    rewrite encode_basestring_ascii_eq. cbn [scan_once]. unfold scan_once_step.
    rewrite Ascii.eqb_refl.
    now rewrite (scan_string_literal_encoded s t Hp).
  - cbn [plain] in Hp. destruct l as [|x l].
    + exists 1. intros f t Hf. destruct f as [|f]; [lia | reflexivity].
    + destruct (elements_decode (x :: l) IH Hp) as (f1 & Hf1); [discriminate|].
      exists (S f1). intros f t Hf. destruct f as [|f]; [lia|].
      rewrite dumps_list_eq. cbn [scan_once].
      cbn [forallb] in Hp. apply andb_true_iff in Hp. destruct Hp as (Hpx & _).
      destruct (elems_head x l (String "]" t) Hpx) as (c & r & Heq & Hw & Hc).
      rewrite Heq, (once_step_list _ _ c r Hw Hc), <- Heq.
      rewrite Hf1 by lia. reflexivity.
  - cbn [plain] in Hp. apply andb_true_iff in Hp. destruct Hp as (Hp & Hd).
    destruct d as [|[k v] d].
    + exists 1. intros f t Hf. destruct f as [|f]; [lia | reflexivity].
    + destruct (members_decode ((k, v) :: d) IH Hp) as (f1 & Hf1);
        [discriminate|].
      exists (S f1). intros f t Hf. destruct f as [|f]; [lia|].
      rewrite dumps_dict_eq. cbn [scan_once].
      destruct (items_head k v d (String "}" t)) as (r & Heq).
      rewrite Heq, once_step_dict, <- Heq.
      rewrite Hf1 by lia. cbn [app].
      now rewrite (dict_of_pairs_distinct _ Hd).
Qed.

Lemma json_loads_dumps (v : pyval) :
  plain v = true -> json_loads (json_dumps v) = Some v.
Proof.
  intros Hp. destruct (plain_decodes v Hp) as (f0 & Hf0).
  pose proof (skip_ws_dumps v EmptyString Hp) as Hw.
  rewrite append_empty_r in Hw.
  remember (Nat.max f0 (2 * String.length (json_dumps v))) as F eqn:HF.
  rewrite (json_loads_fuel (json_dumps v) F) by lia.
  rewrite Hw.
  replace (scan_once F (json_dumps v))
    with (scan_once F (json_dumps v ++ EmptyString))
    by now rewrite append_empty_r.
  rewrite Hf0 by lia. reflexivity.
Qed.

End RoundTripValues.

Lemma ascii_only_app (a b : string) :
  ascii_only (a ++ b) = ascii_only a && ascii_only b.
Proof.
  induction a as [|c a IH]; [reflexivity|].
  cbn [append ascii_only]. rewrite IH. now rewrite andb_assoc.
Qed.

(** X17.  A well-formed answer is returned as it is.  When the model answers
    with the JSON text of a mapping of plain values (as [json.dumps] writes
    it) whose "tags" is a list and whose "sentiment" is a text, tag
    extraction returns exactly that list, of any length, and that text;
    other keys of the answer are dropped. *)
Theorem extract_tags_returns_answer {B : Builtins} {R : Runtime}
  (summary : string) (d : pydict) (tags : list pyval) (sentiment : string)
  (w w1 : World) :
  plain (PDict d) = true ->
  dict_lookup d "tags" = Some (PList tags) ->
  dict_lookup d "sentiment" = Some (PStr sentiment) ->
  strands_agent (tag_prompt summary) w = (Ok (json_dumps (PDict d)), w1) ->
  extract_tags summary w
  = (Ok [("tags", PList tags); ("sentiment", PStr sentiment)], w1).
Proof.
  intros Hp Ht Hs Ha. rewrite extract_tags_run, Ha.
  cbn [fst snd spec_tag_policy]. rewrite (json_loads_dumps (PDict d) Hp).
  cbn [spec_tag_data].
  now rewrite (dict_get_found _ _ _ _ Ht), (dict_get_found _ _ _ _ Hs).
Qed.

(** X18.  A flat answer wrapped in prose is recovered.  When the answer is not
    JSON as a whole but consists of a text without opening brace, then the
    JSON text of a mapping of plain values that has no closing brace inside,
    then any text, tag extraction returns the tags and sentiment of that
    mapping. *)
Theorem extract_tags_recovers_embedded_answer {B : Builtins} {R : Runtime}
  (summary pre body post : string) (d : pydict) (tags : list pyval)
  (sentiment : string) (w w1 : World) :
  plain (PDict d) = true ->
  json_dumps (PDict d) = String "{" (body ++ "}") ->
  mem_char "{" pre = false ->
  mem_char "}" body = false ->
  dict_lookup d "tags" = Some (PList tags) ->
  dict_lookup d "sentiment" = Some (PStr sentiment) ->
  json_loads (pre ++ json_dumps (PDict d) ++ post) = None ->
  strands_agent (tag_prompt summary) w
  = (Ok (pre ++ json_dumps (PDict d) ++ post), w1) ->
  extract_tags summary w
  = (Ok [("tags", PList tags); ("sentiment", PStr sentiment)], w1).
Proof.
  intros Hp Hbody Hpre Hb Ht Hs Hnot Ha. rewrite extract_tags_run, Ha.
  cbn [fst snd spec_tag_policy]. rewrite Hnot.
  replace (re_search_braces (pre ++ json_dumps (PDict d) ++ post))
    with (Some (json_dumps (PDict d))).
  - rewrite (json_loads_dumps (PDict d) Hp). cbn [spec_tag_data].
    now rewrite (dict_get_found _ _ _ _ Ht), (dict_get_found _ _ _ _ Hs).
  - rewrite Hbody. symmetry.
    replace (String "{" (body ++ "}") ++ post)
      with (String "{" (body ++ String "}" post))
      by (cbn [append]; now rewrite append_assoc).
    exact (re_search_braces_found pre body post Hpre Hb).
Qed.

Section CardRoundTrip.
Context {B : Builtins}.

Lemma agent_card_plain (domain : pyval) (region model_id : string) :
  ascii_only (py_str domain) = true ->
  ascii_only region = true ->
  ascii_only model_id = true ->
  plain (agent_card domain region model_id) = true.
Proof.
  intros Hd Hr Hm. unfold agent_card.
  cbn [plain forallb fst snd]. rewrite !ascii_only_app, Hd, Hr, Hm.
  reflexivity.
Qed.

(** X19.  The body of the response is valid JSON that decodes to the card.
    For an event carrying a domain name, when the domain and the two
    environment values are ASCII texts, [json.loads] of the body returns the
    card: its seven top-level entries, the send endpoint built from the
    domain, and the metadata with the model id and region of the
    environment. *)
Theorem agent_card_body_round_trip (environ : list (string * string))
  (event context request_context domain : pyval) :
  py_getitem event "requestContext" = Ok request_context ->
  py_getitem request_context "domainName" = Ok domain ->
  ascii_only (py_str domain) = true ->
  ascii_only (environ_get environ "AWS_REGION" "us-east-1") = true ->
  ascii_only (environ_get environ "BEDROCK_MODEL_ID"
                "us.anthropic.claude-3-5-haiku-20241022-v1:0") = true ->
  exists body : string,
    lambda_handler environ event context
    = Ok (PDict [("statusCode", PInt 200);
                 ("body", PStr body);
                 ("headers", PDict [("Content-Type", PStr "application/json")])])
    /\ json_loads body
       = Some (agent_card domain
                 (environ_get environ "AWS_REGION" "us-east-1")
                 (environ_get environ "BEDROCK_MODEL_ID"
                    "us.anthropic.claude-3-5-haiku-20241022-v1:0")).
Proof.
  intros He Hd Ha Hr Hm. unfold lambda_handler.
  rewrite He. cbn [rbind]. rewrite Hd. cbn [rbind].
  eexists. split; [reflexivity|].
  apply json_loads_dumps. now apply agent_card_plain.
Qed.

(** X20.  The card advertises the model the agent uses.  For every environment,
    the model id in the card's metadata is the model id of an agent
    constructed without a model id (or with an empty one), and the card says
    streaming as the agent's model is configured; the regions agree when the
    variables AWS_REGION and AWS_PRIMARY_REGION resolve to the same text. *)
Theorem card_matches_agent (environ : list (string * string))
  (domain : pyval) (model_arg region_arg : option string) :
  (model_arg = None \/ model_arg = Some EmptyString) ->
  (region_arg = None \/ region_arg = Some EmptyString) ->
  let configured := sa_model (MarketAnalysisAgent_init environ model_arg region_arg) in
  exists (card metadata : pydict),
    agent_card domain (environ_get environ "AWS_REGION" "us-east-1")
      (environ_get environ "BEDROCK_MODEL_ID"
         "us.anthropic.claude-3-5-haiku-20241022-v1:0")
    = PDict card
    /\ dict_lookup card "metadata" = Some (PDict metadata)
    /\ dict_lookup metadata "modelId" = Some (PStr (bm_model_id configured))
    /\ dict_lookup metadata "streaming" = Some (PBool (bm_streaming configured))
    /\ (environ_get environ "AWS_REGION" "us-east-1"
        = environ_get environ "AWS_PRIMARY_REGION" "us-east-1" ->
        dict_lookup metadata "region" = Some (PStr (bm_region_name configured))).
Proof.
  intros Hm Hr configured. unfold agent_card. do 2 eexists.
  split; [reflexivity|]. split; [reflexivity|].
  subst configured. unfold MarketAnalysisAgent_init.
  cbn [sa_model bm_model_id bm_streaming bm_region_name].
  destruct Hm as [-> | ->]; destruct Hr as [-> | ->]; cbn [or_else];
    (split; [reflexivity|]); (split; [reflexivity|]);
    intros <-; reflexivity.
Qed.

End CardRoundTrip.

(* ===================================================================== *)
(** * Decoding the encoding of any text *)
(* ===================================================================== *)

Lemma hex_val_digit (d : N) : (d < 16)%N -> hex_val (hex_digit d) = Some d.
Proof.
  intros H.
  destruct d as [|p]; [reflexivity|].
  do 4 (destruct p as [p|p|]; try reflexivity; try lia).
Qed.

Lemma decode_hex4 (n : N) (t : string) :
  decode_uXXXX (hex4 n ++ t) = Some ((n mod 65536)%N, t).
Proof.
  unfold hex4. cbn [append decode_uXXXX].
  rewrite !hex_val_digit by (apply N.mod_lt; discriminate).
  f_equal. f_equal.
  assert (E1 : (n / 256 = n / 16 / 16)%N) by now rewrite N.Div0.div_div.
  assert (E2 : (n / 4096 = n / 16 / 16 / 16)%N) by now rewrite !N.Div0.div_div.
  assert (E3 : (n / 65536 = n / 16 / 16 / 16 / 16)%N) by now rewrite !N.Div0.div_div.
  apply (N.mod_unique n 65536 (n / 65536)); rewrite ?E1, ?E2, ?E3.
  all: pose proof (N.div_mod n 16 ltac:(discriminate)).
  all: pose proof (N.div_mod (n / 16) 16 ltac:(discriminate)).
  all: pose proof (N.div_mod (n / 16 / 16) 16 ltac:(discriminate)).
  all: pose proof (N.div_mod (n / 16 / 16 / 16) 16 ltac:(discriminate)).
  all: pose proof (N.mod_lt n 16 ltac:(discriminate)).
  all: pose proof (N.mod_lt (n / 16) 16 ltac:(discriminate)).
  all: pose proof (N.mod_lt (n / 16 / 16) 16 ltac:(discriminate)).
  all: pose proof (N.mod_lt (n / 16 / 16 / 16) 16 ltac:(discriminate)).
  all: lia.
Qed.


Lemma is_simple_ascii (c : ascii) : is_simple c = true -> is_ascii c = true.
Proof.
  unfold is_simple. intros H. apply andb_true_iff in H. tauto.
Qed.

Lemma simple_no_u (c : ascii) (t : string) :
  is_simple c = true -> drop_prefix "\u" (escape_char (N_of_ascii c) ++ t) = None.
Proof.
  destruct c as [[] [] [] [] [] [] [] []];
    intros H; try (vm_compute in H; discriminate H); reflexivity.
Qed.

Lemma not_simple_hex (c : ascii) :
  is_ascii c = true -> is_simple c = false ->
  escape_char (N_of_ascii c) = "\u" ++ hex4 (N_of_ascii c).
Proof.
  destruct c as [[] [] [] [] [] [] [] []];
    intros H1 H2; try (vm_compute in H1; discriminate H1);
    try (vm_compute in H2; discriminate H2); reflexivity.
Qed.

Lemma scanstring_step_hex
  (k : string -> string -> option (string * string)) (n : N) (x acc : string) :
  scanstring_step k (("\u" ++ hex4 n) ++ x) acc
  = if is_high_surrogate (n mod 65536) then
      match drop_prefix "\u" x with
      | None => k x (acc ++ utf8_encode (n mod 65536))
      | Some r3 =>
          match decode_uXXXX r3 with
          | None => None
          | Some (uni2, r4) =>
              if is_low_surrogate uni2 then
                k r4 (acc ++ utf8_encode
                               (65536 + (n mod 65536 - 55296) * 1024
                                + (uni2 - 56320))%N)
              else k x (acc ++ utf8_encode (n mod 65536))
          end
      end
    else k x (acc ++ utf8_encode (n mod 65536)).
Proof.
  change (("\u" ++ hex4 n) ++ x) with (String "\" (String "u" (hex4 n ++ x))).
  unfold scanstring_step.
  change (Ascii.eqb "\" dq) with false. change (Ascii.eqb "\" "\") with true.
  change (Ascii.eqb "u" "u") with true. cbv iota.
  rewrite decode_hex4. reflexivity.
Qed.

Lemma texts_cons (t : token) (ts : list token) :
  texts (t :: ts) = token_text t ++ texts ts.
Proof.
  unfold texts. cbn [map]. apply concat_empty_cons.
Qed.

Lemma drop_u_hex (n : N) (x : string) :
  drop_prefix "\u" (("\u" ++ hex4 n) ++ x) = Some (hex4 n ++ x).
Proof.
  reflexivity.
Qed.

(** The scanner reads the tokens of an encoded text as [decode_tokens]. *)
Lemma scan_tokens_bounded (n : nat) :
  forall (ts : list token) (f : nat) (acc t : string),
    List.length ts <= n ->
    Forall token_ok ts ->
    List.length ts < f ->
    scanstring f (texts ts ++ String dq t) acc
    = Some (acc ++ decode_tokens ts, t).
Proof.
  induction n as [|n IH]; intros ts f acc t Hn Hs Hf.
  - destruct ts as [|tk ts]; [|cbn [List.length] in Hn; lia].
    destruct f as [|f]; [inversion Hf|].
    cbn [texts map String.concat append scanstring decode_tokens].
    unfold scanstring_step. now rewrite Ascii.eqb_refl, append_empty_r.
  - destruct ts as [|tk ts].
    { apply (IH []); [apply Nat.le_0_l | constructor | exact Hf]. }
    cbn [List.length] in Hn, Hf. destruct f as [|f]; [inversion Hf|].
    inversion Hs as [|tk' ts' Htk Hts]; subst.
    rewrite texts_cons, append_assoc. cbn [scanstring].
    destruct tk as [c|m].
    + cbn [token_text].
      rewrite (scanstring_step_escape c (is_simple_ascii c Htk)).
      rewrite (IH ts) by (try assumption; lia).
      cbn [decode_tokens]. now rewrite append_assoc.
    + cbn [token_text]. rewrite scanstring_step_hex.
      assert (Hplain : scanstring f (texts ts ++ String dq t)
                         (acc ++ utf8_encode (m mod 65536))
                       = Some (acc ++ utf8_encode (m mod 65536) ++ decode_tokens ts, t)).
      { rewrite (IH ts) by (try assumption; lia). now rewrite append_assoc. }
      destruct ts as [|[c2|m2] ts2].
      * cbn [decode_tokens]. cbn [texts map String.concat append] in *.
        change (drop_prefix "\u" (String dq t)) with (@None string).
        destruct (is_high_surrogate (m mod 65536)); exact Hplain.
      * cbn [decode_tokens]. rewrite texts_cons, append_assoc in *.
        cbn [token_text] in *.
        inversion Hts as [|tk' ts' Hc2 Hts2]; subst.
        rewrite (simple_no_u c2 _ Hc2).
        destruct (is_high_surrogate (m mod 65536)); exact Hplain.
      * cbn [decode_tokens]. rewrite texts_cons, append_assoc in *.
        cbn [token_text] in *. rewrite drop_u_hex, decode_hex4.
        inversion Hts as [|tk' ts' Hc2 Hts2]; subst.
        destruct (is_high_surrogate (m mod 65536)); [|exact Hplain].
        destruct (is_low_surrogate (m2 mod 65536)); [|exact Hplain].
        cbn [andb]. cbn [List.length] in Hn, Hf.
        rewrite (IH ts2) by (try assumption; lia).
        now rewrite append_assoc.
Qed.


Lemma escape_char_large (cp : N) :
  (128 <= cp)%N ->
  escape_char cp
  = if (cp <? 65536)%N then "\u" ++ hex4 cp
    else "\u" ++ hex4 (55296 + (cp - 65536) / 1024)%N
         ++ "\u" ++ hex4 (56320 + (cp - 65536) mod 1024)%N.
Proof.
  intros H. unfold escape_char.
  repeat match goal with
  | |- context [(cp =? ?k)%N] =>
      replace (cp =? k)%N with false by (symmetry; apply N.eqb_neq; lia)
  end.
  replace (cp <=? 126)%N with false by (symmetry; apply N.leb_gt; lia).
  now rewrite andb_false_r.
Qed.

Lemma tokens_of_text (cp : N) : escape_char cp = texts (tokens_of cp).
Proof.
  unfold tokens_of. destruct (cp <? 128)%N eqn:E.
  - apply N.ltb_lt in E.
    assert (Hcp : N_of_ascii (ascii_of_N cp) = cp) by (apply N_ascii_embedding; lia).
    assert (Ha : is_ascii (ascii_of_N cp) = true)
      by (unfold is_ascii; rewrite Hcp; now apply N.ltb_lt).
    destruct (is_simple (ascii_of_N cp)) eqn:Es.
    + unfold texts. cbn [map token_text String.concat]. now rewrite Hcp.
    + pose proof (not_simple_hex _ Ha Es) as H. rewrite Hcp in H.
      rewrite H. reflexivity.
  - apply N.ltb_ge in E. rewrite (escape_char_large cp E).
    destruct (cp <? 65536)%N; [reflexivity|].
    unfold texts. cbn [map token_text String.concat]. now rewrite append_assoc.
Qed.

Lemma tokens_of_token_ok (cp : N) : Forall token_ok (tokens_of cp).
Proof.
  unfold tokens_of. destruct (cp <? 128)%N.
  - destruct (is_simple (ascii_of_N cp)) eqn:Es; repeat constructor. exact Es.
  - destruct (cp <? 65536)%N; repeat constructor.
Qed.

Lemma texts_app (a b : list token) : texts (a ++ b)%list = texts a ++ texts b.
Proof.
  induction a as [|t a IH]; [reflexivity|].
  cbn [app]. rewrite !texts_cons, IH. now rewrite append_assoc.
Qed.

Lemma escaped_texts (l : list N) :
  String.concat EmptyString (map escape_char l) = texts (flat_map tokens_of l).
Proof.
  induction l as [|cp l IH]; [reflexivity|].
  cbn [map flat_map]. rewrite concat_empty_cons, texts_app, IH.
  now rewrite tokens_of_text.
Qed.

Lemma flat_tokens_token_ok (l : list N) :
  Forall token_ok (flat_map tokens_of l).
Proof.
  induction l as [|cp l IH]; [constructor|].
  cbn [flat_map]. apply Forall_app. split; [apply tokens_of_token_ok | exact IH].
Qed.

Lemma token_text_length (tk : token) : 1 <= String.length (token_text tk).
Proof.
  destruct tk as [c|n]; cbn [token_text].
  - apply escape_char_length.
  - cbn [append String.length hex4]. lia.
Qed.

Lemma texts_length (ts : list token) : List.length ts <= String.length (texts ts).
Proof.
  induction ts as [|tk ts IH]; [apply le_n|].
  rewrite texts_cons, length_append. cbn [List.length].
  pose proof (token_text_length tk). lia.
Qed.

(** Scanning the encoding of any text succeeds and gives [reread]. *)
Lemma scan_string_literal_reread (s t : string) :
  scan_string_literal
    (String.concat EmptyString (map escape_char (utf8_decode s)) ++ String dq t)
  = Some (reread s, t).
Proof.
  unfold scan_string_literal. rewrite escaped_texts.
  rewrite (scan_tokens_bounded (List.length (flat_map tokens_of (utf8_decode s)))).
  - reflexivity.
  - apply le_n.
  - apply flat_tokens_token_ok.
  - rewrite length_append. cbn [String.length].
    pose proof (texts_length (flat_map tokens_of (utf8_decode s))). lia.
Qed.

(** Simple tokens at the end are read independently of what precedes. *)
Lemma decode_tokens_app_simple (c : ascii) (r : list token) (n : nat) :
  forall ts : list token,
    List.length ts <= n ->
    decode_tokens (ts ++ TSimple c :: r)%list
    = decode_tokens ts ++ decode_tokens (TSimple c :: r).
Proof.
  induction n as [|n IH]; intros ts Hn.
  - destruct ts; [reflexivity | cbn [List.length] in Hn; lia].
  - destruct ts as [|[c1|m] ts]; [reflexivity | |].
    + cbn [List.length] in Hn. cbn [app]. cbn [decode_tokens].
      fold (decode_tokens (TSimple c :: r)).
      rewrite (IH ts) by lia. reflexivity.
    + cbn [List.length] in Hn.
      destruct ts as [|[c2|m2] ts2].
      * cbn [app]. cbn [decode_tokens]. now rewrite append_assoc.
      * pose proof (IH (TSimple c2 :: ts2) ltac:(cbn [List.length] in *; lia)) as H.
        cbn [app] in *.
        change (decode_tokens (THex m :: TSimple c2 :: (ts2 ++ TSimple c :: r)%list))
          with (utf8_encode (m mod 65536)
                ++ decode_tokens (TSimple c2 :: (ts2 ++ TSimple c :: r)%list)).
        rewrite H.
        change (decode_tokens (THex m :: TSimple c2 :: ts2))
          with (utf8_encode (m mod 65536) ++ decode_tokens (TSimple c2 :: ts2)).
        now rewrite append_assoc.
      * pose proof (IH (THex m2 :: ts2) ltac:(cbn [List.length] in *; lia)) as H.
        pose proof (IH ts2 ltac:(cbn [List.length] in *; lia)) as H2.
        cbn [app] in *.
        change (decode_tokens (THex m :: THex m2 :: (ts2 ++ TSimple c :: r)%list))
          with (if is_high_surrogate (m mod 65536) && is_low_surrogate (m2 mod 65536)
                then utf8_encode (65536 + (m mod 65536 - 55296) * 1024
                                  + (m2 mod 65536 - 56320))%N
                     ++ decode_tokens (ts2 ++ TSimple c :: r)%list
                else utf8_encode (m mod 65536)
                     ++ decode_tokens (THex m2 :: (ts2 ++ TSimple c :: r)%list)).
        change (decode_tokens (THex m :: THex m2 :: ts2))
          with (if is_high_surrogate (m mod 65536) && is_low_surrogate (m2 mod 65536)
                then utf8_encode (65536 + (m mod 65536 - 55296) * 1024
                                  + (m2 mod 65536 - 56320))%N
                     ++ decode_tokens ts2
                else utf8_encode (m mod 65536) ++ decode_tokens (THex m2 :: ts2)).
        rewrite H, H2.
        destruct (is_high_surrogate (m mod 65536) && is_low_surrogate (m2 mod 65536));
          now rewrite append_assoc.
Qed.


Lemma ascii_not_continuation (a : ascii) :
  is_ascii a = true -> is_continuation a = false.
Proof.
  unfold is_ascii, is_continuation. intros H. apply N.ltb_lt in H.
  apply andb_false_iff. left. apply N.leb_gt. exact H.
Qed.

(** The code points of a text that ends with an ASCII part end with the code
    points of that part. *)
Lemma utf8_decode_before_ascii (a : ascii) (post : string) (n : nat) :
  is_ascii a = true ->
  forall x : string,
    String.length x <= n ->
    exists l : list N,
      utf8_decode (x ++ String a post) = (l ++ utf8_decode (String a post))%list.
Proof.
  intros Ha. pose proof (ascii_not_continuation a Ha) as Hc.
  induction n as [|n IH]; intros x Hn.
  - destruct x; [now exists [] | cbn [String.length] in Hn; lia].
  - destruct x as [|c x]; [now exists []|]. cbn [String.length] in Hn.
    assert (Hskip : forall cp : N,
              exists l, (cp :: utf8_decode (x ++ String a post)
                         = l ++ utf8_decode (String a post))%list).
    { intros cp. destruct (IH x ltac:(lia)) as (l & Hl).
      exists (cp :: l). now rewrite Hl. }
    cbn [append]. cbn [utf8_decode]. fold (utf8_decode (x ++ String a post)).
    destruct (N_of_ascii c <? 192)%N; [apply Hskip|].
    destruct (N_of_ascii c <? 224)%N.
    { destruct x as [|c1 x1].
      - cbn [append]. rewrite Hc. apply Hskip.
      - cbn [append]. destruct (is_continuation c1); [|apply Hskip].
        destruct (IH x1 ltac:(cbn [String.length] in Hn; lia)) as (l & Hl).
        eexists (_ :: l). rewrite Hl. reflexivity. }
    destruct (N_of_ascii c <? 240)%N.
    { destruct x as [|c1 [|c2 x2]].
      - cbn [append]. destruct post as [|p post]; [apply Hskip|].
        rewrite Hc. apply Hskip.
      - cbn [append]. rewrite Hc, andb_false_r. apply Hskip.
      - cbn [append].
        destruct (is_continuation c1 && is_continuation c2); [|apply Hskip].
        destruct (IH x2 ltac:(cbn [String.length] in Hn; lia)) as (l & Hl).
        eexists (_ :: l). rewrite Hl. reflexivity. }
    destruct x as [|c1 [|c2 [|c3 x3]]].
    + cbn [append]. destruct post as [|p [|p2 post]]; try apply Hskip.
      rewrite Hc. apply Hskip.
    + cbn [append]. destruct post as [|p post]; [apply Hskip|].
      rewrite Hc, andb_false_r. apply Hskip.
    + cbn [append]. rewrite Hc, andb_false_r. apply Hskip.
    + cbn [append].
      destruct (is_continuation c1 && is_continuation c2 && is_continuation c3);
        [|apply Hskip].
      destruct (IH x3 ltac:(cbn [String.length] in Hn; lia)) as (l & Hl).
      eexists (_ :: l). rewrite Hl. reflexivity.
Qed.

(** Well-formed texts are read back as they are: a two-byte character and a
    character above the basic plane, which the encoder writes as a surrogate
    pair. *)
Example reread_non_ascii :
  let e_acute := String (ascii_of_N 195) (String (ascii_of_N 169) EmptyString) in
  let emoji :=
    String (ascii_of_N 240) (String (ascii_of_N 159)
      (String (ascii_of_N 152) (String (ascii_of_N 128) EmptyString))) in
  encode_basestring_ascii ("caf" ++ e_acute ++ emoji)
  = String dq ("caf\u00e9\ud83d\ude00" ++ String dq EmptyString)
  /\ reread ("caf" ++ e_acute ++ emoji) = "caf" ++ e_acute ++ emoji.
Proof.
  vm_compute. split; reflexivity.
Qed.

(** A text that ends with "/dev/tasks/send" is read back, from its encoding,
    as a text that ends with "/tasks/send". *)
Lemma reread_send (x : string) :
  ends_with (reread (x ++ "/dev/tasks/send")) "/tasks/send".
Proof.
  unfold reread.
  destruct (utf8_decode_before_ascii "/" "dev/tasks/send" (String.length x)
              eq_refl x (le_n _)) as (l & Hl).
  change (x ++ "/dev/tasks/send") with (x ++ String "/" "dev/tasks/send").
  rewrite Hl, flat_map_app.
  change (flat_map tokens_of (utf8_decode (String "/" "dev/tasks/send")))
    with (TSimple "/" :: map TSimple (list_ascii_of_string "dev/tasks/send")).
  rewrite (decode_tokens_app_simple "/" _ (List.length (flat_map tokens_of l)))
    by apply le_n.
  exists (decode_tokens (flat_map tokens_of l) ++ "/dev").
  rewrite append_assoc. reflexivity.
Qed.


Section ReadBack.
Context {B : Builtins}.

Lemma dumps_head_any (v : pyval) (t : string) :
  is_number v = false ->
  exists (c : ascii) (r : string),
    json_dumps v ++ t = String c r
    /\ is_ws c = false /\ Ascii.eqb c "]" = false.
Proof.
  destruct v as [| b | z | f | s | l | d]; try discriminate; intros _.
  - now exists "n"%char, ("ull" ++ t).
  - destruct b; [now exists "t"%char, ("rue" ++ t) | now exists "f"%char, ("alse" ++ t)].
  - change (json_dumps (PStr s)) with (encode_basestring_ascii s).
    rewrite encode_basestring_ascii_eq. eexists _, _. now split.
  - rewrite dumps_list_eq. eexists _, _. now split.
  - rewrite dumps_dict_eq. eexists _, _. now split.
Qed.

Lemma skip_ws_dumps_any (v : pyval) (t : string) :
  is_number v = false -> skip_ws (json_dumps v ++ t) = json_dumps v ++ t.
Proof.
  intros H. destruct (dumps_head_any v t H) as (c & r & -> & Hw & _).
  now apply skip_ws_nonws.
Qed.

Lemma plain_reads_as (v : pyval) : plain v = true -> reads_as v v.
Proof.
  exact (plain_decodes v).
Qed.

Lemma plain_not_number (v : pyval) : plain v = true -> is_number v = false.
Proof.
  destruct v; try discriminate; reflexivity.
Qed.

Lemma str_reads_as (s : string) : reads_as (PStr s) (PStr (reread s)).
Proof.
  exists 1. intros f t Hf. destruct f as [|f]; [lia|].
  change (json_dumps (PStr s)) with (encode_basestring_ascii s).
  rewrite encode_basestring_ascii_eq. cbn [scan_once]. unfold scan_once_step.
  rewrite Ascii.eqb_refl.
  now rewrite (scan_string_literal_reread s t).
Qed.

(** The object loop reads the members back, each value as it is read. *)
Lemma members_read (d : pydict) :
  forall d' : pydict,
    Forall2 entry_reads_as d d' ->
    d <> [] ->
    exists f0 : nat,
      forall (f : nat) (acc : list (string * pyval)) (t : string),
        f0 <= f ->
        scan_members f
          (String.concat ", "
             (map (fun kv =>
                     encode_basestring_ascii (fst kv) ++ ": " ++ json_dumps (snd kv))
                d)
           ++ String "}" t) acc
        = Some ((acc ++ d')%list, t).
Proof.
  induction d as [|[k v] d IH]; intros d' Hall Hne; [contradiction|].
  inversion Hall as [|kv kv' d0 d1 Hkv Hall']; subst.
  destruct kv' as [k' v']. destruct Hkv as (Hk' & Hk & Hnum & (fv & Hfv)).
  cbn [fst snd] in *. subst k'.
  destruct d as [|[k2 v2] d].
  - inversion Hall'; subst.
    exists (S fv). intros f acc t Hf. destruct f as [|f]; [lia|].
    cbn [scan_members map fst snd String.concat]. rewrite item_eq.
    apply (members_step_last _ _ _ (json_dumps v ++ String "}" t) t k acc v').
    + now apply scan_string_literal_encoded.
    + rewrite (skip_ws_dumps_any v _ Hnum). apply Hfv. lia.
  - destruct (IH d1 Hall') as (f1 & Hf1); [discriminate|].
    exists (S (Nat.max fv f1)). intros f acc t Hf. destruct f as [|f]; [lia|].
    cbn [scan_members]. cbn [map fst snd]. rewrite concat_cons2_eq, item_eq.
    match goal with
    | |- scan_members_step _ _ (String dq (_ ++ String dq (String ":" (String " " (_ ++ String "," (String " " ?u2)))))) _ = _ =>
        rewrite (members_step_more _ _ _ (json_dumps v ++ String "," (String " " u2))
                   u2 k acc v')
    end.
    + destruct (items_head k2 v2 d (String "}" t)) as (r & Heq).
      cbn [map fst snd] in Heq. rewrite Heq.
      change (skip_ws (String dq r)) with (String dq r). rewrite <- Heq.
      change (scan_members f
                (String.concat ", "
                   (map (fun kv =>
                           encode_basestring_ascii (fst kv) ++ ": "
                           ++ json_dumps (snd kv)) ((k2, v2) :: d))
                 ++ String "}" t) (acc ++ [(k, v')])%list
              = Some ((acc ++ (k, v') :: d1)%list, t)).
      rewrite Hf1 by lia. now rewrite <- app_assoc.
    + now apply scan_string_literal_encoded.
    + rewrite (skip_ws_dumps_any v _ Hnum). apply Hfv. lia.
Qed.

Lemma dict_reads_as (d d' : pydict) :
  Forall2 entry_reads_as d d' ->
  distinct_keys d' = true ->
  reads_as (PDict d) (PDict d').
Proof.
  intros Hall Hd. destruct d as [|[k v] d].
  - inversion Hall; subst.
    exists 1. intros f t Hf. destruct f as [|f]; [lia | reflexivity].
  - destruct (members_read ((k, v) :: d) d' Hall) as (f1 & Hf1); [discriminate|].
    exists (S f1). intros f t Hf. destruct f as [|f]; [lia|].
    rewrite dumps_dict_eq. cbn [scan_once].
    destruct (items_head k v d (String "}" t)) as (r & Heq).
    rewrite Heq, once_step_dict, <- Heq.
    rewrite Hf1 by lia. cbn [app].
    now rewrite (dict_of_pairs_distinct _ Hd).
Qed.

Lemma json_loads_reads_as (v v' : pyval) :
  is_number v = false -> reads_as v v' -> json_loads (json_dumps v) = Some v'.
Proof.
  intros Hn (f0 & Hf0).
  pose proof (skip_ws_dumps_any v EmptyString Hn) as Hw.
  rewrite append_empty_r in Hw.
  remember (Nat.max f0 (2 * String.length (json_dumps v))) as F eqn:HF.
  rewrite (json_loads_fuel (json_dumps v) F) by lia.
  rewrite Hw.
  replace (scan_once F (json_dumps v))
    with (scan_once F (json_dumps v ++ EmptyString))
    by now rewrite append_empty_r.
  rewrite Hf0 by lia. reflexivity.
Qed.

Lemma plain_entry (k : string) (v : pyval) :
  ascii_only k = true -> plain v = true -> entry_reads_as (k, v) (k, v).
Proof.
  intros Hk Hv. repeat split; cbn [fst snd];
    [exact Hk | now apply plain_not_number | now apply plain_reads_as].
Qed.

Lemma str_entry (k s : string) :
  ascii_only k = true -> entry_reads_as (k, PStr s) (k, PStr (reread s)).
Proof.
  intros Hk. repeat split; cbn [fst snd]; [exact Hk | apply str_reads_as].
Qed.

(** The card is read back from its encoding, whatever the domain and the
    environment values are. *)
Lemma agent_card_reads_as (domain : pyval) (region model_id : string) :
  reads_as (agent_card domain region model_id)
    (PDict (reread_card domain region model_id)).
Proof.
  unfold agent_card, reread_card. apply dict_reads_as; [|reflexivity].
  repeat (apply Forall2_cons; [try (now apply plain_entry)|]); [| |apply Forall2_nil].
  - repeat split; cbn [fst snd].
    apply dict_reads_as; [|reflexivity].
    apply Forall2_cons; [now apply str_entry | apply Forall2_nil].
  - repeat split; cbn [fst snd].
    apply dict_reads_as; [|reflexivity].
    repeat (apply Forall2_cons;
            [first [now apply plain_entry | now apply str_entry]|]).
    apply Forall2_nil.
Qed.

Lemma agent_card_body_reads (domain : pyval) (region model_id : string) :
  json_loads (json_dumps (agent_card domain region model_id))
  = Some (PDict (reread_card domain region model_id)).
Proof.
  apply json_loads_reads_as; [reflexivity | apply agent_card_reads_as].
Qed.

End ReadBack.

(* ===================================================================== *)
(** * The response of the agent-card handler *)
(* ===================================================================== *)

(** C9.  For every environment and every event that carries a domain name
    under its request context, the handler returns, without raising, a
    response with status code 200 whose body is JSON text: [json.loads] of
    the body returns an object whose top-level keys are id, name,
    description, protocol, skills, endpoints and metadata, and whose
    endpoints entry is an object with a send value that ends with
    "/tasks/send".  Nothing is assumed of the domain or of the values of the
    environment variables: whatever texts they are, the encoder escapes them
    and the decoder reads the body. *)
Theorem agent_card_response {B : Builtins} (environ : list (string * string))
  (event context request_context domain : pyval) :
  py_getitem event "requestContext" = Ok request_context ->
  py_getitem request_context "domainName" = Ok domain ->
  exists (body : string) (card : pydict) (send : string),
    lambda_handler environ event context
    = Ok (PDict [("statusCode", PInt 200);
                 ("body", PStr body);
                 ("headers", PDict [("Content-Type", PStr "application/json")])])
    /\ json_loads body = Some (PDict card)
    /\ map fst card
       = ["id"; "name"; "description"; "protocol"; "skills"; "endpoints";
          "metadata"]
    /\ dict_lookup card "endpoints" = Some (PDict [("send", PStr send)])
    /\ ends_with send "/tasks/send".
Proof.
  intros He Hd. unfold lambda_handler. rewrite He. cbn [rbind].
  rewrite Hd. cbn [rbind].
  exists (json_dumps
            (agent_card domain (environ_get environ "AWS_REGION" "us-east-1")
               (environ_get environ "BEDROCK_MODEL_ID"
                  "us.anthropic.claude-3-5-haiku-20241022-v1:0"))),
         (reread_card domain (environ_get environ "AWS_REGION" "us-east-1")
            (environ_get environ "BEDROCK_MODEL_ID"
               "us.anthropic.claude-3-5-haiku-20241022-v1:0")),
         (reread ("https://" ++ py_str domain ++ "/dev/tasks/send")).
  split; [reflexivity|].
  split; [apply agent_card_body_reads|].
  split; [reflexivity|]. split; [reflexivity|].
  replace ("https://" ++ py_str domain ++ "/dev/tasks/send")
    with (("https://" ++ py_str domain) ++ "/dev/tasks/send")
    by apply append_assoc.
  apply reread_send.
Qed.

Lemma agent_card_response_witness :
  exists (body : string) (card : pydict) (send : string),
    lambda_handler (B := example_builtins)
      [("AWS_REGION", "eu-west-1")] example_event PNone
    = Ok (PDict [("statusCode", PInt 200);
                 ("body", PStr body);
                 ("headers", PDict [("Content-Type", PStr "application/json")])])
    /\ json_loads body = Some (PDict card)
    /\ map fst card
       = ["id"; "name"; "description"; "protocol"; "skills"; "endpoints";
          "metadata"]
    /\ dict_lookup card "endpoints" = Some (PDict [("send", PStr send)])
    /\ ends_with send "/tasks/send".
Proof.
  apply (agent_card_response (B := example_builtins)
           [("AWS_REGION", "eu-west-1")] example_event PNone
           (PDict [("domainName",
                    PStr "abc123.execute-api.us-east-1.amazonaws.com")])
           (PStr "abc123.execute-api.us-east-1.amazonaws.com"));
    reflexivity.
Defined.

(* ===================================================================== *)
(** * The further properties at concrete inputs *)
(* ===================================================================== *)

Lemma extract_user_context_witness :
  dict_lookup (extract_user_input_from_task (B := example_builtins) task_focus_only)
    "userContext"
  = Some (PStr "Should I buy?").
Proof.
  exact (extract_user_context (B := example_builtins) task_focus_only
           (user_message [TextPart "Should I buy?" None;
                          DataPart [("focus", PStr "dividends")] None])
           eq_refl).
Defined.

Lemma extract_extra_context_witness :
  dict_lookup
    (extract_user_input_from_task (B := example_builtins) task_extra_then_plain)
    "extraContext"
  = Some (PStr "Q3 report").
Proof.
  exact (extract_extra_context (B := example_builtins) task_extra_then_plain
           (user_message
              [DataPart [("sector", PStr "energy");
                         ("extraContext", PStr "Q3 report")] None;
               DataPart [("sector", PStr "tech")] None])
           eq_refl).
Defined.

Lemma extract_ignores_unread_parts_witness :
  extract_user_input_from_task (B := example_builtins) task_empty_data = [].
Proof.
  exact (extract_ignores_unread_parts (B := example_builtins) task_empty_data
           (user_message [DataPart [] None]) eq_refl).
Defined.

Lemma extract_latest_user_message_only_witness :
  extract_user_input_from_task (B := example_builtins) task_conversation
  = [("userContext", PStr "new question")].
Proof.
  apply (extract_latest_user_message_only (B := example_builtins)
           task_conversation
           [user_message [TextPart "old question" None];
            agent_message "first reply"]
           [agent_message "second reply"]
           (user_message [TextPart "new question" None]));
    [reflexivity | reflexivity | repeat constructor].
Defined.

Lemma build_prompt_reads_fields_witness :
  build_prompt (B := example_builtins) [("error", PStr "No user messages found")]
  = build_prompt (B := example_builtins) [].
Proof.
  apply (build_prompt_reads_fields (B := example_builtins)).
  intros k Hin. cbn [input_fields In] in Hin.
  repeat (destruct Hin as [<- | Hin]; [reflexivity|]). contradiction.
Defined.

Lemma build_prompt_risk_text_witness :
  exists prompt : string,
    build_prompt (B := example_builtins)
      (extract_user_input_from_task (B := example_builtins) task_energy)
    = Ok prompt
    /\ contains prompt "Consider risk factors such as: regulation, oil prices.".
Proof.
  eexists. split; [reflexivity|].
  match goal with
  | |- contains ?p _ =>
      apply (proj1 (proj2 (build_prompt_risk_text (B := example_builtins)
                             (extract_user_input_from_task (B := example_builtins)
                                task_energy) p eq_refl))
               ["regulation"; "oil prices"])
  end; [reflexivity | discriminate].
Defined.

Lemma build_prompt_frame_witness :
  exists prompt : string,
    build_prompt (B := example_builtins)
      (extract_user_input_from_task (B := example_builtins) task_energy)
    = Ok prompt
    /\ starts_with prompt "Knowing the user request: None. ".
Proof.
  eexists. split; [reflexivity|].
  match goal with
  | |- starts_with ?p _ =>
      exact (proj1 (build_prompt_frame (B := example_builtins)
                      (extract_user_input_from_task (B := example_builtins)
                         task_energy) p eq_refl))
  end.
Defined.

Lemma prompt_carries_user_text_witness :
  exists prompt : string,
    build_prompt (B := example_builtins)
      (extract_user_input_from_task (B := example_builtins) task_focus_only)
    = Ok prompt
    /\ starts_with prompt "Knowing the user request: Should I buy?. ".
Proof.
  eexists. split; [reflexivity|].
  match goal with
  | |- starts_with ?p _ =>
      exact (prompt_carries_user_text (B := example_builtins) task_focus_only
               (user_message [TextPart "Should I buy?" None;
                              DataPart [("focus", PStr "dividends")] None])
               p eq_refl eq_refl)
  end.
Defined.

Lemma analyze_outcome_witness :
  kind (completed_task task_no_history "X"
          [("tags", PList [PStr "a"; PStr "b"; PStr "c"; PStr "d"]);
           ("sentiment", PStr "positive")]
          "uuid-0" "uuid-1" "2025-01-01T00:00:00")
  = "task".
Proof.
  exact (proj1 (proj2 (proj2 (proj2
    (analyze_outcome (B := example_builtins) (R := scripted) task_no_history
       (completed_task task_no_history "X"
          [("tags", PList [PStr "a"; PStr "b"; PStr "c"; PStr "d"]);
           ("sentiment", PStr "positive")]
          "uuid-0" "uuid-1" "2025-01-01T00:00:00")
       (world_with [Ok "X"; Ok answer_four_tags])
       {| script := []; next_uuid := 2; clock := "2025-01-01T00:00:00" |}
       eq_refl))))).
Defined.

Lemma tag_call_failure_completes_witness :
  exists (task' : Task) (w' : World (Runtime := scripted)) (a : Artifact),
    analyze (B := example_builtins) (R := scripted) task_no_history
      (world_with [Ok "X"; Raise (Exception "RuntimeError" "model unavailable")])
    = (Ok task', w')
    /\ state (status task') = completed
    /\ artifacts task' = Some ([] ++ [a])%list
    /\ name a = Some "Market Summary"
    /\ parts a = [TextPart "X" (Some []);
                  DataPart [("tags", PList []); ("sentiment", PStr "unknown")]
                    (Some [])].
Proof.
  exact (tag_call_failure_completes (B := example_builtins) (R := scripted)
           task_no_history default_prompt "X"
           (Exception "RuntimeError" "model unavailable")
           (world_with [Ok "X"; Raise (Exception "RuntimeError" "model unavailable")])
           (world_with [Raise (Exception "RuntimeError" "model unavailable")])
           (world_with [])
           eq_refl eq_refl eq_refl).
Defined.

Lemma extract_tags_returns_answer_witness :
  extract_tags (B := example_builtins) (R := scripted) "X"
    (world_with [Ok (json_dumps (B := example_builtins) (PDict answer_mapping))])
  = (Ok [("tags", PList [PStr "oil"; PStr "gas"]); ("sentiment", PStr "negative")],
     world_with []).
Proof.
  exact (extract_tags_returns_answer (B := example_builtins) (R := scripted)
           "X" answer_mapping [PStr "oil"; PStr "gas"] "negative"
           (world_with [Ok (json_dumps (B := example_builtins) (PDict answer_mapping))])
           (world_with [])
           eq_refl eq_refl eq_refl eq_refl).
Defined.

Lemma extract_tags_recovers_embedded_answer_witness :
  extract_tags (B := example_builtins) (R := scripted) "X"
    (world_with
       [Ok ("Here you go: "
            ++ json_dumps (B := example_builtins) (PDict answer_mapping)
            ++ " Anything else?")])
  = (Ok [("tags", PList [PStr "oil"; PStr "gas"]); ("sentiment", PStr "negative")],
     world_with []).
Proof.
  exact (extract_tags_recovers_embedded_answer (B := example_builtins)
           (R := scripted) "X" "Here you go: "
           (qq "`tags`: [`oil`, `gas`], `sentiment`: `negative`, `confidence`: `high`")
           " Anything else?" answer_mapping [PStr "oil"; PStr "gas"] "negative"
           (world_with
              [Ok ("Here you go: "
                   ++ json_dumps (B := example_builtins) (PDict answer_mapping)
                   ++ " Anything else?")])
           (world_with [])
           eq_refl eq_refl eq_refl eq_refl eq_refl eq_refl eq_refl eq_refl).
Defined.

Lemma agent_card_body_round_trip_witness :
  exists body : string,
    lambda_handler (B := example_builtins) [] example_event PNone
    = Ok (PDict [("statusCode", PInt 200);
                 ("body", PStr body);
                 ("headers", PDict [("Content-Type", PStr "application/json")])])
    /\ json_loads body
       = Some (agent_card (B := example_builtins)
                 (PStr "abc123.execute-api.us-east-1.amazonaws.com")
                 "us-east-1" "us.anthropic.claude-3-5-haiku-20241022-v1:0").
Proof.
  exact (agent_card_body_round_trip (B := example_builtins) [] example_event PNone
           (PDict [("domainName",
                    PStr "abc123.execute-api.us-east-1.amazonaws.com")])
           (PStr "abc123.execute-api.us-east-1.amazonaws.com")
           eq_refl eq_refl eq_refl eq_refl eq_refl).
Defined.

Lemma card_matches_agent_witness :
  exists (card metadata : pydict),
    agent_card (B := example_builtins) (PStr "example.org") "us-east-1"
      "us.anthropic.claude-3-5-haiku-20241022-v1:0"
    = PDict card
    /\ dict_lookup card "metadata" = Some (PDict metadata)
    /\ dict_lookup metadata "modelId"
       = Some (PStr "us.anthropic.claude-3-5-haiku-20241022-v1:0").
Proof.
  destruct (card_matches_agent (B := example_builtins) [] (PStr "example.org")
              None None (or_introl eq_refl) (or_introl eq_refl))
    as (card & metadata & H1 & H2 & H3 & _).
  exists card, metadata. auto.
Defined.
